(** * gather_modules: collecting module visualisations from antiSMASH results

    A shallow embedding of [gather_modules.py] and the properties of its
    extraction and merge pipeline.

    Conventions of the embedding:
    - JSON values as Python's [json] module loads them are the inductive
      [json]; numbers are integers, as in the results files the script reads.
    - A Python [dict] keeps insertion order, so it is an association list
      handled only through [dict_get], [dict_set] and [dict_del].
    - [str] values are Rocq strings; where characters are tested or counted
      a text is taken to hold characters below 128.
    - A Python exception is a value of [exn]; code that may raise returns a
      [result].
    - The files and the error stream are a [world] that the functions of the
      script pass along.
    - Library functions whose code is not part of the script ([json.loads],
      [json.dump], [repr], the iteration order of a [set], [glob.glob], the
      traceback of the interpreter) are variables of the section. *)

From stdpp Require Import base strings list pretty gmap.
From Stdlib Require Import ZArith Ascii.

Local Open Scope Z_scope.
Local Set Warnings "-register-all".

(** ** Characters the script's literals need *)

Definition dquote : string := String "034"%char EmptyString.
Definition newline : string := String "010"%char EmptyString.

(** ** Insertion-ordered dictionaries *)

Section dict.
Context {K V : Type} (eqb : K → K → bool).

(** [d.get(k)] *)
Fixpoint dict_get (k : K) (d : list (K * V)) : option V :=
  match d with
  | [] => None
  | (k', v) :: d' => if eqb k' k then Some v else dict_get k d'
  end.

(** [d[k] = v]: an existing key keeps its place, a new one goes last. *)
Fixpoint dict_set (k : K) (v : V) (d : list (K * V)) : list (K * V) :=
  match d with
  | [] => [(k, v)]
  | (k', v') :: d' =>
      if eqb k' k then (k', v) :: d' else (k', v') :: dict_set k v d'
  end.

(** [del d[k]] *)
Fixpoint dict_del (k : K) (d : list (K * V)) : list (K * V) :=
  match d with
  | [] => []
  | (k', v') :: d' => if eqb k' k then d' else (k', v') :: dict_del k d'
  end.
End dict.

(** ** JSON values *)

Inductive json : Type :=
| JNull
| JBool (b : bool)
| JInt (n : Z)
| JStr (s : string)
| JArr (xs : list json)
| JObj (kv : list (string * json)).

Abbreviation sget := (dict_get String.eqb).
Abbreviation sset := (dict_set String.eqb).
Abbreviation sdel := (dict_del String.eqb).

(** ** Exceptions and results *)

(** The reasons for which the file operations below fail. *)
Inductive os_error : Type := ENOENT | EEXIST | ENOTDIR | EISDIR.

Inductive exn : Type :=
| InputError (msg : string)
| ValueError (msg : string)
| JSONDecodeError
| KeyError (key : json)
| TypeError
| AttributeError
| IndexError
| OSError (errno : os_error) (path : string)
| SameFileError (src dst : string).

Inductive result (A : Type) : Type :=
| Ok (a : A)
| Raise (e : exn).
Arguments Ok {A} a.
Arguments Raise {A} e.

Global Instance result_ret : MRet result := λ A a, Ok a.
Global Instance result_bind : MBind result := λ A B f m,
  match m with
  | Ok a => f a
  | Raise e => Raise e
  end.

Definition is_ok {A} (r : result A) : bool :=
  match r with Ok _ => true | Raise _ => false end.

(** ** Python's view of JSON values *)

(** [bool(v)] *)
Definition truthy (v : json) : bool :=
  match v with
  | JNull => false
  | JBool b => b
  | JInt n => negb (n =? 0)
  | JStr s => negb (String.eqb s EmptyString)
  | JArr xs => match xs with [] => false | _ => true end
  | JObj kv => match kv with [] => false | _ => true end
  end.

(** [v[key]] for a string [key] *)
Definition py_getitem (v : json) (key : string) : result json :=
  match v with
  | JObj kv =>
      match sget key kv with
      | Some x => Ok x
      | None => Raise (KeyError (JStr key))
      end
  | _ => Raise TypeError
  end.

(** The elements a [for] loop over [v] visits. *)
Definition py_iter (v : json) : result (list json) :=
  match v with
  | JArr xs => Ok xs
  | JStr s => Ok ((λ c, JStr (String c EmptyString)) <$> String.list_ascii_of_string s)
  | JObj kv => Ok ((λ p, JStr p.1) <$> kv)
  | _ => Raise TypeError
  end.

(** [a <= v] for an integer [a] *)
Definition py_int_le (a : Z) (v : json) : result bool :=
  match v with
  | JInt n => Ok (a <=? n)
  | JBool b => Ok (a <=? Z.b2z b)
  | _ => Raise TypeError
  end.

(** [v <= a] for an integer [a] *)
Definition py_le_int (v : json) (a : Z) : result bool :=
  match v with
  | JInt n => Ok (n <=? a)
  | JBool b => Ok (Z.b2z b <=? a)
  | _ => Raise TypeError
  end.

(** Equality of dictionary keys: [True == 1] and [False == 0]. *)
Definition key_eqb (a b : json) : bool :=
  match a, b with
  | JNull, JNull => true
  | JStr s, JStr t => String.eqb s t
  | JInt n, JInt m => n =? m
  | JBool x, JBool y => Bool.eqb x y
  | JBool x, JInt m => Z.b2z x =? m
  | JInt n, JBool y => n =? Z.b2z y
  | _, _ => false
  end.

(** Lists and dictionaries cannot be hashed. *)
Definition hashable (v : json) : bool :=
  match v with
  | JArr _ | JObj _ => false
  | _ => true
  end.

Abbreviation kget := (dict_get key_eqb).
Abbreviation kset := (dict_set key_eqb).

(** ** String methods *)

(** [s.startswith(p)] *)
Definition startswith (s p : string) : bool := String.prefix p s.

(** [s.replace(old, "")] for a non-empty [old]: every occurrence, left to
    right, without overlap. [skip] counts the characters of an occurrence
    still to drop. *)
Fixpoint remove_all_from (old : string) (skip : nat) (s : string) : string :=
  match s with
  | EmptyString => EmptyString
  | String c s' =>
      match skip with
      | S n => remove_all_from old n s'
      | O =>
          if String.prefix old s
          then remove_all_from old (String.length old - 1)%nat s'
          else String c (remove_all_from old O s')
      end
  end.

Definition remove_all (old s : string) : string := remove_all_from old O s.

(** [sep.join(parts)] *)
Fixpoint join (sep : string) (parts : list string) : string :=
  match parts with
  | [] => EmptyString
  | [p] => p
  | p :: ps => p +:+ sep +:+ join sep ps
  end.

(** Removing the longest suffix whose characters satisfy [p]. *)
Fixpoint rstrip_by (p : ascii → bool) (s : string) : string :=
  match s with
  | EmptyString => EmptyString
  | String c s' =>
      match rstrip_by p s' with
      | EmptyString => if p c then EmptyString else String c EmptyString
      | t => String c t
      end
  end.

(** The characters [str.isspace] accepts among the first 128. *)
Definition is_space (c : ascii) : bool :=
  let n := nat_of_ascii c in
  ((9 <=? n)%nat && (n <=? 13)%nat) || ((28 <=? n)%nat && (n <=? 32)%nat).

(** [s.rstrip()] *)
Definition rstrip (s : string) : string := rstrip_by is_space s.

Definition is_semicolon (c : ascii) : bool := Ascii.eqb c ";"%char.

(** [s.rstrip(";")] *)
Definition rstrip_semicolons (s : string) : string :=
  rstrip_by is_semicolon s.

(** [handle.readlines()] on a text whose line ends are already ["\n"]. *)
Fixpoint readlines_from (cur : string) (s : string) : list string :=
  match s with
  | EmptyString =>
      match cur with EmptyString => [] | _ => [String.rev cur] end
  | String c s' =>
      if Ascii.eqb c "010"%char
      then String.rev (String c cur) :: readlines_from EmptyString s'
      else readlines_from (String c cur) s'
  end.

Definition readlines (handle : string) : list string :=
  readlines_from EmptyString handle.

Fixpoint drop_while {A} (p : A → bool) (l : list A) : list A :=
  match l with
  | [] => []
  | x :: l' => if p x then drop_while p l' else l
  end.

Fixpoint take_while {A} (p : A → bool) (l : list A) : list A :=
  match l with
  | [] => []
  | x :: l' => if p x then x :: take_while p l' else []
  end.


(** [s.endswith(p)] *)
Definition endswith (s p : string) : bool :=
  String.prefix (String.rev p) (String.rev s).

(** [s.replace(old, new)] for single characters *)
Fixpoint replace_char (old new : ascii) (s : string) : string :=
  match s with
  | EmptyString => EmptyString
  | String c s' =>
      String (if Ascii.eqb c old then new else c) (replace_char old new s')
  end.

(** ** Files *)

(** What the script sees and changes outside itself: the text of each regular
    file, the directories, and what has been printed on the error stream.
    Paths are compared as strings. *)
Record world : Type := World {
  files : gmap string string;
  dirs : gset string;
  stderr : string;
}.

(** An action on the world that may raise. *)
Definition io (A : Type) : Type := world → result A * world.

Global Instance io_ret : MRet io := λ A a w, (Ok a, w).
Global Instance io_bind : MBind io := λ A B f m w,
  match m w with
  | (Ok a, w') => f a w'
  | (Raise e, w') => (Raise e, w')
  end.

Definition lift {A} (r : result A) : io A := λ w, (r, w).

(** [os.path.join(a, b)] *)
Definition os_path_join (a b : string) : string :=
  if startswith b "/" then b
  else if String.eqb a EmptyString || endswith a "/" then a +:+ b
  else a +:+ "/" +:+ b.

Fixpoint has_slash (p : string) : bool :=
  match p with
  | EmptyString => false
  | String c p' => Ascii.eqb c "/"%char || has_slash p'
  end.

(** [os.path.basename(p)]: what follows the last slash. *)
Fixpoint os_path_basename (p : string) : string :=
  match p with
  | EmptyString => EmptyString
  | String c p' =>
      if Ascii.eqb c "/"%char || has_slash p' then os_path_basename p' else p
  end.

(** What precedes the last slash, that slash included. *)
Fixpoint head_of_path (p : string) : string :=
  match p with
  | EmptyString => EmptyString
  | String c p' =>
      if Ascii.eqb c "/"%char || has_slash p'
      then String c (head_of_path p')
      else EmptyString
  end.

(** [os.path.dirname(p)] *)
Definition os_path_dirname (p : string) : string :=
  let head := head_of_path p in
  match rstrip_by (λ c, Ascii.eqb c "/"%char) head with
  | EmptyString => head
  | stripped => stripped
  end.

Definition os_path_isdir (p : string) (w : world) : bool :=
  bool_decide (p ∈ dirs w).

Definition os_path_exists (p : string) (w : world) : bool :=
  os_path_isdir p w || bool_decide (is_Some (files w !! p)).

(** [open(p, encoding="utf-8")] and reading the handle to its end. *)
Definition open_read (p : string) : io string := λ w,
  match files w !! p with
  | Some text => (Ok text, w)
  | None => (Raise (OSError (if os_path_isdir p w then EISDIR else ENOENT) p), w)
  end.

(** [open(p, "w", encoding="utf-8")]: the file is created or emptied. *)
Definition open_write (p : string) : io unit := λ w,
  let parent := os_path_dirname p in
  if os_path_isdir p w then (Raise (OSError EISDIR p), w)
  else if negb (String.eqb parent EmptyString) && negb (os_path_isdir parent w)
  then (Raise (OSError (if os_path_exists parent w then ENOTDIR else ENOENT) p), w)
  else (Ok (), World (<[p := EmptyString]> (files w)) (dirs w) (stderr w)).

(** [handle.write(text)] on the handle of [p] *)
Definition handle_write (p text : string) : io unit := λ w,
  (Ok (),
   World (<[p := default EmptyString (files w !! p) +:+ text]> (files w))
     (dirs w) (stderr w)).

(** The world as it is now. *)
Definition get_world : io world := λ w, (Ok w, w).

(** [os.path.split(p)] *)
Definition os_path_split (p : string) : string * string :=
  (os_path_dirname p, os_path_basename p).

(** The two lines that [os.makedirs] starts with: the last component of
    the path, slashes after it set aside, and what precedes it. *)
Definition split_leaf (name : string) : string * string :=
  let '(head, tail) := os_path_split name in
  if String.eqb tail EmptyString then os_path_split head else (head, tail).

(** [os.mkdir(name)]: the directory that is to hold the new one has to be
    there, and nothing may exist at the path. An empty parent is the
    working directory. *)
Definition os_mkdir (name : string) : io unit := λ w,
  let parent := (split_leaf name).1 in
  if os_path_exists name w then (Raise (OSError EEXIST name), w)
  else if negb (String.eqb parent EmptyString) && negb (os_path_isdir parent w)
  then (Raise (OSError (if os_path_exists parent w then ENOTDIR else ENOENT)
                 name), w)
  else (Ok (), World (files w) ({[name]} ∪ dirs w) (stderr w)).

(** [try: m except FileExistsError: pass] *)
Definition pass_file_exists (m : io unit) : io unit := λ w,
  match m w with
  | (Raise (OSError EEXIST _), w') => (Ok (), w')
  | other => other
  end.

(** [os.makedirs(name)]: the missing directories above [name] are made
    first, a [FileExistsError] of that recursive call is passed over, and
    nothing more is done for a path that ends in the component [.];
    then [name] itself is made, and an error of that [mkdir] is raised
    again. The recursive call is on a shorter path, so the length of
    [name] is fuel enough. *)
Fixpoint os_makedirs_fuel (fuel : nat) (name : string) : io unit :=
  let '(head, tail) := split_leaf name in
  get_world ≫= λ w,
  if negb (String.eqb head EmptyString) && negb (String.eqb tail EmptyString)
     && negb (os_path_exists head w)
  then
    match fuel with
    | O => os_mkdir name
    | S fuel' =>
        pass_file_exists (os_makedirs_fuel fuel' head) ≫= λ _,
        if String.eqb tail "." then mret () else os_mkdir name
    end
  else os_mkdir name.

Definition os_makedirs (name : string) : io unit :=
  os_makedirs_fuel (String.length name) name.

(** Where [shutil.copy(src, dst)] writes: into [dst] when it is a
    directory. *)
Definition copy_destination (src dst : string) (w : world) : string :=
  if os_path_isdir dst w then os_path_join dst (os_path_basename src)
  else dst.

(** [shutil.copy(src, dst)]: before it opens anything, [copyfile] refuses
    to copy a file onto itself. Paths being compared as strings, source and
    destination are the same file when they are the same path and something
    exists there. *)
Definition shutil_copy (src dst : string) : io unit :=
  get_world ≫= λ w,
  let target := copy_destination src dst w in
  if String.eqb src target && os_path_exists src w
  then lift (Raise (SameFileError src target))
  else
    open_read src ≫= λ text,
    open_write target ≫= λ _,
    handle_write target text.

(** [print(text, file=sys.stderr)] *)
Definition print_stderr (text : string) : io unit := λ w,
  (Ok (), World (files w) (dirs w) (stderr w +:+ text +:+ newline)).

(** ** The script *)

Definition VISUALISER_ROOT : string := "antismash.outputs.html.visualisers".

(** The page's fixed parts. A text is given as its lines, each ended by a
    line feed. *)
Definition unlines (ls : list string) : string :=
  foldr (λ l acc, l +:+ newline +:+ acc) EmptyString ls.

Definition HTML_TOP : string :=
  unlines [
    EmptyString;
    "<html lang=" +:+ dquote +:+ "en" +:+ dquote +:+ ">";
    "<head>";
    "  <meta charset=" +:+ dquote +:+ "utf-8" +:+ dquote +:+ " />";
    "  <title>Collected modules from antiSMASH results</title>";
    "  <link rel=" +:+ dquote +:+ "stylesheet" +:+ dquote
      +:+ " type=" +:+ dquote +:+ "text/css" +:+ dquote
      +:+ " href=" +:+ dquote +:+ "style.css" +:+ dquote +:+ ">";
    "</head>";
    "<body>"
  ].

Definition HTML_BOTTOM : string :=
  unlines [
    EmptyString;
    "  <script src=" +:+ dquote +:+ "custom_antismash.js" +:+ dquote +:+ "></script>";
    "  <script src=" +:+ dquote +:+ "data.js" +:+ dquote +:+ "></script>";
    "  <script src=" +:+ dquote +:+ "jquery.js" +:+ dquote +:+ "></script>";
    "  <script>";
    "    $(document).ready(function() {";
    "        for (record of data) {";
    "            for (area of record.areas) {";
    "                console.log(area.anchor, area.bubbles);";
    "                viewer[" +:+ dquote +:+ "actualDrawDomainBubbleData" +:+ dquote
      +:+ "](area.anchor, area.bubbles);";
    "            }";
    "        }";
    "    })";
    "  </script>";
    "</body>";
    "</html>"
  ].

(** The message of an [OSError], as [print] shows it. *)
Definition os_error_number (errno : os_error) : string :=
  match errno with
  | ENOENT => "[Errno 2] No such file or directory: "
  | EEXIST => "[Errno 17] File exists: "
  | ENOTDIR => "[Errno 20] Not a directory: "
  | EISDIR => "[Errno 21] Is a directory: "
  end.

Section script.
(** [json.loads], also behind [json.load] *)
Variable json_loads : string → result json.
(** [json.dumps(_, indent=1)], what [json.dump(_, handle, indent=1)] writes *)
Variable json_dumps : json → string.
(** [repr] *)
Variable py_repr : json → string.
(** The order in which a [set] built from the given elements yields them *)
Variable set_iter : list json → list json.

(** [str(v)], as an f-string formats [v] *)
Definition py_str (v : json) : string :=
  match v with
  | JNull => "None"
  | JBool b => if b then "True" else "False"
  | JInt n => pretty n
  | JStr s => s
  | _ => py_repr v
  end.

(** *** get_areas *)

(** [f"r{r_index + 1}c{c_index + 1}"] *)
Definition anchor_of (r_index c_index : nat) : string :=
  "r" +:+ pretty (r_index + 1)%nat +:+ "c" +:+ pretty (c_index + 1)%nat.

(** The loop over [enumerate(record["areas"])], from index [c_index] on. *)
Fixpoint get_areas_inner (record : json) (r_index c_index : nat)
    (cs : list json) (areas : list (string * json))
    : result (list (string * json)) :=
  match cs with
  | [] => Ok areas
  | area :: cs' =>
      name ← py_getitem record "id";
      start ← py_getitem area "start";
      end_ ← py_getitem area "end";
      products ← py_getitem area "products";
      get_areas_inner record r_index (S c_index) cs'
        (sset (anchor_of r_index c_index)
           (JObj [("name", name); ("start", start); ("end", end_);
                  ("products", products)])
           areas)
  end.

(** The loop over [enumerate(full_results["records"])], from [r_index] on. *)
Fixpoint get_areas_outer (r_index : nat) (rs : list json)
    (areas : list (string * json)) : result (list (string * json)) :=
  match rs with
  | [] => Ok areas
  | record :: rs' =>
      record_areas ← py_getitem record "areas";
      cs ← py_iter record_areas;
      areas' ← get_areas_inner record r_index 0 cs areas;
      get_areas_outer (S r_index) rs' areas'
  end.

(** [get_areas] once the handle's text is parsed. *)
Definition get_areas_of (full_results : json)
    : result (list (string * json)) :=
  match full_results with
  | JObj top =>
      let schema := default (JInt 0) (sget "schema" top) in
      lower ← py_int_le 2 schema;
      in_range ← (if lower : bool then py_le_int schema 3 else Ok false);
      if negb in_range
      then Raise (InputError
             ("incompatible antiSMASH results file schema version: "
              +:+ py_str schema))
      else
        records ← py_getitem full_results "records";
        rs ← py_iter records;
        get_areas_outer 0 rs []
  | _ => Raise AttributeError
  end.

Definition get_areas (handle : string) : result (list (string * json)) :=
  full_results ← json_loads handle;
  get_areas_of full_results.

(** *** extract_bubble_data *)

(** The lines the two [while] loops put in [relevant_section]. *)
Definition relevant_section (lines : list string) : result (list string) :=
  match drop_while (λ l, negb (startswith l "var resultsData =")) lines with
  | [] => Raise (ValueError "Javascript data does not contain relevant results")
  | l :: rest =>
      Ok (take_while (λ l, negb (startswith l "var "))
            (remove_all "var resultsData = " l :: rest))
  end.

(** The text given to [json.loads]. *)
Definition section_text (section : list string) : string :=
  rstrip_semicolons (rstrip (join " " section)).

(** The loop over [results_data.items()]. *)
Fixpoint bubble_loop (items : list (string * json))
    (bubble_data : list (string * json)) : result (list (string * json)) :=
  match items with
  | [] => Ok bubble_data
  | (anchor, data) :: items' =>
      match data with
      | JObj kv =>
          bubble_loop items'
            (sset anchor
               (default JNull (sget (VISUALISER_ROOT +:+ ".bubble_view") kv))
               bubble_data)
      | _ => Raise AttributeError
      end
  end.

Definition extract_bubble_data (handle : string)
    : result (list (string * json)) :=
  section ← relevant_section (readlines handle);
  results_data ← json_loads (section_text section);
  match results_data with
  | JObj items => bubble_loop items []
  | _ => Raise AttributeError
  end.

(** *** gather_from_files, once both files are read *)

(** [{area["name"] for area in areas.values()}], before the set orders it *)
Fixpoint record_names_of (values : list json) : result (list json) :=
  match values with
  | [] => Ok []
  | area :: rest =>
      name ← py_getitem area "name";
      if hashable name
      then names ← record_names_of rest; Ok (name :: names)
      else Raise TypeError
  end.

(** [{name: {"name": name, "areas": []} for name in record_names}] *)
Definition empty_records (record_names : list json) : list (json * json) :=
  foldl (λ records name,
           kset name (JObj [("name", name); ("areas", JArr [])]) records)
        [] record_names.

(** [list(bubbles.values())[0]] *)
Definition first_value (bubbles : json) : result json :=
  match bubbles with
  | JObj kv =>
      match kv with
      | [] => Raise IndexError
      | (_, v) :: _ => Ok v
      end
  | _ => Raise AttributeError
  end.

(** [records[name]["areas"].append(area)] *)
Definition append_area (name area : json) (records : list (json * json))
    : result (list (json * json)) :=
  match kget name records with
  | None => Raise (KeyError name)
  | Some record =>
      record_areas ← py_getitem record "areas";
      match record, record_areas with
      | JObj rkv, JArr xs =>
          Ok (kset name (JObj (sset "areas" (JArr (xs ++ [area])) rkv)) records)
      | _, _ => Raise AttributeError
      end
  end.

(** One turn of the loop over [areas.items()]. *)
Definition gather_step (bubble_data : list (string * json))
    (records : list (json * json)) (item : string * json)
    : result (list (json * json)) :=
  let '(anchor, area) := item in
  match area with
  | JObj kv =>
      match sget "name" kv with
      | None => Raise (KeyError (JStr "name"))
      | Some name =>
          let bubbles := default JNull (sget anchor bubble_data) in
          if negb (truthy bubbles) then Ok records
          else
            selected ← first_value bubbles;
            append_area name
              (JObj (sset "bubbles" selected (sdel "name" kv))) records
      end
  | JArr _ => Raise TypeError
  | _ => Raise AttributeError
  end.

Fixpoint gather_loop (bubble_data : list (string * json))
    (items : list (string * json)) (records : list (json * json))
    : result (list (json * json)) :=
  match items with
  | [] => Ok records
  | item :: items' =>
      records' ← gather_step bubble_data records item;
      gather_loop bubble_data items' records'
  end.

(** [{key: value for key, value in records.items() if value["areas"]}] *)
Fixpoint relevant_records (items : list (json * json))
    (kept : list (json * json)) : result (list (json * json)) :=
  match items with
  | [] => Ok kept
  | (key, value) :: items' =>
      record_areas ← py_getitem value "areas";
      relevant_records items'
        (if truthy record_areas then kset key value kept else kept)
  end.

(** Lines 125 to 137 of [gather_from_files]. *)
Definition gather_records (areas bubble_data : list (string * json))
    : result (list json) :=
  names ← record_names_of (areas.*2);
  let records := empty_records (set_iter names) in
  records ← gather_loop bubble_data areas records;
  records ← relevant_records records [];
  Ok (records.*2).

(** *** The functions that touch files *)

(** [glob.glob(pattern)]: the paths that match, in the order of the
    directory listing *)
Variable glob_glob : string → world → list string.
(** [os.path.dirname(__file__)] *)
Variable script_dir : string.
(** What the interpreter prints when an exception reaches the top level *)
Variable traceback : exn → string.

Definition gather_from_files (input_dir : string) : io (list json) :=
  get_world ≫= λ w,
  match glob_glob (os_path_join input_dir "*.json") w with
  | [] =>
      lift (Raise (InputError
        ("No results file ('*.json') in result directory: " +:+ input_dir)))
  | first_match :: _ =>
      open_read first_match ≫= λ handle,
      lift (get_areas handle) ≫= λ areas,
      open_read (os_path_join input_dir "regions.js") ≫= λ handle,
      lift (extract_bubble_data handle) ≫= λ bubble_data,
      lift (gather_records areas bubble_data)
  end.

(** The comprehension of [process_all_results]. *)
Fixpoint gather_all (input_dirs : list string) : io (list json) :=
  match input_dirs with
  | [] => mret []
  | input_dir :: rest =>
      gather_from_files input_dir ≫= λ records,
      gather_all rest ≫= λ others,
      mret (records ++ others)
  end.

Definition process_all_results (input_dirs : list string) : io (list json) :=
  match input_dirs with
  | [] => lift (Raise (ValueError "No result directories provided"))
  | _ => gather_all input_dirs
  end.

(** The elements of [", ".join(_)] have to be strings. *)
Fixpoint strs_of (xs : list json) : result (list string) :=
  match xs with
  | [] => Ok []
  | JStr s :: rest => strs ← strs_of rest; Ok (s :: strs)
  | _ :: _ => Raise TypeError
  end.

(** The body of the loop over a record's areas: the area gets its
    [anchor] and two elements are written to the page. The area as the
    loop leaves it is returned. *)
Definition render_area (index : string) (record area : json) : io json :=
  lift (py_getitem record "name") ≫= λ name,
  match name with
  | JStr s =>
      lift (py_getitem area "start") ≫= λ start,
      match area with
      | JObj kv =>
          let area_anchor :=
            replace_char "."%char "-"%char s +:+ "-" +:+ py_str start in
          let area := JObj (sset "anchor" (JStr area_anchor) kv) in
          let anchor := area_anchor +:+ "-domain-bubble-svg-container" in
          let style :=
            "font-weight:bold; margin-bottom: -2em; margin-top: 2em;" in
          lift (py_getitem area "start") ≫= λ start,
          lift (py_getitem area "end") ≫= λ end_,
          let location := py_str start +:+ "-" +:+ py_str end_ in
          lift (py_getitem area "products") ≫= λ area_products,
          lift (py_iter area_products) ≫= λ items,
          lift (strs_of items) ≫= λ strs,
          let products := join ", " strs in
          handle_write index
            ("  <div style=" +:+ dquote +:+ style +:+ dquote +:+ ">"
             +:+ py_str name +:+ ": " +:+ location +:+ ": " +:+ products
             +:+ "</div>") ≫= λ _,
          handle_write index ("  <div id=" +:+ anchor +:+ "></div>") ≫= λ _,
          mret area
      | _ => lift (Raise TypeError)
      end
  | _ => lift (Raise AttributeError)
  end.

Fixpoint render_areas (index : string) (record : json) (areas : list json)
    : io (list json) :=
  match areas with
  | [] => mret []
  | area :: rest =>
      render_area index record area ≫= λ area',
      render_areas index record rest ≫= λ rest',
      mret (area' :: rest')
  end.

(** The body of the loop over the records. The areas are changed in
    place, so the record holds them as the loop left them. *)
Definition render_record (index : string) (record : json) : io json :=
  lift (py_getitem record "areas") ≫= λ record_areas,
  lift (py_iter record_areas) ≫= λ areas,
  render_areas index record areas ≫= λ areas',
  match record, record_areas with
  | JObj kv, JArr _ => mret (JObj (sset "areas" (JArr areas') kv))
  | _, _ => mret record
  end.

Fixpoint render_records (index : string) (records : list json)
    : io (list json) :=
  match records with
  | [] => mret []
  | record :: rest =>
      render_record index record ≫= λ record',
      render_records index rest ≫= λ rest',
      mret (record' :: rest')
  end.

Fixpoint copy_dependencies (output_dir : string) (deps : list string)
    : io unit :=
  match deps with
  | [] => mret ()
  | dep :: rest =>
      shutil_copy dep (os_path_join output_dir (os_path_basename dep)) ≫= λ _,
      copy_dependencies output_dir rest
  end.

Definition generate_page (inputs : list string) (output_dir : string)
    : io unit :=
  process_all_results inputs ≫= λ all_results,
  let index := os_path_join output_dir "index.html" in
  open_write index ≫= λ _,
  handle_write index HTML_TOP ≫= λ _,
  render_records index all_results ≫= λ all_results,
  handle_write index HTML_BOTTOM ≫= λ _,
  let data := os_path_join output_dir "data.js" in
  open_write data ≫= λ _,
  handle_write data "var data = " ≫= λ _,
  handle_write data (json_dumps (JArr all_results)) ≫= λ _,
  handle_write data ";" ≫= λ _,
  get_world ≫= λ w,
  copy_dependencies output_dir
    (glob_glob
       (os_path_join (os_path_join script_dir "dependencies") "*") w).

(** The text of a [SameFileError]: [str(err)] for the error that
    [shutil.copyfile] raises. *)
Definition same_file_message (src dst : string) : string :=
  py_repr (JStr src) +:+ " and " +:+ py_repr (JStr dst)
  +:+ " are the same file".

(** [try: generate_page(...) except (OSError, InputError) as err: ...];
    [SameFileError] is a subclass of [OSError]. *)
Definition report_errors (body : io unit) : io Z := λ w,
  match body w with
  | (Ok _, w') => (Ok 0, w')
  | (Raise (InputError msg), w') => (print_stderr msg ≫= λ _, mret 1) w'
  | (Raise (OSError errno path), w') =>
      (print_stderr (os_error_number errno +:+ py_repr (JStr path)) ≫= λ _,
       mret 1) w'
  | (Raise (SameFileError src dst), w') =>
      (print_stderr (same_file_message src dst) ≫= λ _, mret 1) w'
  | (Raise e, w') => (Raise e, w')
  end.

Definition _main (input_dir output_dir : string) : io Z :=
  get_world ≫= λ w,
  if negb (os_path_isdir input_dir w)
  then print_stderr ("Input is not a directory: " +:+ input_dir) ≫= λ _, mret 1
  else
    (if negb (os_path_exists output_dir w)
     then os_makedirs output_dir else mret ()) ≫= λ _,
    get_world ≫= λ w,
    if negb (os_path_isdir output_dir w)
    then print_stderr ("Input is not a directory: " +:+ input_dir) ≫= λ _, mret 1
    else
      let result_files := glob_glob (os_path_join input_dir "*") w in
      report_errors (generate_page result_files output_dir).

(** [sys.exit(_main(args.inputs, args.output))]: the exit status and the
    world the process leaves. An exception that nothing caught ends the
    process with status 1 after its traceback is printed. *)
Definition main_block (inputs output : string) (w : world) : Z * world :=
  match _main inputs output w with
  | (Ok code, w') => (code, w')
  | (Raise e, w') =>
      (1, World (files w') (dirs w') (stderr w' +:+ traceback e))
  end.
End script.

(** ** Instances of the library functions, for examples *)

(** A set that yields its elements in the order of their first insertion. *)
Fixpoint first_seen (l : list json) : list json :=
  match l with
  | [] => []
  | x :: l' => x :: List.filter (λ y, negb (key_eqb x y)) (first_seen l')
  end.

(** A parser that knows the texts of [table] and rejects every other one. *)
Definition table_loads (table : list (string * json)) (text : string)
    : result json :=
  match sget text table with
  | Some v => Ok v
  | None => Raise JSONDecodeError
  end.

(** A directory listing that answers the patterns of [table]. *)
Definition table_glob (table : list (string * list string))
    (pattern : string) (w : world) : list string :=
  default [] (sget pattern table).

(** ** Notions the properties are stated with *)

Definition has_key (key : string) (kv : list (string * json)) : bool :=
  match sget key kv with
  | Some _ => true
  | None => false
  end.

(** An area with the fields [get_areas] reads. *)
Definition area_shape (area : json) : bool :=
  match area with
  | JObj kv => has_key "start" kv && has_key "end" kv && has_key "products" kv
  | _ => false
  end.

(** A record with an [id] and a list of such areas. *)
Definition record_shape (record : json) : bool :=
  match record with
  | JObj kv =>
      has_key "id" kv &&
      match sget "areas" kv with
      | Some (JArr cs) => forallb area_shape cs
      | _ => false
      end
  | _ => false
  end.

(** A results document whose [records] is a list of such records. *)
Definition results_shape (top : list (string * json)) : bool :=
  match sget "records" top with
  | Some (JArr rs) => forallb record_shape rs
  | _ => false
  end.

Definition incompatible_schema (version : string) : exn :=
  InputError
    ("incompatible antiSMASH results file schema version: " +:+ version).

(** The areas of a record and a field of an object, where there are any. *)
Definition record_areas (record : json) : list json :=
  match record with
  | JObj kv =>
      match sget "areas" kv with
      | Some (JArr cs) => cs
      | _ => []
      end
  | _ => []
  end.

Definition field (key : string) (v : json) : json :=
  match v with
  | JObj kv => default JNull (sget key kv)
  | _ => JNull
  end.

(** What [get_areas] stores for an area of a record. *)
Definition area_entry (record area : json) : json :=
  JObj [("name", field "id" record); ("start", field "start" area);
        ("end", field "end" area); ("products", field "products" area)].

(** The entries of the areas [cs] of a record at index [r_index], the first
    of them at index [c_index], and of the records [rs], the first of them at
    index [r_index]. *)
Fixpoint entries_from (record : json) (r_index c_index : nat)
    (cs : list json) : list (string * json) :=
  match cs with
  | [] => []
  | area :: cs' =>
      (anchor_of r_index c_index, area_entry record area)
      :: entries_from record r_index (S c_index) cs'
  end.

Fixpoint all_entries_from (r_index : nat) (rs : list json)
    : list (string * json) :=
  match rs with
  | [] => []
  | record :: rs' =>
      entries_from record r_index 0 (record_areas record)
      ++ all_entries_from (S r_index) rs'
  end.

(** The anchors of a document whose records, from index [r_index] on, have
    the given numbers of areas. *)
Fixpoint count_anchors (r_index : nat) (counts : list nat) : list string :=
  match counts with
  | [] => []
  | n :: counts' =>
      (anchor_of r_index <$> seq 0 n) ++ count_anchors (S r_index) counts'
  end.

Definition is_digit (c : ascii) : bool :=
  let n := nat_of_ascii c in (48 <=? n)%nat && (n <=? 57)%nat.

Fixpoint all_digits (s : string) : bool :=
  match s with
  | EmptyString => true
  | String c s' => is_digit c && all_digits s'
  end.

(** Every key of [d] is an anchor of a position before record [r_index],
    area [c_index]. *)
Definition anchors_before (r_index c_index : nat) (d : list (string * json))
    : Prop :=
  Forall (λ k, ∃ i j, k = anchor_of i j ∧
                      (i < r_index ∨ i = r_index ∧ j < c_index)%nat)
         (d.*1).

(** [bubble_data.get(anchor)] *)
Definition bubbles_of (bubble_data : list (string * json)) (anchor : string)
    : json :=
  default JNull (sget anchor bubble_data).

Definition is_obj (v : json) : bool :=
  match v with
  | JObj _ => true
  | _ => false
  end.

(** An item of [areas] as [get_areas] builds them: a dictionary with a
    [name] that can be hashed. *)
Definition item_ok (item : string * json) : bool :=
  match item.2 with
  | JObj kv =>
      match sget "name" kv with
      | Some name => hashable name
      | None => false
      end
  | _ => false
  end.

(** The bubble data of the item's anchor is a dictionary, unless it is
    absent or falsy. *)
Definition payload_ok (bubble_data : list (string * json))
    (item : string * json) : bool :=
  negb (truthy (bubbles_of bubble_data item.1))
  || is_obj (bubbles_of bubble_data item.1).

(** For an item the loop keeps: the name of its record and the area as it
    is appended. *)
Definition kept_area (bubble_data : list (string * json))
    (item : string * json) : option (json * json) :=
  match item.2 with
  | JObj kv =>
      match sget "name" kv, bubbles_of bubble_data item.1 with
      | Some name, JObj ((_, selected) :: _) =>
          Some (name, JObj (sset "bubbles" selected (sdel "name" kv)))
      | _, _ => None
      end
  | _ => None
  end.

(** The kept areas of the items whose name is the key [n]. *)
Definition collected (bubble_data : list (string * json)) (n : json)
    (items : list (string * json)) : list json :=
  omap (λ item,
          match kept_area bubble_data item with
          | Some (name, area) => if key_eqb n name then Some area else None
          | None => None
          end) items.

Definition aggregated (n : json) (xs : list json) : json :=
  JObj [("name", n); ("areas", JArr xs)].

(** The aggregated records for the names of [order], those without areas
    left out. *)
Definition expected_records (bubble_data : list (string * json))
    (order : list json) (items : list (string * json)) : list json :=
  omap (λ n,
          match collected bubble_data n items with
          | [] => None
          | xs => Some (aggregated n xs)
          end) order.

(** The names under which the records of [areas] are grouped. *)
Definition item_names (items : list (string * json)) : list json :=
  (λ item, field "name" item.2) <$> items.

(** No two elements are equal as keys. *)
Fixpoint distinct_keys (l : list json) : bool :=
  match l with
  | [] => true
  | x :: l' => forallb (λ y, negb (key_eqb x y)) l' && distinct_keys l'
  end.

Definition has_name (order : list json) (name : json) : bool :=
  existsb (λ n, key_eqb n name) order.

(** [order] is an order in which a set built from [names] may yield its
    elements. *)
Definition set_order_ok (order names : list json) : bool :=
  distinct_keys order && forallb (has_name order) names.

(** The records under construction, as names with the areas appended so
    far. *)
Definition to_records (groups : list (json * list json))
    : list (json * json) :=
  (λ g, (g.1, aggregated g.1 g.2)) <$> groups.

Fixpoint add_to (name area : json) (groups : list (json * list json))
    : list (json * list json) :=
  match groups with
  | [] => []
  | (n, xs) :: groups' =>
      if key_eqb n name then (n, xs ++ [area]) :: groups'
      else (n, xs) :: add_to name area groups'
  end.

Definition add_kept (bubble_data : list (string * json))
    (groups : list (json * list json)) (item : string * json)
    : list (json * list json) :=
  match kept_area bubble_data item with
  | Some (name, area) => add_to name area groups
  | None => groups
  end.

Definition nonempty_group (g : json * list json) : bool :=
  match g.2 with
  | [] => false
  | _ => true
  end.

(** Every value of the bubble data is a dictionary or falsy. *)
Definition bubble_data_ok (bubble_data : list (string * json)) : bool :=
  forallb (λ p, negb (truthy p.2) || is_obj p.2) bubble_data.

(** The area of a kept item, as the loop appends it. *)
Definition with_bubbles (selected area : json) : json :=
  match area with
  | JObj kv => JObj (sset "bubbles" selected (sdel "name" kv))
  | _ => area
  end.

(** What the specification says of an anchor's area: it is dropped when the
    anchor is absent from the bubble data or when the value of the first
    variant is falsy. *)
Definition dropped_as_specified (bubble_data : list (string * json))
    (anchor : string) : bool :=
  match sget anchor bubble_data with
  | None => true
  | Some (JObj ((_, selected) :: _)) => negb (truthy selected)
  | Some _ => true
  end.

(** The item's anchor has truthy bubble data. *)
Definition populated (bubble_data : list (string * json))
    (item : string * json) : bool :=
  truthy (bubbles_of bubble_data item.1).

(** The number of areas that a list of aggregated records holds. *)
Definition area_total (records : list json) : nat :=
  sum_list ((λ record, length (record_areas record)) <$> records).

(** Among [n_areas] areas of the record at [r_index], those whose anchor has
    truthy bubble data. *)
Definition populated_count (bubble_data : list (string * json))
    (r_index n_areas : nat) : nat :=
  length (List.filter
            (λ c_index, truthy (bubbles_of bubble_data (anchor_of r_index c_index)))
            (seq 0 n_areas)).

(** The aggregated records whose name is the key [id]. *)
Definition records_named (id : json) (records : list json) : list json :=
  List.filter (λ record, key_eqb (field "name" record) id) records.

(** The item is populated and of a record whose name is the key [n]. *)
Definition populated_named (bubble_data : list (string * json)) (n : json)
    (item : string * json) : bool :=
  populated bubble_data item && key_eqb n (field "name" item.2).

(** ** The text of the assignment, as the specification words it *)

Fixpoint all_chars (p : ascii → bool) (s : string) : bool :=
  match s with
  | EmptyString => true
  | String c s' => p c && all_chars p s'
  end.

Fixpoint last_char (s : string) : option ascii :=
  match s with
  | EmptyString => None
  | String c EmptyString => Some c
  | String _ s' => last_char s'
  end.

(** Removing one [;] from the end, if there is one. *)
Fixpoint strip_one_semicolon (s : string) : string :=
  match s with
  | EmptyString => EmptyString
  | String c EmptyString => if is_semicolon c then EmptyString else s
  | String c s' => String c (strip_one_semicolon s')
  end.

(** "Concatenate the collected lines with single-space separators, strip
    trailing whitespace, strip a single trailing [;] if present". *)
Definition section_text_as_specified (section : list string) : string :=
  strip_one_semicolon (rstrip (join " " section)).

(** No line of the text starts with [prefix]. *)
Definition lacks_prefix (prefix handle : string) : bool :=
  forallb (λ l, negb (startswith l prefix)) (readlines handle).

(** ** The page and the data file *)

(** [open(p, "w")] succeeds. *)
Definition can_write (p : string) (w : world) : bool :=
  negb (os_path_isdir p w)
  && (String.eqb (os_path_dirname p) EmptyString
      || os_path_isdir (os_path_dirname p) w).

(** An area and a record that the loop of [generate_page] can render. *)
Definition area_renderable (area : json) : bool :=
  match area with
  | JObj kv =>
      has_key "start" kv && has_key "end" kv &&
      match sget "products" kv with
      | Some products =>
          match py_iter products with
          | Ok items => is_ok (strs_of items)
          | Raise _ => false
          end
      | None => false
      end
  | _ => false
  end.

Definition record_renderable (record : json) : bool :=
  match record with
  | JObj kv =>
      match sget "name" kv, sget "areas" kv with
      | Some (JStr _), Some (JArr areas) => forallb area_renderable areas
      | _, _ => false
      end
  | _ => false
  end.

(** The area and the record as the loop leaves them: each area has got
    its [anchor]. *)
Definition annotate_area (py_repr : json → string) (name : string)
    (area : json) : json :=
  match area with
  | JObj kv =>
      JObj (sset "anchor"
              (JStr (replace_char "."%char "-"%char name +:+ "-"
                     +:+ py_str py_repr (field "start" area)))
              kv)
  | _ => area
  end.

Definition annotate_record (py_repr : json → string) (record : json) : json :=
  match record with
  | JObj kv =>
      match sget "name" kv, sget "areas" kv with
      | Some (JStr name), Some (JArr areas) =>
          JObj (sset "areas" (JArr (annotate_area py_repr name <$> areas)) kv)
      | _, _ => record
      end
  | _ => record
  end.

(** [w'] differs from [w] in the file [p] at most. *)
Definition only_file (p : string) (w w' : world) : Prop :=
  dirs w' = dirs w ∧ stderr w' = stderr w ∧
  ∀ q, q ≠ p → files w' !! q = files w !! q.

(** An action that leaves the world as it found it. *)
Definition reads_only {A} (m : io A) : Prop := ∀ w, (m w).2 = w.

(** ** Example inputs *)

Module Example.
Definition bubble_view : string := VISUALISER_ROOT +:+ ".bubble_view".

Definition area (start end_ : Z) : json :=
  JObj [("start", JInt start); ("end", JInt end_);
        ("products", JArr [JStr "NRPS"; JStr "T1PKS"])].

Definition record (id : string) (areas : list json) : json :=
  JObj [("id", JStr id); ("areas", JArr areas)].

Definition records : list json :=
  [record "NC_1.1" [area 1 10; area 20 30]; record "NC_2" [area 5 6]].

(** A results document of schema 3, one of schema 5, one without schema,
    and one whose two records have the same [id]. *)
Definition top : list (string * json) :=
  [("schema", JInt 3); ("records", JArr records)].
Definition top_old : list (string * json) :=
  [("schema", JInt 5); ("records", JArr records)].
Definition top_bare : list (string * json) :=
  [("records", JArr records)].
Definition top_zero : list (string * json) :=
  [("schema", JInt 0); ("records", JArr records)].
Definition twins : list json :=
  [record "NC_1.1" [area 1 10]; record "NC_1.1" [area 20 30]].
Definition top_twins : list (string * json) :=
  [("schema", JInt 3); ("records", JArr twins)].

Definition modules : json := JObj [("modules", JArr [JInt 1])].

(** The results data of a script file: two variants for the first area,
    no bubble view for the second, no variant for the third. *)
Definition results_data : json :=
  JObj [("r1c1", JObj [(bubble_view,
                        JObj [("CC1", modules); ("CC2", JObj [])])]);
        ("r1c2", JObj [("other", JInt 1)]);
        ("r2c1", JObj [(bubble_view, JObj [])])].

Definition bubble_data : list (string * json) :=
  [("r1c1", JObj [("CC1", modules); ("CC2", JObj [])]);
   ("r1c2", JNull);
   ("r2c1", JObj [])].

(** The same with other names for the variants and another second one. *)
Definition bubble_data_renamed : list (string * json) :=
  [("r1c1", JObj [("first", modules); ("second", JInt 7)]);
   ("r1c2", JNull);
   ("r2c1", JObj [])].

(** A first variant whose value is empty. *)
Definition bubble_data_empty_variant : list (string * json) :=
  [("r1c1", JObj [("CC1", JObj [])])].

(** Bubble data for both records of [twins]. *)
Definition bubble_data_twins : list (string * json) :=
  [("r1c1", JObj [("CC1", modules)]); ("r2c1", JObj [("CC1", modules)])].

(** The texts stand for the JSON they name. *)
Definition loads : string → result json :=
  table_loads
    [("RESULTS", JObj top); ("OLD", JObj top_old); ("BARE", JObj top_bare);
     ("ZERO", JObj top_zero); ("TWINS", JObj top_twins);
     ("DATA", results_data); ("{}", JObj [])].

Definition repr (v : json) : string :=
  match v with
  | JStr s => "'" +:+ s +:+ "'"
  | _ => "[...]"
  end.

Definition dumps (v : json) : string := "[...]".

Definition traceback (e : exn) : string :=
  "Traceback (most recent call last):" +:+ newline.

Definition regions_js : string :=
  "var resultsData = DATA;" +:+ newline +:+ "var other = 1;" +:+ newline.

Definition regions_js_without : string :=
  "var other = 1;" +:+ newline.

Definition glob : string → world → list string :=
  table_glob
    [("in/*", ["in/run1"]);
     ("in/run1/*.json", ["in/run1/results.json"]);
     ("bad/*", ["bad/run1"]);
     ("bad/run1/*.json", ["bad/run1/results.json"]);
     ("/opt/gather/dependencies/*", ["/opt/gather/dependencies/style.css"])].

Definition world0 : world :=
  World
    (list_to_map
       [("in/run1/results.json", "RESULTS");
        ("in/run1/regions.js", regions_js);
        ("bad/run1/results.json", "RESULTS");
        ("bad/run1/regions.js", regions_js_without);
        ("/opt/gather/dependencies/style.css", "body {}")])
    (list_to_set ["in"; "in/run1"; "bad"; "bad/run1"; "out"])
    EmptyString.

Definition areas : list (string * json) := all_entries_from 0 records.

Definition all_results : list json :=
  Eval vm_compute in
    match gather_records first_seen areas bubble_data with
    | Ok out => out
    | Raise _ => []
    end.

Definition twins_out : list json :=
  Eval vm_compute in
    match gather_records first_seen (all_entries_from 0 twins)
            bubble_data_twins with
    | Ok out => out
    | Raise _ => []
    end.

Definition empty_variant_out : list json :=
  Eval vm_compute in
    match gather_records first_seen areas bubble_data_empty_variant with
    | Ok out => out
    | Raise _ => []
    end.

Definition missing : exn :=
  ValueError "Javascript data does not contain relevant results".
End Example.

(** ** Notions for the further properties *)

(** The payload that [extract_bubble_data] keeps for an entry of the
    results data: [data.get(f"{VISUALISER_ROOT}.bubble_view")]. *)
Definition bubble_view_of (data : json) : json :=
  field (VISUALISER_ROOT +:+ ".bubble_view") data.

(** The fields that [get_areas] reads with a subscript. *)
Definition get_areas_fields : list string :=
  ["records"; "areas"; "id"; "start"; "end"; "products"].

(** An action that changes neither the directories nor the error stream. *)
Definition quiet {A} (m : io A) : Prop :=
  ∀ w, dirs (m w).2 = dirs w ∧ stderr (m w).2 = stderr w.

(** An action that at most adds directories. *)
Definition adds_dirs {A} (m : io A) : Prop :=
  ∀ w, files (m w).2 = files w ∧ stderr (m w).2 = stderr w ∧
       dirs w ⊆ dirs (m w).2.

(** What [print(err, file=sys.stderr)] shows for an exception that [_main]
    catches; [None] for the exceptions it lets through. *)
Definition reported (py_repr : json → string) (e : exn) : option string :=
  match e with
  | InputError msg => Some msg
  | OSError errno path => Some (os_error_number errno +:+ py_repr (JStr path))
  | SameFileError src dst => Some (same_file_message py_repr src dst)
  | _ => None
  end.

(** The world after [print(text, file=sys.stderr)]. *)
Definition printed (text : string) (w : world) : world :=
  World (files w) (dirs w) (stderr w +:+ text +:+ newline).

(** ** What gathering returns *)

(** An area as [gather_from_files] returns it: the three fields that
    [get_areas] took from the area of the results file, then the selected
    bubbles. *)
Definition kept_fields (area selected : json) : json :=
  JObj [("start", field "start" area); ("end", field "end" area);
        ("products", field "products" area); ("bubbles", selected)].

(** A record of a results file whose [id] is a string and whose areas have
    a [start], an [end] and [products] that [", ".join] accepts. *)
Definition record_typed (record : json) : bool :=
  match record with
  | JObj kv =>
      match sget "id" kv, sget "areas" kv with
      | Some (JStr _), Some (JArr cs) => forallb area_renderable cs
      | _, _ => false
      end
  | _ => false
  end.

(** ** The page *)

Definition concat_text (parts : list string) : string :=
  foldr String.append EmptyString parts.

(** The two elements that the loop of [generate_page] writes for an area
    of the record [name]. *)
Definition area_html (py_repr : json → string) (name : string) (area : json)
    : string :=
  let start := field "start" area in
  let end_ := field "end" area in
  let area_anchor :=
    replace_char "."%char "-"%char name +:+ "-" +:+ py_str py_repr start in
  let anchor := area_anchor +:+ "-domain-bubble-svg-container" in
  let style := "font-weight:bold; margin-bottom: -2em; margin-top: 2em;" in
  let location := py_str py_repr start +:+ "-" +:+ py_str py_repr end_ in
  let products :=
    match py_iter (field "products" area) ≫= strs_of with
    | Ok strs => join ", " strs
    | Raise _ => EmptyString
    end in
  ("  <div style=" +:+ dquote +:+ style +:+ dquote +:+ ">"
   +:+ name +:+ ": " +:+ location +:+ ": " +:+ products +:+ "</div>")
  +:+ ("  <div id=" +:+ anchor +:+ "></div>").

(** What is written for a record, and for all of them. *)
Definition record_html (py_repr : json → string) (record : json) : string :=
  match field "name" record with
  | JStr name => concat_text (area_html py_repr name <$> record_areas record)
  | _ => EmptyString
  end.

Definition page_body (py_repr : json → string) (records : list json)
    : string :=
  concat_text (record_html py_repr <$> records).

(** [w'] has the directories and the error stream of [w], and every file
    of [w] is still a file in it. *)
Definition files_kept (w w' : world) : Prop :=
  dirs w' = dirs w ∧ stderr w' = stderr w ∧
  ∀ p, is_Some (files w !! p) → is_Some (files w' !! p).

(** An action after which every file is still a file, and which changes
    neither the directories nor the error stream. *)
Definition keeps_files {A} (m : io A) : Prop :=
  ∀ w, files_kept w (m w).2.

(** ** Example runs that fail *)

Module Runs.
(** Three input directories. Each has a first result directory that is
    complete; the second one has no results file, or no [regions.js], or
    results of schema 5. A fourth input directory has one result directory,
    whose script file assigns the results without a space after the equals
    sign. *)
Definition glob : string → world → list string :=
  table_glob
    [("nospace/*", ["nospace/run1"]);
     ("nospace/run1/*.json", ["nospace/run1/results.json"]);
     ("nojson/*", ["nojson/run1"; "nojson/run2"]);
     ("nojson/run1/*.json", ["nojson/run1/results.json"]);
     ("nojs/*", ["nojs/run1"; "nojs/run2"]);
     ("nojs/run1/*.json", ["nojs/run1/results.json"]);
     ("nojs/run2/*.json", ["nojs/run2/results.json"]);
     ("old/*", ["old/run1"; "old/run2"]);
     ("old/run1/*.json", ["old/run1/results.json"]);
     ("old/run2/*.json", ["old/run2/results.json"])].

Definition regions_js_unspaced : string :=
  "var resultsData ={}" +:+ newline.

Definition world1 : world :=
  World
    (list_to_map
       [("nospace/run1/results.json", "RESULTS");
        ("nospace/run1/regions.js", regions_js_unspaced);
        ("nojson/run1/results.json", "RESULTS");
        ("nojson/run1/regions.js", Example.regions_js);
        ("nojs/run1/results.json", "RESULTS");
        ("nojs/run1/regions.js", Example.regions_js);
        ("nojs/run2/results.json", "RESULTS");
        ("old/run1/results.json", "RESULTS");
        ("old/run1/regions.js", Example.regions_js);
        ("old/run2/results.json", "OLD");
        ("old/run2/regions.js", Example.regions_js);
        ("notes.txt", "not a directory")])
    (list_to_set
       ["nospace"; "nospace/run1"; "nojson"; "nojson/run1"; "nojson/run2";
        "nojs"; "nojs/run1"; "nojs/run2"; "old"; "old/run1"; "old/run2";
        "out"])
    EmptyString.

(** The world of [Example.world0] with the directory of the dependencies,
    to be used as the output directory. *)
Definition world2 : world :=
  World (files Example.world0)
    ({["/opt/gather/dependencies"]} ∪ dirs Example.world0) EmptyString.

(** A results document without [records]. *)
Definition loads : string → result json :=
  table_loads [("NORECORDS", JObj [("schema", JInt 3)])].

(** The lines of a script file and the entries of its results data. *)
Definition section : list string := ["DATA;" +:+ newline].

Definition items : list (string * json) :=
  match Example.results_data with
  | JObj items => items
  | _ => []
  end.

(** What the page shows for the records of [Example.all_results]. *)
Definition body : string :=
  "  <div style=" +:+ dquote
  +:+ "font-weight:bold; margin-bottom: -2em; margin-top: 2em;" +:+ dquote
  +:+ ">NC_1.1: 1-10: NRPS, T1PKS</div>"
  +:+ "  <div id=NC_1-1-1-domain-bubble-svg-container></div>".
End Runs.

(** * Properties *)

Lemma bind_Ok {A B} (a : A) (f : A → result B) : Ok a ≫= f = f a.
Proof. reflexivity. Qed.

Lemma bind_Raise {A B} (e : exn) (f : A → result B) : Raise e ≫= f = Raise e.
Proof. reflexivity. Qed.

Lemma bind_Ok_inv {A B} (m : result A) (f : A → result B) b :
  m ≫= f = Ok b → ∃ a, m = Ok a ∧ f a = Ok b.
Proof. destruct m as [a|e]; [eauto|done]. Qed.

Lemma bind_Raise_inv {A B} (m : result A) (f : A → result B) e :
  m ≫= f = Raise e → m = Raise e ∨ ∃ a, m = Ok a ∧ f a = Raise e.
Proof. destruct m as [a|e']; [eauto|]. intros [= ->]. by left. Qed.

Ltac rsimpl := rewrite ?bind_Ok, ?bind_Raise.

Lemma py_getitem_raises v key e :
  py_getitem v key = Raise e → e = TypeError ∨ e = KeyError (JStr key).
Proof.
  destruct v as [| | | | |kv]; simpl; try (intros [= <-]; by left).
  destruct (sget key kv); [done|]. intros [= <-]. by right.
Qed.

Lemma py_iter_raises v e : py_iter v = Raise e → e = TypeError.
Proof. destruct v; simpl; congruence. Qed.

(** ** Dictionaries *)

Lemma sget_app {V} k (d1 d2 : list (string * V)) :
  sget k (d1 ++ d2) = match sget k d1 with Some v => Some v | None => sget k d2 end.
Proof.
  induction d1 as [|[k' v] d1 IH]; [done|]. simpl.
  by destruct (String.eqb k' k).
Qed.

Lemma sget_not_key {V} k (d : list (string * V)) :
  k ∉ d.*1 → sget k d = None.
Proof.
  induction d as [|[k' v] d IH]; [done|]. simpl.
  intros Hk. apply not_elem_of_cons in Hk as [Hne Hk].
  destruct (String.eqb k' k) eqn:E; [|by apply IH].
  apply String.eqb_eq in E. congruence.
Qed.

Lemma sset_fresh {V} k (v : V) (d : list (string * V)) :
  k ∉ d.*1 → sset k v d = d ++ [(k, v)].
Proof.
  induction d as [|[k' v'] d IH]; [done|]. simpl.
  intros Hk. apply not_elem_of_cons in Hk as [Hne Hk].
  destruct (String.eqb k' k) eqn:E.
  - apply String.eqb_eq in E. congruence.
  - by rewrite IH.
Qed.

(** ** Keys *)

Lemma key_eqb_sym a b : key_eqb a b = key_eqb b a.
Proof.
  destruct a as [|x|x|x| |], b as [|y|y|y| |]; simpl; try done.
  - by destruct x, y.
  - apply Z.eqb_sym.
  - apply Z.eqb_sym.
  - apply Z.eqb_sym.
  - apply String.eqb_sym.
Qed.

Lemma key_eqb_euclid a b c :
  key_eqb a c = true → key_eqb b c = true → key_eqb a b = true.
Proof.
  destruct a as [|x|x|x| |], b as [|y|y|y| |], c as [|z|z|z| |];
    simpl; try done;
    rewrite ?Z.eqb_eq, ?String.eqb_eq, ?Bool.eqb_true_iff;
    try congruence;
    repeat match goal with b : bool |- _ => destruct b end;
    simpl; lia.
Qed.

Lemma kget_to_records name groups :
  kget name (to_records groups)
  = (λ g, aggregated g.1 g.2) <$> List.find (λ g, key_eqb g.1 name) groups.
Proof.
  induction groups as [|[n xs] groups IH]; [done|]. simpl.
  by destruct (key_eqb n name).
Qed.

Lemma kset_fresh {V} k (v : V) (d : list (json * V)) :
  forallb (λ k', negb (key_eqb k' k)) (d.*1) = true →
  kset k v d = d ++ [(k, v)].
Proof.
  induction d as [|[k' v'] d IH]; [done|]. simpl.
  intros H. apply andb_true_iff in H as [Hk H].
  apply negb_true_iff in Hk. rewrite Hk. by rewrite IH.
Qed.

Lemma has_name_find order name :
  has_name order name = true →
  ∀ groups : list (json * list json), groups.*1 = order →
  ∃ g, List.find (λ g, key_eqb g.1 name) groups = Some g.
Proof.
  intros Hn groups <-.
  induction groups as [|[n xs] groups IH]; [done|]. simpl in *.
  destruct (key_eqb n name); [eauto|]. by apply IH.
Qed.

Lemma add_to_keys name area groups : (add_to name area groups).*1 = groups.*1.
Proof.
  induction groups as [|[n xs] groups IH]; [done|]. cbn [add_to].
  destruct (key_eqb n name); [done|]. rewrite !fmap_cons. by rewrite IH.
Qed.

Lemma add_kept_keys bubble_data groups item :
  (add_kept bubble_data groups item).*1 = groups.*1.
Proof.
  unfold add_kept. destruct (kept_area bubble_data item) as [[name area]|];
    [apply add_to_keys|done].
Qed.

Lemma kset_to_records name area groups g :
  List.find (λ g, key_eqb g.1 name) groups = Some g →
  kset name (aggregated g.1 (g.2 ++ [area])) (to_records groups)
  = to_records (add_to name area groups).
Proof.
  unfold to_records.
  induction groups as [|[n xs] groups IH]; [done|].
  rewrite fmap_cons. cbn [List.find dict_set add_to fst snd].
  destruct (key_eqb n name) eqn:E.
  - intros [= <-]. by rewrite fmap_cons.
  - intros Hfind. rewrite fmap_cons. by rewrite IH.
Qed.

Lemma distinct_keys_no_other n name groups :
  forallb (λ y, negb (key_eqb n y)) (groups.*1) = true →
  key_eqb n name = true →
  forallb (λ g : json * list json, negb (key_eqb g.1 name)) groups = true.
Proof.
  intros Hd Hn. induction groups as [|[m xs] groups IH]; [done|].
  rewrite fmap_cons in Hd. cbn [forallb fst] in Hd |- *.
  apply andb_true_iff in Hd as [Hm Hd].
  rewrite IH by done. rewrite andb_true_r.
  destruct (key_eqb m name) eqn:E; [|done].
  by rewrite (key_eqb_euclid n m name) in Hm.
Qed.

Lemma add_to_distinct name area groups :
  distinct_keys (groups.*1) = true →
  add_to name area groups
  = (λ g, (g.1, if key_eqb g.1 name then g.2 ++ [area] else g.2)) <$> groups.
Proof.
  induction groups as [|[n xs] groups IH]; [done|].
  rewrite !fmap_cons. cbn [distinct_keys add_to fst snd].
  intros H. apply andb_true_iff in H as [Hn Hd].
  destruct (key_eqb n name) eqn:E.
  - f_equal. pose proof (distinct_keys_no_other n name groups Hn E) as Hno.
    clear -Hno. induction groups as [|[m ys] groups IH]; [done|].
    cbn [forallb fst] in Hno. apply andb_true_iff in Hno as [Hm Hno].
    apply negb_true_iff in Hm. rewrite fmap_cons. cbn [fst snd].
    rewrite Hm. by rewrite <-IH.
  - by rewrite IH.
Qed.

(** ** Grouping the areas by record *)

Lemma distinct_keys_app l1 l2 :
  distinct_keys (l1 ++ l2)
  = distinct_keys l1 && distinct_keys l2
    && forallb (λ x, forallb (λ y, negb (key_eqb x y)) l2) l1.
Proof.
  induction l1 as [|x l1 IH]; simpl.
  - by rewrite andb_true_r.
  - rewrite IH, forallb_app. repeat destruct (forallb _ _);
      repeat destruct (distinct_keys _); done.
Qed.

Lemma append_area_spec name area groups :
  has_name (groups.*1) name = true →
  append_area name area (to_records groups)
  = Ok (to_records (add_to name area groups)).
Proof.
  intros Hn. destruct (has_name_find _ _ Hn groups eq_refl) as [g Hg].
  unfold append_area. rewrite kget_to_records, Hg.
  change (Ok (kset name (aggregated g.1 (g.2 ++ [area])) (to_records groups))
          = Ok (to_records (add_to name area groups))).
  by rewrite (kset_to_records name area groups g).
Qed.

Lemma gather_step_spec bubble_data groups item :
  item_ok item = true → payload_ok bubble_data item = true →
  has_name (groups.*1) (field "name" item.2) = true →
  gather_step bubble_data (to_records groups) item
  = Ok (to_records (add_kept bubble_data groups item)).
Proof.
  destruct item as [anchor area]. unfold item_ok, payload_ok, add_kept, kept_area.
  cbn [fst snd]. destruct area as [| | | | |kv]; try done.
  cbn [gather_step field]. destruct (sget "name" kv) as [name|]; [|done].
  intros _ Hpayload Hname. cbn [default] in Hname.
  change (default JNull (sget anchor bubble_data))
    with (bubbles_of bubble_data anchor).
  destruct (bubbles_of bubble_data anchor) as [|[]|n|t|[|x xs]|[|[k v] kv']];
    try done.
  - by destruct n.
  - by destruct t.
  - cbn [truthy negb first_value]. rsimpl. by apply append_area_spec.
Qed.

Lemma gather_loop_spec bubble_data items : ∀ groups,
  forallb item_ok items = true →
  forallb (payload_ok bubble_data) items = true →
  forallb (has_name (groups.*1)) (item_names items) = true →
  gather_loop bubble_data items (to_records groups)
  = Ok (to_records (foldl (add_kept bubble_data) groups items)).
Proof.
  induction items as [|item items IH]; intros groups Hitems Hpay Hnames;
    [done|].
  unfold item_names in Hnames. rewrite fmap_cons in Hnames.
  cbn [forallb] in Hitems, Hpay, Hnames.
  apply andb_true_iff in Hitems as [Hitem Hitems].
  apply andb_true_iff in Hpay as [Hp Hpay].
  apply andb_true_iff in Hnames as [Hname Hnames].
  cbn [gather_loop foldl]. rewrite gather_step_spec by done. rsimpl.
  apply IH; [done..|]. by rewrite add_kept_keys.
Qed.

Lemma collected_cons bubble_data n item items :
  collected bubble_data n (item :: items)
  = match kept_area bubble_data item with
    | Some (name, area) => if key_eqb n name then [area] else []
    | None => []
    end ++ collected bubble_data n items.
Proof.
  unfold collected. cbn [omap list_omap].
  destruct (kept_area bubble_data item) as [[name area]|]; [|done].
  by destruct (key_eqb n name).
Qed.

Lemma foldl_add_kept bubble_data items : ∀ groups,
  distinct_keys (groups.*1) = true →
  foldl (add_kept bubble_data) groups items
  = (λ g, (g.1, g.2 ++ collected bubble_data g.1 items)) <$> groups.
Proof.
  induction items as [|item items IH]; intros groups Hd.
  { cbn [foldl]. rewrite <-(list_fmap_id groups) at 1.
    apply list_fmap_ext. intros _ [n xs] _. simpl. by rewrite app_nil_r. }
  cbn [foldl]. rewrite IH by by rewrite add_kept_keys.
  unfold add_kept. destruct (kept_area bubble_data item) as [[name area]|] eqn:E.
  - rewrite add_to_distinct by done. rewrite <-list_fmap_compose.
    apply list_fmap_ext. intros _ [n xs] _. cbn [compose fst snd].
    rewrite collected_cons, E. destruct (key_eqb n name); [|done].
    by rewrite <-app_assoc.
  - apply list_fmap_ext. intros _ [n xs] _. cbn [fst snd].
    by rewrite collected_cons, E.
Qed.

Lemma relevant_records_spec groups : ∀ kept,
  distinct_keys ((kept ++ groups).*1) = true →
  relevant_records (to_records groups) (to_records kept)
  = Ok (to_records (kept ++ List.filter nonempty_group groups)).
Proof.
  induction groups as [|[n xs] groups IH]; intros kept Hd.
  { simpl. by rewrite app_nil_r. }
  unfold to_records at 1. rewrite fmap_cons. cbn [relevant_records fst snd].
  change (py_getitem (aggregated n xs) "areas") with (Ok (JArr xs)). rsimpl.
  rewrite fmap_app, fmap_cons in Hd. cbn [fst] in Hd.
  rewrite distinct_keys_app in Hd. cbn [distinct_keys] in Hd.
  apply andb_true_iff in Hd as [Hd Hcross].
  apply andb_true_iff in Hd as [Hkept Hd].
  apply andb_true_iff in Hd as [Hn Hgroups].
  assert (forallb (λ k', negb (key_eqb k' n)) (kept.*1) = true
          ∧ forallb (λ x, forallb (λ y, negb (key_eqb x y)) (groups.*1))
              (kept.*1) = true) as [Hfresh Hcross'].
  { clear -Hcross. induction (kept.*1) as [|k ks IHk]; [done|].
    cbn [forallb] in *. apply andb_true_iff in Hcross as [Hk Hcross].
    apply andb_true_iff in Hk as [Hk1 Hk2].
    destruct (IHk Hcross) as [-> ->]. by rewrite Hk1, Hk2. }
  destruct xs as [|x xs].
  - cbn [truthy List.filter nonempty_group snd]. fold (to_records groups).
    apply IH. rewrite fmap_app, distinct_keys_app.
    by rewrite Hkept, Hgroups, Hcross'.
  - cbn [truthy List.filter nonempty_group snd]. fold (to_records groups).
    rewrite kset_fresh by (unfold to_records; by rewrite <-list_fmap_compose).
    change (to_records kept ++ [(n, aggregated n (x :: xs))])
      with (to_records kept ++ to_records [(n, x :: xs)]).
    unfold to_records at 2 3. rewrite <-fmap_app. fold (to_records (kept ++ [(n, x :: xs)])).
    rewrite IH.
    + by rewrite <-app_assoc.
    + rewrite !fmap_app, !distinct_keys_app. cbn [fmap list_fmap fst distinct_keys forallb].
      rewrite Hkept, Hgroups, forallb_app, Hcross'. cbn [forallb andb].
      rewrite Hn. cbn [andb]. rewrite !andb_true_r.
      clear -Hfresh. induction (kept.*1) as [|k ks IHk]; [done|].
      cbn [forallb] in *. apply andb_true_iff in Hfresh as [-> Hfresh].
      by rewrite IHk.
Qed.

Lemma record_names_of_spec items :
  forallb item_ok items = true →
  record_names_of (items.*2) = Ok (item_names items)
  ∧ forallb hashable (item_names items) = true.
Proof.
  induction items as [|[anchor area] items IH]; intros Hitems; [done|].
  cbn [forallb] in Hitems. apply andb_true_iff in Hitems as [Hitem Hitems].
  destruct (IH Hitems) as [Hrun Hhash].
  unfold item_names in *. rewrite !fmap_cons. cbn [record_names_of snd forallb].
  unfold item_ok in Hitem. cbn [snd] in Hitem.
  destruct area as [| | | | |kv]; try done. cbn [py_getitem field].
  destruct (sget "name" kv) as [name|]; [|done]. rsimpl.
  cbn [default from_option id].
  rewrite Hitem, Hrun, Hhash. by rsimpl.
Qed.

Lemma empty_records_spec order : ∀ groups,
  distinct_keys (groups.*1 ++ order) = true →
  foldl (λ records name,
           kset name (JObj [("name", name); ("areas", JArr [])]) records)
        (to_records groups) order
  = to_records (groups ++ ((λ n, (n, [])) <$> order)).
Proof.
  induction order as [|n order IH]; intros groups Hd.
  { simpl. by rewrite app_nil_r. }
  cbn [foldl]. rewrite kset_fresh.
  - change (to_records groups ++ [(n, JObj [("name", n); ("areas", JArr [])])])
      with (to_records groups ++ to_records [(n, [])]).
    unfold to_records at 1 2. rewrite <-fmap_app. fold (to_records (groups ++ [(n, [])])).
    rewrite IH.
    + by rewrite fmap_cons, <-app_assoc.
    + by rewrite fmap_app, <-app_assoc.
  - unfold to_records. rewrite <-list_fmap_compose.
    rewrite distinct_keys_app in Hd. apply andb_true_iff in Hd as [_ Hcross].
    clear -Hcross. induction groups as [|[m xs] groups IHg]; [done|].
    rewrite fmap_cons in Hcross |- *. cbn [forallb compose fst] in *.
    apply andb_true_iff in Hcross as [Hm Hcross].
    apply andb_true_iff in Hm as [-> _]. by rewrite IHg.
Qed.

Lemma expected_records_groups bubble_data items order :
  (to_records
     (List.filter nonempty_group
        ((λ g, (g.1, g.2 ++ collected bubble_data g.1 items))
           <$> ((λ n, (n, [])) <$> order)))).*2
  = expected_records bubble_data order items.
Proof.
  unfold expected_records, to_records.
  induction order as [|n order IH]; [done|].
  rewrite !fmap_cons. cbn [List.filter nonempty_group fst snd app omap list_omap].
  destruct (collected bubble_data n items) as [|x xs]; [done|].
  cbn [nonempty_group snd]. rewrite !fmap_cons. cbn [fst snd]. by rewrite IH.
Qed.

(** ** The areas that are kept *)

Lemma sget_sset_eq {V} k (v : V) d : sget k (sset k v d) = Some v.
Proof.
  induction d as [|[k' v'] d IH]; simpl.
  - by rewrite String.eqb_refl.
  - destruct (String.eqb k' k) eqn:E; simpl; by rewrite E.
Qed.

Lemma kept_area_populated bubble_data item :
  item_ok item = true → payload_ok bubble_data item = true →
  (populated bubble_data item = false ∧ kept_area bubble_data item = None) ∨
  (populated bubble_data item = true ∧
   ∃ k selected rest,
     bubbles_of bubble_data item.1 = JObj ((k, selected) :: rest) ∧
     kept_area bubble_data item
     = Some (field "name" item.2, with_bubbles selected item.2)).
Proof.
  destruct item as [anchor area].
  unfold item_ok, payload_ok, populated, kept_area. cbn [fst snd].
  destruct area as [| | | | |kv]; try done. cbn [field with_bubbles].
  destruct (sget "name" kv) as [name|]; [|done]. intros _.
  destruct (bubbles_of bubble_data anchor) as [|[]|n|t|[|x xs]|[|[k v] kv']];
    try done; try (by left); try (by destruct n; [left|..]);
    try (by destruct t; [left|..]).
  intros _. right. split; [done|]. by exists k, v, kv'.
Qed.

Lemma collected_elem bubble_data n items item name area :
  item ∈ items → kept_area bubble_data item = Some (name, area) →
  key_eqb n name = true → area ∈ collected bubble_data n items.
Proof.
  intros Hin Hkept Hn. unfold collected. apply list_elem_of_omap.
  exists item. split; [done|]. by rewrite Hkept, Hn.
Qed.

Lemma expected_records_elem bubble_data order items n :
  n ∈ order → collected bubble_data n items ≠ [] →
  aggregated n (collected bubble_data n items)
  ∈ expected_records bubble_data order items.
Proof.
  intros Hin Hne. unfold expected_records. apply list_elem_of_omap.
  exists n. split; [done|].
  by destruct (collected bubble_data n items).
Qed.

Lemma has_name_elem order name :
  has_name order name = true → ∃ n, n ∈ order ∧ key_eqb n name = true.
Proof.
  unfold has_name. rewrite existsb_exists. intros (n & Hin & Hn).
  exists n. by rewrite list_elem_of_In.
Qed.

Lemma item_names_covered order items item :
  forallb (has_name order) (item_names items) = true → item ∈ items →
  has_name order (field "name" item.2) = true.
Proof.
  rewrite forallb_forall. intros Hall Hin. apply Hall.
  apply list_elem_of_In. unfold item_names.
  apply list_elem_of_fmap. by exists item.
Qed.

(** A name is the key of exactly one element of a valid order. *)
Lemma distinct_keys_one order name :
  distinct_keys order = true → has_name order name = true →
  length (List.filter (λ n, key_eqb n name) order) = 1%nat.
Proof.
  induction order as [|n order IH]; [done|].
  cbn [distinct_keys has_name existsb List.filter].
  intros Hd Hn. apply andb_true_iff in Hd as [Hfresh Hd].
  destruct (key_eqb n name) eqn:E.
  - cbn [length]. f_equal.
    clear -Hfresh E. induction order as [|m order IHo]; [done|].
    cbn [forallb List.filter] in *.
    apply andb_true_iff in Hfresh as [Hm Hfresh].
    destruct (key_eqb m name) eqn:E'; [|by apply IHo].
    by rewrite (key_eqb_euclid n m name) in Hm.
  - by apply IH.
Qed.

Lemma expected_records_total bubble_data order items :
  area_total (expected_records bubble_data order items)
  = sum_list ((λ n, length (collected bubble_data n items)) <$> order).
Proof.
  unfold area_total, expected_records.
  induction order as [|n order IH]; [done|].
  rewrite fmap_cons. cbn [omap list_omap sum_list sum_list_with].
  destruct (collected bubble_data n items) as [|x xs] eqn:E; [done|].
  rewrite fmap_cons. cbn [sum_list sum_list_with]. by rewrite IH.
Qed.

Lemma sum_collected bubble_data order items :
  distinct_keys order = true →
  forallb (has_name order) (item_names items) = true →
  forallb item_ok items = true →
  forallb (payload_ok bubble_data) items = true →
  sum_list ((λ n, length (collected bubble_data n items)) <$> order)
  = length (List.filter (populated bubble_data) items).
Proof.
  intros Hd. induction items as [|item items IH]; intros Hcover Hitems Hpay.
  { clear. induction order as [|n order IH]; [done|].
    rewrite fmap_cons. cbn [sum_list sum_list_with]. by rewrite IH. }
  unfold item_names in Hcover. rewrite fmap_cons in Hcover.
  cbn [forallb] in Hcover, Hitems, Hpay.
  apply andb_true_iff in Hcover as [Hname Hcover].
  apply andb_true_iff in Hitems as [Hitem Hitems].
  apply andb_true_iff in Hpay as [Hp Hpay].
  specialize (IH Hcover Hitems Hpay). cbn [List.filter].
  assert (sum_list ((λ n, length (collected bubble_data n (item :: items)))
                      <$> order)
          = (match kept_area bubble_data item with
             | Some (name, _) =>
                 length (List.filter (λ n, key_eqb n name) order)
             | None => 0
             end
             + sum_list ((λ n, length (collected bubble_data n items))
                           <$> order))%nat) as ->.
  { clear. induction order as [|n order IHo].
    { by destruct (kept_area bubble_data item) as [[? ?]|]. }
    rewrite !fmap_cons. cbn [sum_list sum_list_with]. rewrite IHo.
    rewrite collected_cons, length_app.
    destruct (kept_area bubble_data item) as [[name area]|]; [|done].
    unfold id. cbn [List.filter].
    destruct (key_eqb n name); cbn [length]; lia. }
  destruct (kept_area_populated bubble_data item Hitem Hp)
    as [[-> ->]|(-> & k & v & rest & _ & ->)]; [done|].
  rewrite distinct_keys_one by done. cbn [length]. by rewrite IH.
Qed.

Lemma gather_step_ext bd bd' records item :
  truthy (bubbles_of bd' item.1) = truthy (bubbles_of bd item.1) →
  (truthy (bubbles_of bd item.1) = true →
   first_value (bubbles_of bd' item.1) = first_value (bubbles_of bd item.1)) →
  gather_step bd' records item = gather_step bd records item.
Proof.
  destruct item as [anchor area]. cbn [fst gather_step]. unfold bubbles_of.
  intros Ht Hf. destruct area as [| | | | |kv]; [done..|].
  destruct (sget "name" kv) as [name|]; [|done]. rewrite Ht.
  destruct (truthy (default JNull (sget anchor bd))); [|done].
  by rewrite Hf.
Qed.

Lemma gather_loop_ext bd bd' items : ∀ records,
  (∀ anchor,
     truthy (bubbles_of bd' anchor) = truthy (bubbles_of bd anchor) ∧
     (truthy (bubbles_of bd anchor) = true →
      first_value (bubbles_of bd' anchor)
      = first_value (bubbles_of bd anchor))) →
  gather_loop bd' items records = gather_loop bd items records.
Proof.
  intros records Hsame. revert records.
  induction items as [|item items IH]; intros records; [done|].
  cbn [gather_loop]. destruct (Hsame item.1) as [Ht Hf].
  rewrite (gather_step_ext bd bd') by done.
  destruct (gather_step bd records item) as [records'|e]; [|done].
  rsimpl. apply IH.
Qed.

(** ** The areas of one record *)

Lemma collected_length bubble_data n items :
  forallb item_ok items = true →
  forallb (payload_ok bubble_data) items = true →
  length (collected bubble_data n items)
  = length (List.filter (populated_named bubble_data n) items).
Proof.
  induction items as [|item items IH]; intros Hitems Hpay; [done|].
  cbn [forallb] in Hitems, Hpay.
  apply andb_true_iff in Hitems as [Hitem Hitems].
  apply andb_true_iff in Hpay as [Hp Hpay].
  rewrite collected_cons, length_app, IH by done.
  cbn [List.filter]. unfold populated_named at 2.
  destruct (kept_area_populated bubble_data item Hitem Hp)
    as [[-> ->]|(-> & k & v & rest & _ & ->)]; [done|].
  cbn [andb]. by destruct (key_eqb n (field "name" item.2)).
Qed.

Lemma area_entry_name record area :
  field "name" (area_entry record area) = field "id" record.
Proof. reflexivity. Qed.

Lemma entries_from_named bubble_data n record r_index cs : ∀ c_index,
  List.filter (populated_named bubble_data n)
    (entries_from record r_index c_index cs)
  = if key_eqb n (field "id" record)
    then List.filter (populated bubble_data)
           (entries_from record r_index c_index cs)
    else [].
Proof.
  induction cs as [|area cs IH]; intros c_index.
  { by destruct (key_eqb _ _). }
  cbn [entries_from List.filter]. rewrite IH.
  unfold populated_named. cbn [snd]. rewrite area_entry_name.
  destruct (key_eqb n (field "id" record)).
  - by rewrite andb_true_r.
  - by rewrite andb_false_r.
Qed.

Lemma entries_from_populated bubble_data record r_index cs : ∀ c_index,
  length (List.filter (populated bubble_data)
            (entries_from record r_index c_index cs))
  = length (List.filter
              (λ c, truthy (bubbles_of bubble_data (anchor_of r_index c)))
              (seq c_index (length cs))).
Proof.
  induction cs as [|area cs IH]; intros c_index; [done|].
  cbn [entries_from length seq List.filter]. unfold populated at 1.
  cbn [fst]. destruct (truthy _); cbn [length]; by rewrite IH.
Qed.

Lemma all_entries_not_named bubble_data n rs : ∀ r_index,
  (∀ record, record ∈ rs → key_eqb n (field "id" record) = false) →
  List.filter (populated_named bubble_data n) (all_entries_from r_index rs)
  = [].
Proof.
  induction rs as [|record rs IH]; intros r_index Hrs; [done|].
  cbn [all_entries_from]. rewrite List.filter_app, entries_from_named.
  rewrite (Hrs record) by apply list_elem_of_here.
  apply IH. intros record' Hin. apply Hrs. by apply list_elem_of_further.
Qed.

Lemma other_key_differs n id id' :
  key_eqb n id = true → key_eqb id' id = false → key_eqb n id' = false.
Proof.
  intros Hn Hid. destruct (key_eqb n id') eqn:E; [|done].
  rewrite <-Hid. symmetry. apply (key_eqb_euclid id' id n).
  - by rewrite key_eqb_sym.
  - by rewrite key_eqb_sym.
Qed.

Lemma all_entries_named bubble_data n rs : ∀ r_index i record,
  rs !! i = Some record →
  (∀ j record', rs !! j = Some record' → j ≠ i →
     key_eqb (field "id" record') (field "id" record) = false) →
  key_eqb n (field "id" record) = true →
  List.filter (populated_named bubble_data n) (all_entries_from r_index rs)
  = List.filter (populated bubble_data)
      (entries_from record (r_index + i) 0 (record_areas record)).
Proof.
  induction rs as [|first rs IH]; intros r_index i record Hi Hothers Hn;
    [done|].
  cbn [all_entries_from]. rewrite List.filter_app, entries_from_named.
  destruct i as [|i].
  - injection Hi as ->. rewrite Hn, Nat.add_0_r.
    rewrite all_entries_not_named; [by rewrite app_nil_r|].
    intros record' Hin. apply list_elem_of_lookup in Hin as [j Hj].
    apply (other_key_differs n (field "id" record)); [done|].
    by apply (Hothers (S j)).
  - rewrite (other_key_differs n (field "id" record) (field "id" first));
      [|done|by apply (Hothers 0%nat)].
    rewrite (IH (S r_index) i record); [|done| |done].
    + by rewrite Nat.add_succ_r.
    + intros j record' Hj Hne. apply (Hothers (S j)); [done|lia].
Qed.

Lemma all_entries_item_ok rs : ∀ r_index,
  forallb (λ record, hashable (field "id" record)) rs = true →
  forallb item_ok (all_entries_from r_index rs) = true.
Proof.
  induction rs as [|record rs IH]; intros r_index Hrs; [done|].
  cbn [forallb] in Hrs. apply andb_true_iff in Hrs as [Hid Hrs].
  cbn [all_entries_from]. rewrite forallb_app, IH by done.
  rewrite andb_true_r. generalize 0%nat.
  induction (record_areas record) as [|area cs IHc]; intros c; [done|].
  cbn [entries_from forallb]. rewrite IHc, andb_true_r.
  unfold item_ok. by cbn.
Qed.

Lemma sget_Some_elem {V} k (v : V) d : sget k d = Some v → (k, v) ∈ d.
Proof.
  induction d as [|[k' v'] d IH]; [done|]. simpl.
  destruct (String.eqb k' k) eqn:E.
  - apply String.eqb_eq in E as ->. intros [= ->]. apply list_elem_of_here.
  - intros H. apply list_elem_of_further. by apply IH.
Qed.

Lemma records_named_expected bubble_data id order items :
  records_named id (expected_records bubble_data order items)
  = expected_records bubble_data (List.filter (λ n, key_eqb n id) order) items.
Proof.
  unfold records_named, expected_records.
  induction order as [|n order IH]; [done|].
  cbn [omap list_omap List.filter].
  destruct (collected bubble_data n items) as [|x xs] eqn:E.
  - rewrite IH. destruct (key_eqb n id); [|done].
    cbn [omap list_omap]. by rewrite E.
  - cbn [List.filter].
    change (field "name" (aggregated n (x :: xs))) with n. rewrite IH.
    destruct (key_eqb n id); [|done]. cbn [omap list_omap]. by rewrite E.
Qed.

Lemma has_name_filter order id :
  has_name order id = false → List.filter (λ n, key_eqb n id) order = [].
Proof.
  induction order as [|n order IH]; [done|].
  cbn [has_name existsb List.filter]. intros H.
  apply orb_false_iff in H as [-> H]. by apply IH.
Qed.

(** ** A set that yields its elements in insertion order *)

Lemma key_eqb_refl a : hashable a = true → key_eqb a a = true.
Proof.
  destruct a as [|x|x|x| |]; simpl; try done; intros _.
  - by destruct x.
  - apply Z.eqb_refl.
  - apply String.eqb_refl.
Qed.

Lemma distinct_keys_filter p l :
  distinct_keys l = true → distinct_keys (List.filter p l) = true.
Proof.
  induction l as [|x l IH]; [done|]. cbn [distinct_keys List.filter].
  intros H. apply andb_true_iff in H as [Hx Hd].
  destruct (p x); [|by apply IH]. cbn [distinct_keys].
  rewrite IH by done. rewrite andb_true_r.
  apply forallb_forall. intros y Hy. apply filter_In in Hy as [Hy _].
  rewrite forallb_forall in Hx. by apply Hx.
Qed.

Lemma first_seen_distinct l : distinct_keys (first_seen l) = true.
Proof.
  induction l as [|x l IH]; [done|]. cbn [first_seen distinct_keys].
  rewrite distinct_keys_filter by done. rewrite andb_true_r.
  apply forallb_forall. intros y Hy. by apply filter_In in Hy as [_ Hy].
Qed.

Lemma first_seen_covers l name :
  forallb hashable l = true → In name l →
  has_name (first_seen l) name = true.
Proof.
  induction l as [|x l IH]; [done|]. cbn [forallb first_seen has_name existsb].
  intros H Hin. apply andb_true_iff in H as [Hx Hl].
  destruct Hin as [->|Hin]; [by rewrite key_eqb_refl|].
  destruct (key_eqb x name) eqn:E; [done|]. cbn [orb].
  specialize (IH Hl Hin). unfold has_name in IH.
  apply existsb_exists in IH as (n & Hn & Hkey).
  apply existsb_exists. exists n. split; [|done].
  apply filter_In. split; [done|].
  destruct (key_eqb x n) eqn:E'; [|done].
  rewrite (key_eqb_euclid x name n) in E; [done..|].
  by rewrite key_eqb_sym.
Qed.

Lemma first_seen_valid names :
  forallb hashable names = true →
  set_order_ok (first_seen names) names = true.
Proof.
  intros Hnames. unfold set_order_ok. rewrite first_seen_distinct.
  apply forallb_forall. intros name Hin. by apply first_seen_covers.
Qed.

(** ** Stripping the end of a text *)

Lemma rstrip_by_spec p s :
  ∃ t, s = rstrip_by p s +:+ t ∧ all_chars p t = true ∧
       ∀ c, last_char (rstrip_by p s) = Some c → p c = false.
Proof.
  induction s as [|c s (t & Heq & Ht & Hlast)].
  { by exists EmptyString. }
  cbn [rstrip_by]. destruct (rstrip_by p s) as [|d r] eqn:Hr.
  - change (s = t) in Heq. subst t. destruct (p c) eqn:Hc.
    + exists (String c s). split; [done|]. split; [|done].
      cbn [all_chars]. by rewrite Hc, Ht.
    + exists s. split; [done|]. split; [done|]. by intros ? [= <-].
  - exists t. split.
    { change (String c s = String c (String d r +:+ t)). by rewrite <-Heq. }
    split; [done|]. intros c' Hc'. by apply Hlast.
Qed.

Lemma strip_one_semicolon_none s :
  last_char s ≠ Some ";"%char → strip_one_semicolon s = s.
Proof.
  induction s as [|c s IH]; [done|]. destruct s as [|d s].
  - simpl. unfold is_semicolon. destruct (Ascii.eqb c ";") eqn:E; [|done].
    apply Ascii.eqb_eq in E as ->. done.
  - intros H.
    change (strip_one_semicolon (String c (String d s)))
      with (String c (strip_one_semicolon (String d s))).
    by rewrite IH.
Qed.

Lemma strip_one_semicolon_one s :
  strip_one_semicolon (s +:+ ";") = s.
Proof.
  induction s as [|c s IH]; [done|].
  change (String c s +:+ ";") with (String c (s +:+ ";")).
  destruct s as [|d s]; [done|].
  change (String d s +:+ ";") with (String d (s +:+ ";")) in *.
  change (strip_one_semicolon (String c (String d (s +:+ ";"))))
    with (String c (strip_one_semicolon (String d (s +:+ ";")))).
  by rewrite IH.
Qed.

(** ** Texts *)

Lemma append_nil_r s : s +:+ EmptyString = s.
Proof.
  induction s as [|c s IH]; [done|].
  change (String c (s +:+ EmptyString) = String c s). by rewrite IH.
Qed.

Lemma append_assoc s t u : (s +:+ t) +:+ u = s +:+ t +:+ u.
Proof.
  induction s as [|c s IH]; [done|].
  change (String c ((s +:+ t) +:+ u) = String c (s +:+ t +:+ u)).
  by rewrite IH.
Qed.

Lemma append_inv_head s t u : s +:+ t = s +:+ u → t = u.
Proof.
  induction s as [|c s IH]; [done|].
  change (String c (s +:+ t) = String c (s +:+ u) → t = u).
  intros [= H]. by apply IH.
Qed.

(** ** Actions on the world *)

Lemma io_bind_Ok {A B} (m : io A) (f : A → io B) w a w' :
  m w = (Ok a, w') → (m ≫= f) w = f a w'.
Proof. intros H. unfold mbind, io_bind. by rewrite H. Qed.

Lemma io_bind_Raise {A B} (m : io A) (f : A → io B) w e w' :
  m w = (Raise e, w') → (m ≫= f) w = (Raise e, w').
Proof. intros H. unfold mbind, io_bind. by rewrite H. Qed.

Lemma io_bind_lift {A B} (r : result A) (f : A → io B) w :
  (lift r ≫= f) w = match r with Ok a => f a w | Raise e => (Raise e, w) end.
Proof. by destruct r. Qed.

Lemma io_bind_get_world {B} (f : world → io B) w :
  (get_world ≫= f) w = f w w.
Proof. reflexivity. Qed.

Lemma open_read_file p w text :
  files w !! p = Some text → open_read p w = (Ok text, w).
Proof. intros H. unfold open_read. by rewrite H. Qed.

Lemma only_file_refl p w : only_file p w w.
Proof. by repeat split. Qed.

Lemma only_file_trans p w1 w2 w3 :
  only_file p w1 w2 → only_file p w2 w3 → only_file p w1 w3.
Proof.
  intros (Hd & He & Hf) (Hd' & He' & Hf'). repeat split; [congruence..|].
  intros q Hq. rewrite Hf', Hf; done.
Qed.

Lemma handle_write_only p text w :
  ∃ w', handle_write p text w = (Ok (), w') ∧ only_file p w w' ∧
        files w' !! p = Some (default EmptyString (files w !! p) +:+ text).
Proof.
  eexists. split; [done|]. split.
  - repeat split. intros q Hq. cbn [files]. by rewrite lookup_insert_ne.
  - cbn [files]. by rewrite lookup_insert_eq.
Qed.

Lemma can_write_dirs p w w' : dirs w' = dirs w → can_write p w' = can_write p w.
Proof.
  intros Hd. unfold can_write, os_path_isdir. by rewrite Hd.
Qed.

Lemma open_write_ok p w :
  can_write p w = true →
  ∃ w', open_write p w = (Ok (), w') ∧ only_file p w w' ∧
        files w' !! p = Some EmptyString.
Proof.
  unfold can_write, open_write. intros H. apply andb_true_iff in H as [Hp Hd].
  apply negb_true_iff in Hp. rewrite Hp.
  destruct (String.eqb (os_path_dirname p) EmptyString) eqn:E.
  - cbn [negb andb]. eexists. split; [done|]. split.
    + repeat split. intros q Hq. cbn [files]. by rewrite lookup_insert_ne.
    + cbn [files]. by rewrite lookup_insert_eq.
  - cbn [orb] in Hd. rewrite Hd. cbn [negb andb].
    eexists. split; [done|]. split.
    + repeat split. intros q Hq. cbn [files]. by rewrite lookup_insert_ne.
    + cbn [files]. by rewrite lookup_insert_eq.
Qed.

Lemma sget_sset_ne {V} k k' (v : V) d :
  k ≠ k' → sget k' (sset k v d) = sget k' d.
Proof.
  intros Hne. induction d as [|[k0 v0] d IH]; simpl.
  - apply String.eqb_neq in Hne. by rewrite Hne.
  - destruct (String.eqb k0 k) eqn:E; simpl.
    + apply String.eqb_eq in E as ->.
      apply String.eqb_neq in Hne. by rewrite Hne.
    + destruct (String.eqb k0 k'); [done|apply IH].
Qed.

Lemma reads_only_bind {A B} (m : io A) (f : A → io B) :
  reads_only m → (∀ a, reads_only (f a)) → reads_only (m ≫= f).
Proof.
  intros Hm Hf w. unfold mbind, io_bind. specialize (Hm w).
  destruct (m w) as [[a|e] w1]; cbn [snd] in Hm; subst w1; [apply Hf|done].
Qed.

Lemma reads_only_lift {A} (r : result A) : reads_only (lift r).
Proof. by intros w. Qed.

Lemma reads_only_open_read p : reads_only (open_read p).
Proof. intros w. unfold open_read. by destruct (files w !! p). Qed.

(** ** Anchors *)

Lemma pretty_N_char_digit x : is_digit (pretty_N_char x) = true.
Proof. unfold pretty_N_char. by repeat case_match. Qed.

Lemma pretty_N_go_digits x :
  ∀ s, all_digits s = true → all_digits (pretty_N_go x s) = true.
Proof.
  induction (N.lt_wf_0 x) as [x _ IH]. intros s Hs.
  destruct (decide (x = 0)%N) as [->|Hx]; [by rewrite pretty_N_go_0|].
  rewrite pretty_N_go_step by lia.
  apply IH; [apply N.div_lt; lia|].
  simpl. by rewrite pretty_N_char_digit.
Qed.

Lemma pretty_nat_digits (n : nat) : all_digits (pretty n) = true.
Proof.
  unfold pretty, pretty_nat, pretty, pretty_N.
  case_decide; [done|]. by apply pretty_N_go_digits.
Qed.

Lemma digits_split s1 : ∀ s2 t1 t2,
  all_digits s1 = true → all_digits s2 = true →
  s1 +:+ String "c" t1 = s2 +:+ String "c" t2 → s1 = s2 ∧ t1 = t2.
Proof.
  induction s1 as [|a s1 IH]; intros [|b s2] t1 t2 H1 H2 Heq; simpl in *.
  - by injection Heq.
  - injection Heq as <- _. done.
  - injection Heq as -> _. done.
  - apply andb_true_iff in H1 as [_ H1]. apply andb_true_iff in H2 as [_ H2].
    injection Heq as -> Heq. by destruct (IH _ _ _ H1 H2 Heq) as [-> ->].
Qed.

Lemma anchor_of_inj i j i' j' :
  anchor_of i j = anchor_of i' j' → i = i' ∧ j = j'.
Proof.
  unfold anchor_of. intros Heq. simpl in Heq. injection Heq as Heq.
  apply digits_split in Heq as [Hi Hj]; try apply pretty_nat_digits.
  apply (inj pretty) in Hi. apply (inj pretty) in Hj. lia.
Qed.

Lemma anchors_before_fresh r c d : anchors_before r c d → anchor_of r c ∉ d.*1.
Proof.
  intros Hd Hin. unfold anchors_before in Hd.
  rewrite Forall_forall in Hd.
  destruct (Hd _ Hin) as (i & j & Heq & Hlt).
  apply anchor_of_inj in Heq as [-> ->]. lia.
Qed.

Lemma anchors_before_snoc r c d v :
  anchors_before r c d → anchors_before r (S c) (d ++ [(anchor_of r c, v)]).
Proof.
  unfold anchors_before. rewrite fmap_app, Forall_app. intros Hd. split.
  - eapply Forall_impl; [done|]. intros k (i & j & -> & Hlt).
    exists i, j. split; [done|lia].
  - repeat constructor. exists r, c. split; [done|lia].
Qed.

Lemma anchors_before_next r c d :
  anchors_before r c d → anchors_before (S r) 0 d.
Proof.
  unfold anchors_before. intros Hd.
  eapply Forall_impl; [done|]. intros k (i & j & -> & Hlt).
  exists i, j. split; [done|lia].
Qed.

Section properties.
Variable json_loads : string → result json.
Variable json_dumps : json → string.
Variable py_repr : json → string.
Variable set_iter : list json → list json.

(** ** The schema check of [get_areas] *)

Lemma schema_rejected top n :
  sget "schema" top = Some (JInt n) → ¬ (2 ≤ n ≤ 3) →
  get_areas_of py_repr (JObj top) = Raise (incompatible_schema (pretty n)).
Proof.
  intros Hs Hn. unfold get_areas_of. rewrite Hs. simpl.
  destruct (2 <=? n) eqn:Hlo; simpl; [|done].
  destruct (n <=? 3) eqn:Hhi; simpl; [|done].
  apply Z.leb_le in Hlo, Hhi. lia.
Qed.

Lemma schema_accepted top n :
  sget "schema" top = Some (JInt n) → 2 ≤ n ≤ 3 →
  get_areas_of py_repr (JObj top)
  = (records ← py_getitem (JObj top) "records";
     rs ← py_iter records;
     get_areas_outer 0 rs []).
Proof.
  intros Hs [Hlo Hhi]. unfold get_areas_of. rewrite Hs. simpl.
  apply Z.leb_le in Hlo, Hhi. by rewrite Hlo, Hhi.
Qed.

Lemma get_areas_inner_ok record rkv r_index cs :
  record = JObj rkv → has_key "id" rkv = true →
  forallb area_shape cs = true →
  ∀ c_index areas,
    is_ok (get_areas_inner record r_index c_index cs areas) = true.
Proof.
  intros -> Hid. unfold has_key in Hid.
  destruct (sget "id" rkv) as [name|] eqn:Hname; [|done].
  induction cs as [|area cs IH]; intros Hcs c_index areas; [done|].
  simpl in Hcs. apply andb_true_iff in Hcs as [Harea Hcs].
  destruct area as [| | | | |kv]; try done.
  unfold area_shape, has_key in Harea.
  destruct (sget "start" kv) eqn:H1; [|done].
  destruct (sget "end" kv) eqn:H2; [|done].
  destruct (sget "products" kv) eqn:H3; [|done].
  cbn [get_areas_inner py_getitem].
  rewrite Hname, H1, H2, H3. rsimpl. by apply IH.
Qed.

Lemma get_areas_outer_ok rs :
  forallb record_shape rs = true →
  ∀ r_index areas, is_ok (get_areas_outer r_index rs areas) = true.
Proof.
  induction rs as [|record rs IH]; intros Hrs r_index areas; [done|].
  simpl in Hrs. apply andb_true_iff in Hrs as [Hrec Hrs].
  destruct record as [| | | | |rkv]; try done.
  unfold record_shape in Hrec. apply andb_true_iff in Hrec as [Hid Hcs].
  destruct (sget "areas" rkv) as [[| | | |cs|]|] eqn:Ha; try done.
  cbn [get_areas_outer py_getitem]. rewrite Ha. rsimpl.
  cbn [py_iter]. rsimpl.
  pose proof (get_areas_inner_ok (JObj rkv) rkv r_index cs eq_refl Hid Hcs
                0%nat areas) as Hin.
  destruct (get_areas_inner _ _ _ _ _) as [areas'|]; [|done].
  rsimpl. by apply IH.
Qed.

(** The loops raise nothing but what reading a field or iterating raises. *)
Lemma get_areas_inner_raises record r_index cs e :
  ∀ c_index areas,
    get_areas_inner record r_index c_index cs areas = Raise e →
    e = TypeError ∨ ∃ key, e = KeyError (JStr key).
Proof.
  induction cs as [|area cs IH]; intros c_index areas; [done|].
  cbn [get_areas_inner]. intros H.
  repeat (apply bind_Raise_inv in H as [H|(? & _ & H)];
          [apply py_getitem_raises in H as [->| ->]; eauto|]).
  by eapply IH.
Qed.

Lemma get_areas_outer_raises rs e :
  ∀ r_index areas,
    get_areas_outer r_index rs areas = Raise e →
    e = TypeError ∨ ∃ key, e = KeyError (JStr key).
Proof.
  induction rs as [|record rs IH]; intros r_index areas; [done|].
  cbn [get_areas_outer]. intros H.
  apply bind_Raise_inv in H as [H|(? & _ & H)];
    [apply py_getitem_raises in H as [->| ->]; eauto|].
  apply bind_Raise_inv in H as [H|(? & _ & H)];
    [apply py_iter_raises in H as ->; eauto|].
  apply bind_Raise_inv in H as [H|(? & _ & H)];
    [by eapply get_areas_inner_raises|].
  by eapply IH.
Qed.

(** C2. When the results document gives [schema] as 2 or 3, [get_areas]
    never raises the incompatible-version error, and it returns the areas
    when the document has the fields it reads; for every other integer it
    raises [InputError] with a message that ends with that integer. *)
Theorem get_areas_schema_range handle top n :
  json_loads handle = Ok (JObj top) →
  sget "schema" top = Some (JInt n) →
  (2 ≤ n ≤ 3 →
     (∀ version,
        get_areas json_loads py_repr handle
        ≠ Raise (incompatible_schema version)) ∧
     (results_shape top = true →
        is_ok (get_areas json_loads py_repr handle) = true)) ∧
  (¬ (2 ≤ n ≤ 3) →
     get_areas json_loads py_repr handle
     = Raise (incompatible_schema (pretty n))).
Proof.
  intros Hload Hs. unfold get_areas. rewrite Hload. rsimpl. split.
  - intros Hn. rewrite (schema_accepted top n Hs Hn). split.
    + intros version H.
      apply bind_Raise_inv in H as [H|(? & _ & H)];
        [by apply py_getitem_raises in H as [?|?]|].
      apply bind_Raise_inv in H as [H|(? & _ & H)];
        [by apply py_iter_raises in H|].
      by apply get_areas_outer_raises in H as [?|[? ?]].
    + unfold results_shape. cbn [py_getitem].
      destruct (sget "records" top) as [[| | | |rs|]|]; try done.
      intros Hrs. rsimpl. cbn [py_iter]. rsimpl.
      by apply get_areas_outer_ok.
  - intros Hn. by apply schema_rejected.
Qed.

(** ** What [get_areas] returns *)

Lemma py_getitem_field kv key :
  has_key key kv = true → py_getitem (JObj kv) key = Ok (field key (JObj kv)).
Proof.
  unfold has_key, py_getitem, field. by destruct (sget key kv).
Qed.

Lemma get_areas_inner_spec record rkv r_index cs :
  record = JObj rkv → has_key "id" rkv = true →
  forallb area_shape cs = true →
  ∀ c_index areas,
    anchors_before r_index c_index areas →
    get_areas_inner record r_index c_index cs areas
    = Ok (areas ++ entries_from record r_index c_index cs)
    ∧ anchors_before r_index (c_index + length cs)
        (areas ++ entries_from record r_index c_index cs).
Proof.
  intros -> Hid.
  induction cs as [|area cs IH]; intros Hcs c_index areas Hbefore.
  { simpl. rewrite app_nil_r, Nat.add_0_r. done. }
  simpl in Hcs. apply andb_true_iff in Hcs as [Harea Hcs].
  destruct area as [| | | | |kv]; try done.
  unfold area_shape in Harea.
  apply andb_true_iff in Harea as [Harea H3].
  apply andb_true_iff in Harea as [H1 H2].
  cbn [get_areas_inner entries_from].
  rewrite (py_getitem_field rkv), !(py_getitem_field kv) by done. rsimpl.
  rewrite sset_fresh by by apply anchors_before_fresh.
  destruct (IH Hcs (S c_index) _
              (anchors_before_snoc _ _ _ (area_entry (JObj rkv) (JObj kv))
                 Hbefore)) as [Hrun Hkeys].
  unfold area_entry in *. rewrite Hrun.
  rewrite <-app_assoc in Hkeys |- *. simpl in Hkeys |- *.
  by rewrite Nat.add_succ_r.
Qed.

Lemma get_areas_outer_spec rs :
  forallb record_shape rs = true →
  ∀ r_index areas,
    anchors_before r_index 0 areas →
    get_areas_outer r_index rs areas
    = Ok (areas ++ all_entries_from r_index rs)
    ∧ anchors_before (r_index + length rs) 0
        (areas ++ all_entries_from r_index rs).
Proof.
  induction rs as [|record rs IH]; intros Hrs r_index areas Hbefore.
  { simpl. rewrite app_nil_r, Nat.add_0_r. done. }
  simpl in Hrs. apply andb_true_iff in Hrs as [Hrec Hrs].
  destruct record as [| | | | |rkv]; try done.
  unfold record_shape in Hrec. apply andb_true_iff in Hrec as [Hid Hcs].
  cbn [get_areas_outer all_entries_from record_areas py_getitem].
  destruct (sget "areas" rkv) as [[| | | |cs|]|] eqn:Ha; try done.
  rsimpl. cbn [py_iter]. rsimpl.
  destruct (get_areas_inner_spec (JObj rkv) rkv r_index cs eq_refl Hid Hcs
              0%nat areas Hbefore) as [Hrun Hkeys].
  rewrite Hrun. rsimpl.
  destruct (IH Hrs (S r_index) _ (anchors_before_next _ _ _ Hkeys))
    as [Hrun' Hkeys'].
  rewrite Hrun'. rewrite <-app_assoc in Hkeys' |- *.
  cbn [length]. by rewrite Nat.add_succ_r.
Qed.

Lemma get_areas_of_spec top n rs :
  sget "schema" top = Some (JInt n) → 2 ≤ n ≤ 3 →
  sget "records" top = Some (JArr rs) →
  forallb record_shape rs = true →
  get_areas_of py_repr (JObj top) = Ok (all_entries_from 0 rs).
Proof.
  intros Hs Hn Hrecords Hrs. rewrite (schema_accepted top n Hs Hn).
  cbn [py_getitem]. rewrite Hrecords. rsimpl. cbn [py_iter]. rsimpl.
  assert (anchors_before 0 0 []) as Hnil by constructor.
  by destruct (get_areas_outer_spec rs Hrs 0%nat [] Hnil) as [-> _].
Qed.

Lemma entries_from_keys record r_index cs : ∀ c_index,
  (entries_from record r_index c_index cs).*1
  = anchor_of r_index <$> seq c_index (length cs).
Proof.
  induction cs as [|area cs IH]; intros c_index; [done|].
  simpl. by rewrite IH.
Qed.

Lemma all_entries_from_keys rs : ∀ r_index,
  (all_entries_from r_index rs).*1
  = count_anchors r_index ((λ record, length (record_areas record)) <$> rs).
Proof.
  induction rs as [|record rs IH]; intros r_index; [done|].
  simpl. by rewrite fmap_app, entries_from_keys, IH.
Qed.

Lemma sget_entries_from record r_index i j cs : ∀ c_index,
  sget (anchor_of i j) (entries_from record r_index c_index cs)
  = if decide (i = r_index ∧ (c_index ≤ j)%nat)
    then area_entry record <$> cs !! (j - c_index)%nat
    else None.
Proof.
  induction cs as [|area cs IH]; intros c_index.
  { simpl. by case_decide. }
  cbn [entries_from dict_get]. rewrite IH.
  destruct (String.eqb (anchor_of r_index c_index) (anchor_of i j)) eqn:E.
  - apply String.eqb_eq, anchor_of_inj in E as [-> ->].
    rewrite decide_True by lia. by rewrite Nat.sub_diag.
  - apply String.eqb_neq in E.
    destruct (decide (i = r_index ∧ (S c_index ≤ j)%nat)) as [[-> Hj]|Hn].
    + rewrite decide_True by lia.
      by replace (j - c_index)%nat with (S (j - S c_index)) by lia.
    + rewrite decide_False; [done|].
      intros [-> Hj]. destruct (decide (j = c_index)) as [->|]; [done|].
      apply Hn. split; [done|lia].
Qed.

Lemma sget_all_entries_from i j rs : ∀ r_index,
  sget (anchor_of i j) (all_entries_from r_index rs)
  = if decide (r_index ≤ i)%nat
    then rs !! (i - r_index)%nat ≫= λ record,
           area_entry record <$> record_areas record !! j
    else None.
Proof.
  induction rs as [|record rs IH]; intros r_index.
  { simpl. by case_decide. }
  cbn [all_entries_from]. rewrite sget_app, sget_entries_from, IH.
  destruct (decide (i = r_index ∧ (0 ≤ j)%nat)) as [[-> _]|Hne].
  - rewrite (decide_False (P := (S r_index ≤ r_index)%nat)) by lia.
    rewrite (decide_True (P := (r_index ≤ r_index)%nat)) by lia.
    rewrite Nat.sub_diag, Nat.sub_0_r. simpl.
    by destruct (record_areas record !! j).
  - destruct (decide (r_index ≤ i)%nat) as [Hle|Hgt].
    + rewrite (decide_True (P := (S r_index ≤ i)%nat)) by lia.
      by replace (i - r_index)%nat with (S (i - S r_index)) by lia.
    + by rewrite (decide_False (P := (S r_index ≤ i)%nat)) by lia.
Qed.

(** C6. The areas that [get_areas] returns are keyed by position: the area
    at index [j] of the record at index [i] is found under the string
    [r<i+1>c<j+1>], and the keys, in order, are the anchors of the positions
    of the document; two positions never have the same anchor. So two
    documents whose records have the same numbers of areas get the same
    anchors, whatever their [id] and [products] fields hold. *)
Theorem get_areas_anchors_positional handle top n rs :
  json_loads handle = Ok (JObj top) →
  sget "schema" top = Some (JInt n) → 2 ≤ n ≤ 3 →
  sget "records" top = Some (JArr rs) →
  forallb record_shape rs = true →
  ∃ areas,
    get_areas json_loads py_repr handle = Ok areas ∧
    (∀ i j record area,
       rs !! i = Some record → record_areas record !! j = Some area →
       anchor_of i j
       = "r" +:+ pretty (i + 1)%nat +:+ "c" +:+ pretty (j + 1)%nat ∧
       sget (anchor_of i j) areas = Some (area_entry record area)) ∧
    areas.*1
    = count_anchors 0 ((λ record, length (record_areas record)) <$> rs) ∧
    (∀ i j i' j', anchor_of i j = anchor_of i' j' → i = i' ∧ j = j') ∧
    (∀ handle' top' n' rs',
       json_loads handle' = Ok (JObj top') →
       sget "schema" top' = Some (JInt n') → 2 ≤ n' ≤ 3 →
       sget "records" top' = Some (JArr rs') →
       forallb record_shape rs' = true →
       Forall2 (λ record record',
                  length (record_areas record)
                  = length (record_areas record')) rs rs' →
       ∃ areas',
         get_areas json_loads py_repr handle' = Ok areas' ∧
         areas'.*1 = areas.*1).
Proof.
  intros Hload Hs Hn Hrecords Hrs. exists (all_entries_from 0 rs).
  assert (get_areas json_loads py_repr handle = Ok (all_entries_from 0 rs))
    as Hrun.
  { unfold get_areas. rewrite Hload. rsimpl. by eapply get_areas_of_spec. }
  split; [done|]. split; [|split; [|split]].
  - intros i j record area Hi Hj. split; [done|].
    rewrite sget_all_entries_from. rewrite decide_True by lia.
    rewrite Nat.sub_0_r, Hi. simpl. by rewrite Hj.
  - apply all_entries_from_keys.
  - apply anchor_of_inj.
  - intros handle' top' n' rs' Hload' Hs' Hn' Hrecords' Hrs' Hsame.
    exists (all_entries_from 0 rs'). split.
    { unfold get_areas. rewrite Hload'. rsimpl.
      by eapply get_areas_of_spec. }
    rewrite !all_entries_from_keys. f_equal.
    clear -Hsame.
    induction Hsame as [|r1 r2 l1 l2 Hlen _ IH]; [done|].
    rewrite !fmap_cons. by f_equal.
Qed.

(** ** What [gather_records] returns *)

Lemma bubble_data_payload_ok bubble_data item :
  bubble_data_ok bubble_data = true → payload_ok bubble_data item = true.
Proof.
  unfold bubble_data_ok, payload_ok, bubbles_of.
  generalize (item.1). intros anchor.
  induction bubble_data as [|[k v] bd IH]; [done|].
  cbn [forallb dict_get snd]. intros H.
  apply andb_true_iff in H as [Hv H].
  destruct (String.eqb k anchor); [done|]. by apply IH.
Qed.

Lemma first_value_truthy bubbles :
  truthy bubbles = true → first_value bubbles ≠ Raise IndexError.
Proof. by destruct bubbles as [| | | | |[|[k v] kv]]. Qed.

Lemma append_area_raises name area records e :
  append_area name area records = Raise e → e ≠ IndexError.
Proof.
  unfold append_area. destruct (kget name records) as [record|];
    [|by intros [= <-]].
  intros H. apply bind_Raise_inv in H as [H|(record_areas & _ & H)];
    [by apply py_getitem_raises in H as [-> | ->]|].
  destruct record, record_areas; try done; by injection H as <-.
Qed.

Lemma gather_step_raises bubble_data records item e :
  gather_step bubble_data records item = Raise e → e ≠ IndexError.
Proof.
  destruct item as [anchor area]. cbn [gather_step].
  destruct area as [| | | | |kv]; try by intros [= <-].
  destruct (sget "name" kv) as [name|]; [|by intros [= <-]].
  destruct (truthy (default JNull (sget anchor bubble_data))) eqn:Ht;
    [|done].
  cbn [negb]. intros H.
  apply bind_Raise_inv in H as [H|(selected & _ & H)].
  - intros ->. by apply (first_value_truthy _ Ht).
  - by eapply append_area_raises.
Qed.

Lemma gather_loop_raises bubble_data items e : ∀ records,
  gather_loop bubble_data items records = Raise e → e ≠ IndexError.
Proof.
  induction items as [|item items IH]; intros records; [done|].
  cbn [gather_loop]. intros H.
  apply bind_Raise_inv in H as [H|(records' & _ & H)];
    [by eapply gather_step_raises|by eapply IH].
Qed.

Lemma record_names_of_raises values e :
  record_names_of values = Raise e → e ≠ IndexError.
Proof.
  induction values as [|area values IH]; [done|].
  cbn [record_names_of]. intros H.
  apply bind_Raise_inv in H as [H|(name & _ & H)];
    [by apply py_getitem_raises in H as [-> | ->]|].
  destruct (hashable name); [|by injection H as <-].
  apply bind_Raise_inv in H as [H|(names & _ & H)]; [by apply IH|done].
Qed.

Lemma relevant_records_raises items e : ∀ kept,
  relevant_records items kept = Raise e → e ≠ IndexError.
Proof.
  induction items as [|[key value] items IH]; intros kept; [done|].
  cbn [relevant_records]. intros H.
  apply bind_Raise_inv in H as [H|(record_areas & _ & H)];
    [by apply py_getitem_raises in H as [-> | ->]|by eapply IH].
Qed.

(** C9. Taking the first variant never raises [IndexError]: the selection
    is reached only for bubble data that is truthy, where a dictionary has
    a first value, and no input makes lines 125 to 137 of
    [gather_from_files] end with that error. *)
Theorem first_variant_never_index_error :
  (∀ bubbles,
     truthy bubbles = true → first_value bubbles ≠ Raise IndexError) ∧
  (∀ bubbles, first_value bubbles = Raise IndexError → bubbles = JObj []) ∧
  (∀ areas bubble_data,
     gather_records set_iter areas bubble_data ≠ Raise IndexError).
Proof.
  split; [apply first_value_truthy|]. split.
  { by intros [| | | | |[|[k v] kv]]. }
  intros areas bubble_data H. unfold gather_records in H.
  apply bind_Raise_inv in H as [H|(names & _ & H)];
    [by eapply record_names_of_raises|].
  apply bind_Raise_inv in H as [H|(records & _ & H)];
    [by eapply gather_loop_raises|].
  apply bind_Raise_inv in H as [H|(records' & _ & H)];
    [by eapply relevant_records_raises|done].
Qed.

Section set_order.
Hypothesis set_iter_valid : ∀ names,
  forallb hashable names = true →
  set_order_ok (set_iter names) names = true.

Lemma gather_records_spec areas bubble_data :
  forallb item_ok areas = true →
  forallb (payload_ok bubble_data) areas = true →
  gather_records set_iter areas bubble_data
  = Ok (expected_records bubble_data (set_iter (item_names areas)) areas).
Proof.
  intros Hitems Hpay.
  destruct (record_names_of_spec areas Hitems) as [Hnames Hhash].
  pose proof (set_iter_valid _ Hhash) as Hset.
  unfold set_order_ok in Hset. apply andb_true_iff in Hset as [Hd Hcover].
  set (order := set_iter (item_names areas)) in *.
  unfold gather_records. rewrite Hnames. rsimpl.
  unfold empty_records.
  change (@nil (json * json)) with (to_records []).
  rewrite empty_records_spec by done. rewrite app_nil_l.
  rewrite gather_loop_spec;
    [|done|done|by rewrite <-list_fmap_compose, list_fmap_id].
  rsimpl. rewrite foldl_add_kept
    by by rewrite <-list_fmap_compose, list_fmap_id.
  change (@nil (json * json)) with (to_records []).
  rewrite relevant_records_spec.
  - rsimpl. rewrite app_nil_l. by rewrite expected_records_groups.
  - rewrite app_nil_l, <-!list_fmap_compose. by rewrite list_fmap_id.
Qed.
(** C3, as the code has it. An area is dropped when the bubble data has
    nothing for its anchor or has a falsy value there (an empty mapping
    of variants); otherwise it is kept, with the value of the first
    variant as its [bubbles], whatever that value is. The aggregated
    records hold the kept areas and nothing else. *)
Theorem gather_records_keeps_populated areas bubble_data :
  forallb item_ok areas = true →
  bubble_data_ok bubble_data = true →
  ∃ out,
    gather_records set_iter areas bubble_data = Ok out ∧
    out = expected_records bubble_data (set_iter (item_names areas)) areas ∧
    area_total out = length (List.filter (populated bubble_data) areas) ∧
    ∀ anchor area,
      (anchor, area) ∈ areas →
      (truthy (bubbles_of bubble_data anchor) = false →
         kept_area bubble_data (anchor, area) = None) ∧
      (truthy (bubbles_of bubble_data anchor) = true →
         ∃ k selected rest,
           bubbles_of bubble_data anchor = JObj ((k, selected) :: rest) ∧
           kept_area bubble_data (anchor, area)
           = Some (field "name" area, with_bubbles selected area) ∧
           field "bubbles" (with_bubbles selected area) = selected).
Proof.
  intros Hitems Hbd.
  assert (forallb (payload_ok bubble_data) areas = true) as Hpay.
  { apply forallb_forall. intros item _.
    by apply bubble_data_payload_ok. }
  destruct (record_names_of_spec areas Hitems) as [_ Hhash].
  pose proof (set_iter_valid _ Hhash) as Hset.
  unfold set_order_ok in Hset. apply andb_true_iff in Hset as [Hd Hcover].
  eexists. split; [by apply gather_records_spec|]. split; [done|]. split.
  { rewrite expected_records_total. by apply sum_collected. }
  intros anchor area Hin.
  assert (item_ok (anchor, area) = true) as Hitem.
  { rewrite forallb_forall in Hitems. apply Hitems.
    by apply list_elem_of_In. }
  destruct (kept_area_populated bubble_data (anchor, area) Hitem
              (bubble_data_payload_ok _ _ Hbd))
    as [[Hp Hk]|(Hp & k & v & rest & Hb & Hk)];
    unfold populated in Hp; cbn [fst snd] in *.
  - split; [done|]. by rewrite Hp.
  - split; [by rewrite Hp|]. intros _. exists k, v, rest.
    split; [done|]. split; [done|].
    unfold item_ok in Hitem. cbn [snd] in Hitem.
    destruct area as [| | | | |kv]; try done.
    cbn [with_bubbles field]. by rewrite sget_sset_eq.
Qed.

(** C5. When the bubble data of an anchor is a mapping with variants,
    the area is kept with the value of the first variant in insertion
    order as its [bubbles]. The result is the same for any bubble data
    that agrees on being truthy and on the first value, so neither the
    names of the variants nor the other variants play a part. *)
Theorem first_variant_selected areas bubble_data :
  forallb item_ok areas = true →
  bubble_data_ok bubble_data = true →
  ∃ out,
    gather_records set_iter areas bubble_data = Ok out ∧
    (∀ anchor area k selected rest,
       (anchor, area) ∈ areas →
       bubbles_of bubble_data anchor = JObj ((k, selected) :: rest) →
       ∃ n xs,
         aggregated n xs ∈ out ∧
         key_eqb n (field "name" area) = true ∧
         with_bubbles selected area ∈ xs ∧
         field "bubbles" (with_bubbles selected area) = selected) ∧
    (∀ bubble_data',
       (∀ anchor,
          truthy (bubbles_of bubble_data' anchor)
          = truthy (bubbles_of bubble_data anchor) ∧
          (truthy (bubbles_of bubble_data anchor) = true →
           first_value (bubbles_of bubble_data' anchor)
           = first_value (bubbles_of bubble_data anchor))) →
       gather_records set_iter areas bubble_data' = Ok out).
Proof.
  intros Hitems Hbd.
  assert (forallb (payload_ok bubble_data) areas = true) as Hpay.
  { apply forallb_forall. intros item _.
    by apply bubble_data_payload_ok. }
  destruct (record_names_of_spec areas Hitems) as [_ Hhash].
  pose proof (set_iter_valid _ Hhash) as Hset.
  unfold set_order_ok in Hset. apply andb_true_iff in Hset as [Hd Hcover].
  pose proof (gather_records_spec areas bubble_data Hitems Hpay) as Hrun.
  eexists. split; [done|]. split.
  - intros anchor area k v rest Hin Hb.
    assert (item_ok (anchor, area) = true) as Hitem.
    { rewrite forallb_forall in Hitems. apply Hitems.
      by apply list_elem_of_In. }
    destruct (kept_area_populated bubble_data (anchor, area) Hitem
                (bubble_data_payload_ok _ _ Hbd))
      as [[Hp _]|(_ & k' & v' & rest' & Hb' & Hk)];
      unfold populated in *; cbn [fst snd] in *.
    { by rewrite Hb in Hp. }
    rewrite Hb in Hb'. injection Hb' as <- <- <-.
    destruct (has_name_elem _ _
                (item_names_covered _ _ _ Hcover Hin)) as (n & Hn & Hkey).
    cbn [snd] in Hkey.
    pose proof (collected_elem _ n _ _ _ _ Hin Hk Hkey) as Helem.
    exists n, (collected bubble_data n areas).
    split; [|split; [done|split; [done|]]].
    + apply expected_records_elem; [done|].
      intros Hnil. rewrite Hnil in Helem. by apply elem_of_nil in Helem.
    + unfold item_ok in Hitem. cbn [snd] in Hitem.
      destruct area as [| | | | |kv]; try done.
      cbn [with_bubbles field]. by rewrite sget_sset_eq.
  - intros bd' Hsame. rewrite <-Hrun. unfold gather_records.
    destruct (record_names_of (areas.*2)) as [names|]; [|done]. rsimpl.
    by rewrite (gather_loop_ext bubble_data bd').
Qed.
(** C1, as the code has it. Take a record of the results file whose [id]
    no other record has, with [N] areas of which [M] have truthy bubble
    data under their anchors. If [M] is 0, no aggregated record has its
    name; otherwise exactly one has, and it holds exactly [M] areas.
    (Records that share an [id] are aggregated into one record.) *)
Theorem gather_record_area_count handle top n rs bubble_data i record :
  json_loads handle = Ok (JObj top) →
  sget "schema" top = Some (JInt n) → 2 ≤ n ≤ 3 →
  sget "records" top = Some (JArr rs) →
  forallb record_shape rs = true →
  forallb (λ record, hashable (field "id" record)) rs = true →
  bubble_data_ok bubble_data = true →
  rs !! i = Some record →
  (∀ j record', rs !! j = Some record' → j ≠ i →
     key_eqb (field "id" record') (field "id" record) = false) →
  ∃ areas out,
    get_areas json_loads py_repr handle = Ok areas ∧
    gather_records set_iter areas bubble_data = Ok out ∧
    let M := populated_count bubble_data i (length (record_areas record)) in
    (M = 0%nat → records_named (field "id" record) out = []) ∧
    (M ≠ 0%nat →
       ∃ name xs,
         records_named (field "id" record) out = [aggregated name xs] ∧
         key_eqb name (field "id" record) = true ∧
         length xs = M).
Proof.
  intros Hload Hs Hn Hrecords Hrs Hids Hbd Hi Hothers.
  set (areas := all_entries_from 0 rs).
  assert (get_areas json_loads py_repr handle = Ok areas) as Hareas.
  { unfold get_areas. rewrite Hload. rsimpl. by eapply get_areas_of_spec. }
  pose proof (all_entries_item_ok rs 0%nat Hids) as Hitems.
  fold areas in Hitems.
  assert (forallb (payload_ok bubble_data) areas = true) as Hpay.
  { apply forallb_forall. intros item _.
    by apply bubble_data_payload_ok. }
  destruct (record_names_of_spec areas Hitems) as [_ Hhash].
  pose proof (set_iter_valid _ Hhash) as Hset.
  unfold set_order_ok in Hset. apply andb_true_iff in Hset as [Hd Hcover].
  set (order := set_iter (item_names areas)) in *.
  exists areas, (expected_records bubble_data order areas).
  split; [done|]. split; [by apply gather_records_spec|].
  cbn zeta. rewrite records_named_expected.
  assert (∀ name, key_eqb name (field "id" record) = true →
            length (collected bubble_data name areas)
            = populated_count bubble_data i (length (record_areas record)))
    as Hcount.
  { intros name Hname. rewrite collected_length by done.
    unfold areas. rewrite (all_entries_named _ _ _ 0%nat i record) by done.
    by rewrite entries_from_populated. }
  destruct (has_name order (field "id" record)) eqn:Hhas.
  - pose proof (distinct_keys_one _ _ Hd Hhas) as Hone.
    destruct (List.filter (λ n, key_eqb n (field "id" record)) order)
      as [|name [|? ?]] eqn:Hfilter; try done.
    assert (key_eqb name (field "id" record) = true) as Hname.
    { assert (In name (List.filter
                         (λ n, key_eqb n (field "id" record)) order))
        as Hin by (rewrite Hfilter; by left).
      by apply filter_In in Hin as [_ Hin]. }
    specialize (Hcount name Hname).
    unfold expected_records. cbn [omap list_omap].
    destruct (collected bubble_data name areas) as [|x xs].
    + split; [done|]. intros HM. by rewrite <-Hcount in HM.
    + split; [intros HM; by rewrite <-Hcount in HM|].
      intros _. by exists name, (x :: xs).
  - rewrite has_name_filter by done. split; [done|]. intros HM.
    destruct (record_areas record) as [|area cs] eqn:Hcs; [done|].
    assert ((anchor_of i 0, area_entry record area) ∈ areas) as Hin.
    { apply sget_Some_elem. unfold areas.
      rewrite sget_all_entries_from. rewrite decide_True by lia.
      rewrite Nat.sub_0_r, Hi. simpl. by rewrite Hcs. }
    pose proof (item_names_covered _ _ _ Hcover Hin) as Hcov.
    cbn [snd] in Hcov. rewrite area_entry_name in Hcov.
    by rewrite Hhas in Hcov.
Qed.
End set_order.

(** ** The text that [extract_bubble_data] parses *)

(** C4, as the code has it. The collected lines are joined with single
    spaces; trailing whitespace is stripped, then every trailing [;], not
    one only; what is left is given to the parser. With at most one
    trailing [;] this is the text the specification describes. *)
Theorem section_text_strips_all_semicolons handle section :
  relevant_section (readlines handle) = Ok section →
  ∃ semis spaces,
    join " " section = section_text section +:+ semis +:+ spaces ∧
    all_chars is_space spaces = true ∧
    all_chars is_semicolon semis = true ∧
    (∀ c, last_char (section_text section +:+ semis) = Some c →
          is_space c = false) ∧
    last_char (section_text section) ≠ Some ";"%char ∧
    ((String.length semis ≤ 1)%nat →
       section_text section = section_text_as_specified section) ∧
    extract_bubble_data json_loads handle
    = (results_data ← json_loads (section_text section);
       match results_data with
       | JObj items => bubble_loop items []
       | _ => Raise AttributeError
       end).
Proof.
  intros Hsection.
  unfold section_text, section_text_as_specified, rstrip_semicolons, rstrip.
  destruct (rstrip_by_spec is_space (join " " section))
    as (spaces & Hjoin & Hspaces & Hlast).
  destruct (rstrip_by_spec is_semicolon (rstrip_by is_space (join " " section)))
    as (semis & Hstrip & Hsemis & Hlast').
  exists semis, spaces. split.
  { rewrite <-append_assoc, <-Hstrip. exact Hjoin. }
  split; [done|]. split; [done|]. split.
  { by rewrite <-Hstrip. }
  split.
  { intros H. by apply Hlast' in H. }
  split.
  - intros Hlen. destruct semis as [|c [|d semis]]; [| |simpl in Hlen; lia].
    + rewrite append_nil_r in Hstrip. rewrite <-Hstrip. symmetry.
      apply strip_one_semicolon_none. rewrite Hstrip.
      intros H. by apply Hlast' in H.
    + cbn [all_chars] in Hsemis. rewrite andb_true_r in Hsemis.
      apply Ascii.eqb_eq in Hsemis as ->.
      rewrite Hstrip at 2. by rewrite strip_one_semicolon_one.
  - unfold extract_bubble_data. rewrite Hsection. by rsimpl.
Qed.

(** ** A script file without the results *)

Variable glob_glob : string → world → list string.
Variable script_dir : string.
Variable traceback : exn → string.

Lemma relevant_section_missing handle :
  lacks_prefix "var resultsData =" handle = true →
  relevant_section (readlines handle)
  = Raise (ValueError "Javascript data does not contain relevant results").
Proof.
  unfold lacks_prefix, relevant_section.
  induction (readlines handle) as [|l lines IH]; [done|].
  cbn [forallb drop_while]. intros H. apply andb_true_iff in H as [-> H].
  by apply IH.
Qed.

Lemma relevant_section_found lines :
  forallb (λ l, negb (startswith l "var resultsData =")) lines = false →
  is_ok (relevant_section lines) = true.
Proof.
  unfold relevant_section.
  induction lines as [|l lines IH]; [done|].
  cbn [forallb drop_while].
  destruct (startswith l "var resultsData ="); [done|]. exact IH.
Qed.

(** A line with the prefix that line 86 tests and without the text that
    line 91 removes is left as it is, so it still starts with [var ]. *)
Lemma unspaced_assignment_kept line :
  startswith line "var resultsData =" = true →
  startswith line "var resultsData = " = false →
  startswith (remove_all "var resultsData = " line) "var " = true.
Proof.
  unfold startswith, remove_all. intros Hshort Hmarker.
  destruct line as [|c1 line]; [done|]. cbn [String.prefix] in Hshort.
  destruct (ascii_dec "v" c1) as [<-|]; [|done].
  destruct line as [|c2 line]; [done|]. cbn [String.prefix] in Hshort.
  destruct (ascii_dec "a" c2) as [<-|]; [|done].
  destruct line as [|c3 line]; [done|]. cbn [String.prefix] in Hshort.
  destruct (ascii_dec "r" c3) as [<-|]; [|done].
  destruct line as [|c4 line]; [done|]. cbn [String.prefix] in Hshort.
  destruct (ascii_dec " " c4) as [<-|]; [|done].
  cbn [remove_all_from]. rewrite Hmarker. simpl.
  by destruct (remove_all_from _ _ line).
Qed.

Lemma relevant_section_unspaced lines :
  forallb (λ l, negb (startswith l "var resultsData = ")) lines = true →
  forallb (λ l, negb (startswith l "var resultsData =")) lines = false →
  relevant_section lines = Ok [].
Proof.
  unfold relevant_section.
  induction lines as [|l lines IH]; [done|].
  cbn [forallb drop_while]. intros Hmarker Hshort.
  apply andb_true_iff in Hmarker as [Hl Hmarker].
  apply negb_true_iff in Hl.
  destruct (startswith l "var resultsData =") eqn:Hprefix; cbn [negb] in *.
  - cbn [take_while]. by rewrite unspaced_assignment_kept.
  - by apply IH.
Qed.

(** An error of [extract_bubble_data] that [_main] does not catch leaves
    [_main], and the interpreter ends the process with status 1 after
    printing the traceback. *)
Lemma extract_failure_ends_process
    input_dir output_dir w result_dir others results_file more handle js e :
  os_path_isdir input_dir w = true →
  os_path_isdir output_dir w = true →
  glob_glob (os_path_join input_dir "*") w = result_dir :: others →
  glob_glob (os_path_join result_dir "*.json") w = results_file :: more →
  files w !! results_file = Some handle →
  is_ok (get_areas json_loads py_repr handle) = true →
  files w !! os_path_join result_dir "regions.js" = Some js →
  extract_bubble_data json_loads js = Raise e →
  reported py_repr e = None →
  _main json_loads json_dumps py_repr set_iter glob_glob script_dir
    input_dir output_dir w
  = (Raise e, w) ∧
  main_block json_loads json_dumps py_repr set_iter glob_glob script_dir
    traceback input_dir output_dir w
  = (1, World (files w) (dirs w) (stderr w +:+ traceback e)).
Proof.
  intros Hin Hout Hdirs Hjson Hresults Hareas Hjs Hextract Hreported.
  assert (gather_from_files json_loads py_repr set_iter glob_glob result_dir w
          = (Raise e, w)) as Hgather.
  { unfold gather_from_files. rewrite io_bind_get_world, Hjson.
    rewrite (io_bind_Ok _ _ w handle w) by by apply open_read_file.
    rewrite io_bind_lift.
    destruct (get_areas json_loads py_repr handle) as [areas|]; [|done].
    rewrite (io_bind_Ok _ _ w js w) by by apply open_read_file.
    rewrite io_bind_lift. by rewrite Hextract. }
  assert (generate_page json_loads json_dumps py_repr set_iter glob_glob
            script_dir (result_dir :: others) output_dir w
          = (Raise e, w)) as Hpage.
  { unfold generate_page. apply io_bind_Raise.
    cbn [process_all_results gather_all]. by apply io_bind_Raise. }
  assert (_main json_loads json_dumps py_repr set_iter glob_glob script_dir
            input_dir output_dir w = (Raise e, w)) as Hmain.
  { unfold _main. rewrite io_bind_get_world, Hin. cbn [negb].
    unfold os_path_exists. rewrite Hout. cbn [orb negb].
    rewrite (io_bind_Ok _ _ w () w) by done.
    rewrite io_bind_get_world, Hout. cbn [negb]. rewrite Hdirs.
    unfold report_errors. rewrite Hpage. by destruct e. }
  split; [done|]. unfold main_block. by rewrite Hmain.
Qed.

(** C8. The claim holds of a script file in which no line starts with
    [var resultsData =] (see [missing_results_not_reported]); the code
    departs from it for a line that starts with [var resultsData =] and not
    with the marker [var resultsData = ]. Line 86 tests the prefix without
    the space, line 91 removes the marker with the space. Such a line is
    taken for the assignment although no line has the marker; nothing is
    removed from it, it still starts with [var ], no line is collected and
    the parser gets the empty text. The run then ends with the parser's
    error, not with the [ValueError] for missing results. *)
Theorem unspaced_assignment_not_rejected
    input_dir output_dir w result_dir others results_file more handle js :
  os_path_isdir input_dir w = true →
  os_path_isdir output_dir w = true →
  glob_glob (os_path_join input_dir "*") w = result_dir :: others →
  glob_glob (os_path_join result_dir "*.json") w = results_file :: more →
  files w !! results_file = Some handle →
  is_ok (get_areas json_loads py_repr handle) = true →
  files w !! os_path_join result_dir "regions.js" = Some js →
  lacks_prefix "var resultsData = " js = true →
  lacks_prefix "var resultsData =" js = false →
  json_loads EmptyString = Raise JSONDecodeError →
  relevant_section (readlines js) = Ok [] ∧
  extract_bubble_data json_loads js = Raise JSONDecodeError ∧
  _main json_loads json_dumps py_repr set_iter glob_glob script_dir
    input_dir output_dir w
  = (Raise JSONDecodeError, w) ∧
  main_block json_loads json_dumps py_repr set_iter glob_glob script_dir
    traceback input_dir output_dir w
  = (1, World (files w) (dirs w) (stderr w +:+ traceback JSONDecodeError)).
Proof.
  intros Hin Hout Hdirs Hjson Hresults Hareas Hjs Hmarker Hshort Hempty.
  pose proof (relevant_section_unspaced (readlines js) Hmarker Hshort)
    as Hsection.
  assert (extract_bubble_data json_loads js = Raise JSONDecodeError)
    as Hextract.
  { unfold extract_bubble_data. rewrite Hsection. rsimpl.
    change (section_text []) with EmptyString. by rewrite Hempty. }
  split; [done|]. split; [done|].
  by eapply extract_failure_ends_process.
Qed.

(** X17. [extract_bubble_data] raises the [ValueError] for missing results
    exactly for a script file in which no line starts with
    [var resultsData =]: with such a line the two loops return. [_main]
    catches [OSError] and [InputError] only, so for a script file without
    such a line the [ValueError] leaves it with nothing printed and nothing
    written, and the process then ends with status 1 and the traceback of
    that error on the error stream. *)
Theorem missing_results_not_reported
    input_dir output_dir w result_dir others results_file more handle js :
  os_path_isdir input_dir w = true →
  os_path_isdir output_dir w = true →
  glob_glob (os_path_join input_dir "*") w = result_dir :: others →
  glob_glob (os_path_join result_dir "*.json") w = results_file :: more →
  files w !! results_file = Some handle →
  is_ok (get_areas json_loads py_repr handle) = true →
  files w !! os_path_join result_dir "regions.js" = Some js →
  lacks_prefix "var resultsData =" js = true →
  let missing :=
    ValueError "Javascript data does not contain relevant results" in
  (∀ text,
     relevant_section (readlines text) = Raise missing
     ↔ lacks_prefix "var resultsData =" text = true) ∧
  extract_bubble_data json_loads js = Raise missing ∧
  _main json_loads json_dumps py_repr set_iter glob_glob script_dir
    input_dir output_dir w
  = (Raise missing, w) ∧
  main_block json_loads json_dumps py_repr set_iter glob_glob script_dir
    traceback input_dir output_dir w
  = (1, World (files w) (dirs w) (stderr w +:+ traceback missing)).
Proof.
  intros Hin Hout Hdirs Hjson Hresults Hareas Hjs Hlacks missing.
  assert (extract_bubble_data json_loads js = Raise missing) as Hextract.
  { unfold extract_bubble_data. by rewrite relevant_section_missing. }
  split.
  { intros text. split; [|apply relevant_section_missing].
    intros Hraise. unfold lacks_prefix.
    destruct (forallb _ (readlines text)) eqn:Hall; [done|].
    apply relevant_section_found in Hall. by rewrite Hraise in Hall. }
  split; [done|]. by eapply extract_failure_ends_process.
Qed.

(** ** The data file *)

Lemma gather_from_files_reads input_dir :
  reads_only
    (gather_from_files json_loads py_repr set_iter glob_glob input_dir).
Proof.
  intros w. unfold gather_from_files. rewrite io_bind_get_world.
  destruct (glob_glob _ w) as [|first_match ?]; [done|].
  revert w. repeat (apply reads_only_bind;
    [apply reads_only_open_read || apply reads_only_lift|intros ?]).
  apply reads_only_lift.
Qed.

Lemma gather_all_reads input_dirs :
  reads_only (gather_all json_loads py_repr set_iter glob_glob input_dirs).
Proof.
  induction input_dirs as [|input_dir rest IH]; [done|].
  cbn [gather_all]. apply reads_only_bind; [apply gather_from_files_reads|].
  intros records. apply reads_only_bind; [done|]. by intros others w.
Qed.

Lemma process_all_results_world input_dirs w :
  (process_all_results json_loads py_repr set_iter glob_glob input_dirs w).2
  = w.
Proof.
  destruct input_dirs as [|input_dir rest]; [done|]. apply gather_all_reads.
Qed.

Lemma render_area_spec index rkv name area w :
  sget "name" rkv = Some (JStr name) → area_renderable area = true →
  ∃ w', render_area py_repr index (JObj rkv) area w
        = (Ok (annotate_area py_repr name area), w')
        ∧ only_file index w w'.
Proof.
  intros Hname Harea. destruct area as [| | | | |kv]; try done.
  unfold area_renderable, has_key in Harea.
  destruct (sget "start" kv) as [start|] eqn:Hstart; [|done].
  destruct (sget "end" kv) as [end_|] eqn:Hend; [|done].
  destruct (sget "products" kv) as [products|] eqn:Hproducts; [|done].
  destruct (py_iter products) as [items|] eqn:Hitems; [|done].
  destruct (strs_of items) as [strs|] eqn:Hstrs; [|done].
  unfold render_area. rewrite io_bind_lift. cbn [py_getitem].
  rewrite Hname. rewrite io_bind_lift. rewrite Hstart.
  cbn [annotate_area field]. rewrite Hstart. cbn [default from_option id].
  set (area_anchor := replace_char "." "-" name +:+ "-" +:+ py_str py_repr start).
  rewrite io_bind_lift. cbn [py_getitem].
  rewrite (sget_sset_ne "anchor" "start") by done. rewrite Hstart.
  rewrite io_bind_lift. cbn [py_getitem].
  rewrite (sget_sset_ne "anchor" "end") by done. rewrite Hend.
  rewrite io_bind_lift. cbn [py_getitem].
  rewrite (sget_sset_ne "anchor" "products") by done. rewrite Hproducts.
  rewrite io_bind_lift, Hitems. rewrite io_bind_lift, Hstrs.
  match goal with |- context [handle_write index ?text ≫= _] =>
    destruct (handle_write_only index text w) as (w1 & H1 & Ho1 & _)
  end.
  rewrite (io_bind_Ok _ _ _ _ _ H1).
  match goal with |- context [handle_write index ?text ≫= _] =>
    destruct (handle_write_only index text w1) as (w2 & H2 & Ho2 & _)
  end.
  rewrite (io_bind_Ok _ _ _ _ _ H2).
  exists w2. split; [done|]. by eapply only_file_trans.
Qed.

Lemma render_areas_spec index rkv name areas : ∀ w,
  sget "name" rkv = Some (JStr name) →
  forallb area_renderable areas = true →
  ∃ w', render_areas py_repr index (JObj rkv) areas w
        = (Ok (annotate_area py_repr name <$> areas), w')
        ∧ only_file index w w'.
Proof.
  induction areas as [|area areas IH]; intros w Hname Hareas.
  { exists w. split; [done|apply only_file_refl]. }
  cbn [forallb] in Hareas. apply andb_true_iff in Hareas as [Harea Hareas].
  destruct (render_area_spec index rkv name area w Hname Harea)
    as (w1 & H1 & Ho1).
  destruct (IH w1 Hname Hareas) as (w2 & H2 & Ho2).
  cbn [render_areas]. rewrite (io_bind_Ok _ _ _ _ _ H1).
  rewrite (io_bind_Ok _ _ _ _ _ H2).
  exists w2. split; [done|]. by eapply only_file_trans.
Qed.

Lemma render_record_spec index record w :
  record_renderable record = true →
  ∃ w', render_record py_repr index record w
        = (Ok (annotate_record py_repr record), w')
        ∧ only_file index w w'.
Proof.
  intros Hrecord. destruct record as [| | | | |rkv]; try done.
  unfold record_renderable in Hrecord. cbn [annotate_record].
  destruct (sget "name" rkv) as [[| | |name| |]|] eqn:Hname; try done.
  destruct (sget "areas" rkv) as [[| | | |areas|]|] eqn:Hareas; try done.
  destruct (render_areas_spec index rkv name areas w Hname Hrecord)
    as (w1 & H1 & Ho1).
  unfold render_record. rewrite io_bind_lift. cbn [py_getitem].
  rewrite Hareas. rewrite io_bind_lift. cbn [py_iter].
  rewrite (io_bind_Ok _ _ _ _ _ H1). by exists w1.
Qed.

Lemma render_records_spec index records : ∀ w,
  forallb record_renderable records = true →
  ∃ w', render_records py_repr index records w
        = (Ok (annotate_record py_repr <$> records), w')
        ∧ only_file index w w'.
Proof.
  induction records as [|record records IH]; intros w Hrecords.
  { exists w. split; [done|apply only_file_refl]. }
  cbn [forallb] in Hrecords.
  apply andb_true_iff in Hrecords as [Hrecord Hrecords].
  destruct (render_record_spec index record w Hrecord) as (w1 & H1 & Ho1).
  destruct (IH w1 Hrecords) as (w2 & H2 & Ho2).
  cbn [render_records]. rewrite (io_bind_Ok _ _ _ _ _ H1).
  rewrite (io_bind_Ok _ _ _ _ _ H2).
  exists w2. split; [done|]. by eapply only_file_trans.
Qed.

Lemma shutil_copy_preserves src dst p w :
  copy_destination src dst w ≠ p →
  ∃ r w', shutil_copy src dst w = (r, w') ∧
          files w' !! p = files w !! p ∧ dirs w' = dirs w.
Proof.
  intros Hne. unfold shutil_copy. rewrite io_bind_get_world.
  set (target := copy_destination src dst w) in *.
  destruct (String.eqb src target && os_path_exists src w);
    [by eexists _, _|].
  unfold open_read at 1. unfold mbind at 1, io_bind at 1.
  destruct (files w !! src) as [text|]; [|by eexists _, _].
  unfold mbind at 1, io_bind at 1.
  destruct (open_write target w) as [[[]|e] w1] eqn:Hopen.
  - unfold open_write in Hopen.
    destruct (os_path_isdir target w); [done|].
    destruct (_ && _); [done|]. injection Hopen as <-.
    eexists _, _. split; [done|]. cbn [files dirs]. split; [|done].
    by rewrite !lookup_insert_ne.
  - unfold open_write in Hopen.
    destruct (os_path_isdir target w); [injection Hopen as <- <-; by eexists _, _|].
    destruct (_ && _); [|done]. injection Hopen as <- <-. by eexists _, _.
Qed.

Lemma copy_dependencies_preserves output_dir p w0 deps : ∀ w,
  (∀ dep w', dirs w' = dirs w0 → dep ∈ deps →
     copy_destination dep (os_path_join output_dir (os_path_basename dep)) w'
     ≠ p) →
  dirs w = dirs w0 →
  ∃ r w', copy_dependencies output_dir deps w = (r, w') ∧
          files w' !! p = files w !! p ∧ dirs w' = dirs w0.
Proof.
  induction deps as [|dep deps IH]; intros w Hdeps Hdirs.
  { by exists (Ok ()), w. }
  cbn [copy_dependencies].
  destruct (shutil_copy_preserves dep
              (os_path_join output_dir (os_path_basename dep)) p w)
    as (r & w1 & Hcopy & Hfile & Hd).
  { apply Hdeps; [done|]. apply list_elem_of_here. }
  destruct r as [[]|e].
  - rewrite (io_bind_Ok _ _ _ _ _ Hcopy).
    destruct (IH w1) as (r' & w2 & Hrest & Hfile' & Hd').
    + intros dep' w' Hw' Hin. apply Hdeps; [done|].
      by apply list_elem_of_further.
    + congruence.
    + exists r', w2. split; [done|]. split; congruence.
  - rewrite (io_bind_Raise _ _ _ _ _ Hcopy).
    exists (Raise e), w1. split; [done|]. split; congruence.
Qed.

(** C7. When the aggregated records can be rendered and the two files
    can be opened, [generate_page] leaves in [data.js] the text
    [var data = ], then what [json.dump] with an indent of 1 writes for
    the list of the records, each area with the [anchor] that the
    rendering gave it, then one [;]. The copy of the dependencies that
    follows does not change it, unless one of them is copied onto it. *)
Theorem data_file_content inputs output_dir w all_results :
  (process_all_results json_loads py_repr set_iter glob_glob inputs w).1
  = Ok all_results →
  forallb record_renderable all_results = true →
  can_write (os_path_join output_dir "index.html") w = true →
  can_write (os_path_join output_dir "data.js") w = true →
  (∀ dep w' w'',
     dirs w' = dirs w →
     dep ∈ glob_glob
             (os_path_join (os_path_join script_dir "dependencies") "*") w'' →
     copy_destination dep
       (os_path_join output_dir (os_path_basename dep)) w'
     ≠ os_path_join output_dir "data.js") →
  ∃ r w',
    generate_page json_loads json_dumps py_repr set_iter glob_glob script_dir
      inputs output_dir w = (r, w') ∧
    files w' !! os_path_join output_dir "data.js"
    = Some ("var data = "
            +:+ json_dumps (JArr (annotate_record py_repr <$> all_results))
            +:+ ";") ∧
    ∀ record area,
      record ∈ annotate_record py_repr <$> all_results →
      area ∈ record_areas record →
      has_key "anchor" (match area with JObj kv => kv | _ => [] end) = true.
Proof.
  intros Hresults Hrender Hindex Hdata Hdeps.
  set (index := os_path_join output_dir "index.html") in *.
  set (data := os_path_join output_dir "data.js") in *.
  pose proof (process_all_results_world inputs w) as Hworld.
  destruct (process_all_results _ _ _ _ inputs w) as [r0 w0] eqn:Hrun.
  cbn [fst snd] in Hresults, Hworld. subst r0 w0.
  unfold generate_page. rewrite (io_bind_Ok _ _ _ _ _ Hrun). cbn zeta.
  fold index data.
  destruct (open_write_ok index w Hindex) as (w1 & H1 & Ho1 & _).
  rewrite (io_bind_Ok _ _ _ _ _ H1).
  destruct (handle_write_only index HTML_TOP w1) as (w2 & H2 & Ho2 & _).
  rewrite (io_bind_Ok _ _ _ _ _ H2).
  destruct (render_records_spec index all_results w2 Hrender)
    as (w3 & H3 & Ho3).
  rewrite (io_bind_Ok _ _ _ _ _ H3).
  destruct (handle_write_only index HTML_BOTTOM w3) as (w4 & H4 & Ho4 & _).
  rewrite (io_bind_Ok _ _ _ _ _ H4).
  assert (only_file index w w4) as Ho.
  { repeat (eapply only_file_trans; [|done]). done. }
  destruct Ho as (Hdirs & _ & _).
  rewrite <-(can_write_dirs data w w4 Hdirs) in Hdata.
  destruct (open_write_ok data w4 Hdata) as (w5 & H5 & Ho5 & Hf5).
  rewrite (io_bind_Ok _ _ _ _ _ H5).
  destruct (handle_write_only data "var data = " w5) as (w6 & H6 & Ho6 & Hf6).
  rewrite (io_bind_Ok _ _ _ _ _ H6). rewrite Hf5 in Hf6.
  destruct (handle_write_only data
              (json_dumps (JArr (annotate_record py_repr <$> all_results)))
              w6) as (w7 & H7 & Ho7 & Hf7).
  rewrite (io_bind_Ok _ _ _ _ _ H7). rewrite Hf6 in Hf7.
  destruct (handle_write_only data ";" w7) as (w8 & H8 & Ho8 & Hf8).
  rewrite (io_bind_Ok _ _ _ _ _ H8). rewrite Hf7 in Hf8.
  rewrite io_bind_get_world.
  assert (dirs w8 = dirs w) as Hdirs8.
  { destruct Ho5 as (E5 & _), Ho6 as (E6 & _), Ho7 as (E7 & _),
      Ho8 as (E8 & _). congruence. }
  destruct (copy_dependencies_preserves output_dir data w
              (glob_glob
                 (os_path_join (os_path_join script_dir "dependencies") "*")
                 w8) w8) as (r & w9 & Hcopy & Hfile & _).
  { intros dep w' Hw' Hin. by eapply Hdeps. }
  { done. }
  exists r, w9. split; [done|]. split.
  - rewrite Hfile, Hf8. cbn [default from_option id].
    by rewrite append_assoc.
  - clear -Hrender. intros record area Hrecord Harea.
    apply list_elem_of_fmap in Hrecord as (record0 & -> & Hin).
    rewrite forallb_forall in Hrender.
    apply list_elem_of_In, Hrender in Hin.
    destruct record0 as [| | | | |rkv]; try done.
    unfold record_renderable in Hin. cbn [annotate_record] in Harea.
    destruct (sget "name" rkv) as [[| | |name| |]|]; try done.
    destruct (sget "areas" rkv) as [[| | | |areas|]|]; try done.
    unfold record_areas in Harea. rewrite sget_sset_eq in Harea.
    apply list_elem_of_fmap in Harea as (area0 & -> & Hin0).
    rewrite forallb_forall in Hin. apply list_elem_of_In, Hin in Hin0.
    destruct area0 as [| | | | |kv]; try done.
    cbn [annotate_area]. unfold has_key. by rewrite sget_sset_eq.
Qed.

(** C10. Without a [schema] field, [get_areas] takes the version to be 0:
    it raises the same [InputError] as for a version out of range, whatever
    else the document holds, and no [KeyError]. *)
Theorem get_areas_schema_missing handle top :
  json_loads handle = Ok (JObj top) →
  sget "schema" top = None →
  get_areas json_loads py_repr handle = Raise (incompatible_schema "0") ∧
  ∀ handle' top',
    json_loads handle' = Ok (JObj top') →
    sget "schema" top' = Some (JInt 0) →
    get_areas json_loads py_repr handle'
    = get_areas json_loads py_repr handle.
Proof.
  intros Hload Hs.
  assert (get_areas json_loads py_repr handle
          = Raise (incompatible_schema "0")) as Hrun.
  { unfold get_areas. rewrite Hload. rsimpl.
    unfold get_areas_of. by rewrite Hs. }
  split; [done|]. intros handle' top' Hload' Hs'. rewrite Hrun.
  unfold get_areas. rewrite Hload'. rsimpl.
  rewrite (schema_rejected top' 0); [done|done|lia].
Qed.
End properties.

(** * The properties on the example inputs *)

Import Example.

Lemma get_areas_schema_range_witness :
  is_ok (get_areas loads repr "RESULTS") = true ∧
  get_areas loads repr "OLD" = Raise (incompatible_schema "5").
Proof.
  split.
  - destruct (get_areas_schema_range loads repr "RESULTS" top 3
                eq_refl eq_refl) as [Hin _].
    apply Hin; [lia|reflexivity].
  - destruct (get_areas_schema_range loads repr "OLD" top_old 5
                eq_refl eq_refl) as [_ Hout].
    apply Hout. lia.
Defined.

Lemma get_areas_schema_missing_witness :
  get_areas loads repr "BARE" = Raise (incompatible_schema "0") ∧
  get_areas loads repr "ZERO" = get_areas loads repr "BARE".
Proof.
  destruct (get_areas_schema_missing loads repr "BARE" top_bare
              eq_refl eq_refl) as [Hbare Hsame].
  split; [exact Hbare|]. exact (Hsame "ZERO" top_zero eq_refl eq_refl).
Defined.

Lemma get_areas_anchors_positional_witness :
  ∃ areas,
    get_areas loads repr "RESULTS" = Ok areas ∧
    areas.*1 = ["r1c1"; "r1c2"; "r2c1"] ∧
    sget "r1c2" areas = Some (area_entry (record "NC_1.1" [area 1 10; area 20 30])
                                (area 20 30)).
Proof.
  destruct (get_areas_anchors_positional loads repr "RESULTS" top 3 records
              eq_refl eq_refl ltac:(lia) eq_refl eq_refl)
    as (areas & Hrun & Hpos & Hkeys & _).
  exists areas. split; [exact Hrun|]. split; [exact Hkeys|].
  exact (proj2 (Hpos 0%nat 1%nat _ _ eq_refl eq_refl)).
Defined.

Lemma first_variant_never_index_error_witness :
  first_value (JObj [("CC1", modules)]) ≠ Raise IndexError ∧
  gather_records first_seen areas bubble_data ≠ Raise IndexError.
Proof.
  destruct (first_variant_never_index_error first_seen) as (Hfirst & _ & Hall).
  split; [apply Hfirst; reflexivity|apply Hall].
Defined.

Lemma gather_records_keeps_populated_witness :
  ∃ out,
    gather_records first_seen areas bubble_data = Ok out ∧
    area_total out = 1%nat.
Proof.
  destruct (gather_records_keeps_populated first_seen first_seen_valid
              areas bubble_data eq_refl eq_refl)
    as (out & Hrun & _ & Htotal & _).
  exists out. split; [exact Hrun|exact Htotal].
Defined.

Lemma first_variant_selected_witness :
  extract_bubble_data loads regions_js = Ok bubble_data ∧
  ∃ out,
    gather_records first_seen areas bubble_data = Ok out ∧
    gather_records first_seen areas bubble_data_renamed = Ok out ∧
    ∃ n xs,
      aggregated n xs ∈ out ∧
      with_bubbles modules
        (area_entry (record "NC_1.1" [area 1 10; area 20 30]) (area 1 10))
      ∈ xs.
Proof.
  destruct (first_variant_selected first_seen first_seen_valid
              areas bubble_data eq_refl eq_refl)
    as (out & Hrun & Hsel & Hsame).
  split; [reflexivity|].
  exists out. split; [exact Hrun|]. split.
  - apply Hsame. intros anchor. unfold bubbles_of, bubble_data_renamed,
      bubble_data. cbn [dict_get].
    destruct (String.eqb "r1c1" anchor); [split; [reflexivity|reflexivity]|].
    destruct (String.eqb "r1c2" anchor); [split; [reflexivity|reflexivity]|].
    destruct (String.eqb "r2c1" anchor); split; reflexivity.
  - destruct (Hsel "r1c1"
                (area_entry (record "NC_1.1" [area 1 10; area 20 30])
                   (area 1 10))
                "CC1" modules [("CC2", JObj [])])
      as (n & xs & Hin & _ & Harea & _).
    + apply list_elem_of_here.
    + reflexivity.
    + exists n, xs. split; [exact Hin|exact Harea].
Defined.

Lemma gather_record_area_count_witness :
  ∃ areas out,
    get_areas loads repr "RESULTS" = Ok areas ∧
    gather_records first_seen areas bubble_data = Ok out ∧
    ∃ name xs,
      records_named (JStr "NC_1.1") out = [aggregated name xs] ∧
      length xs = 1%nat.
Proof.
  destruct (gather_record_area_count loads repr first_seen first_seen_valid
              "RESULTS" top 3 records bubble_data 0
              (record "NC_1.1" [area 1 10; area 20 30])
              eq_refl eq_refl ltac:(lia) eq_refl eq_refl eq_refl eq_refl
              eq_refl)
    as (areas & out & Hareas & Hrun & _ & Hsome).
  - intros [|[|j]] record' Hj Hne.
    + destruct (Hne eq_refl).
    + injection Hj as <-. reflexivity.
    + discriminate Hj.
  - exists areas, out. split; [exact Hareas|]. split; [exact Hrun|].
    destruct Hsome as (name & xs & Hnamed & _ & Hlen).
    + discriminate.
    + exists name, xs. split; [exact Hnamed|exact Hlen].
Defined.

(** C1 does not hold as the specification states it. The two records of
    [twins] have the same [id]; the first has one area and that area has
    bubble data, so an aggregated record with exactly one area is expected
    for it. The merge yields a single aggregated record, with the areas of
    both. *)
Lemma shared_id_counterexample :
  get_areas loads repr "TWINS" = Ok (all_entries_from 0 twins) ∧
  length (record_areas (record "NC_1.1" [area 1 10])) = 1%nat ∧
  populated_count bubble_data_twins 0 1 = 1%nat ∧
  gather_records first_seen (all_entries_from 0 twins) bubble_data_twins
  = Ok twins_out ∧
  length twins_out = 1%nat ∧
  Forall (λ record, length (record_areas record) = 2%nat) twins_out.
Proof.
  repeat split; try reflexivity. repeat constructor.
Qed.

(** C3 does not hold as the specification states it. The first variant of
    [r1c1] has an empty value, so the area is to be dropped; the merge keeps
    it, with that empty value as its [bubbles]. *)
Lemma empty_variant_counterexample :
  dropped_as_specified bubble_data_empty_variant "r1c1" = true ∧
  gather_records first_seen areas bubble_data_empty_variant
  = Ok empty_variant_out ∧
  empty_variant_out
  = [aggregated (JStr "NC_1.1")
       [with_bubbles (JObj [])
          (area_entry (record "NC_1.1" [area 1 10; area 20 30])
             (area 1 10))]] ∧
  area_total empty_variant_out = 1%nat.
Proof. repeat split; reflexivity. Qed.

Lemma section_text_strips_all_semicolons_witness :
  ∃ semis spaces,
    join " " ["{};;"] = section_text ["{};;"] +:+ semis +:+ spaces ∧
    last_char (section_text ["{};;"]) ≠ Some ";"%char.
Proof.
  destruct (section_text_strips_all_semicolons loads
              "var resultsData = {};;" ["{};;"] eq_refl)
    as (semis & spaces & Hjoin & _ & _ & _ & Hlast & _).
  exists semis, spaces. split; [exact Hjoin|exact Hlast].
Defined.

(** C4 does not hold as the specification states it. After two trailing
    semicolons, removing one leaves a text that is not JSON; the code
    removes both and parses what is left. *)
Lemma two_semicolons_counterexample :
  section_text_as_specified ["{};;"] = "{};" ∧
  section_text ["{};;"] = "{}" ∧
  loads (section_text_as_specified ["{};;"]) = Raise JSONDecodeError ∧
  extract_bubble_data loads "var resultsData = {};;" = Ok [].
Proof. repeat split; reflexivity. Qed.

Lemma unspaced_assignment_not_rejected_witness :
  lacks_prefix "var resultsData = " Runs.regions_js_unspaced = true ∧
  extract_bubble_data loads Runs.regions_js_unspaced = Raise JSONDecodeError ∧
  main_block loads dumps repr first_seen Runs.glob "/opt/gather" traceback
    "nospace" "out" Runs.world1
  = (1,
     World (files Runs.world1) (dirs Runs.world1)
       (traceback JSONDecodeError)).
Proof.
  destruct (unspaced_assignment_not_rejected loads dumps repr first_seen
              Runs.glob "/opt/gather" traceback "nospace" "out" Runs.world1
              "nospace/run1" [] "nospace/run1/results.json" [] "RESULTS"
              Runs.regions_js_unspaced)
    as (_ & Hextract & _ & Hblock); [vm_compute; reflexivity..|].
  split; [vm_compute; reflexivity|]. split; [exact Hextract|exact Hblock].
Defined.

Lemma missing_results_not_reported_witness :
  _main loads dumps repr first_seen glob "/opt/gather" "bad" "out" world0
  = (Raise missing, world0) ∧
  main_block loads dumps repr first_seen glob "/opt/gather" traceback
    "bad" "out" world0
  = (1, World (files world0) (dirs world0) (traceback missing)).
Proof.
  destruct (missing_results_not_reported loads dumps repr first_seen glob
              "/opt/gather" traceback "bad" "out" world0
              "bad/run1" [] "bad/run1/results.json" [] "RESULTS"
              regions_js_without)
    as (_ & _ & Hmain & Hblock); [vm_compute; reflexivity..|].
  split; [exact Hmain|exact Hblock].
Defined.

Lemma data_file_content_witness :
  ∃ r w',
    generate_page loads dumps repr first_seen glob "/opt/gather"
      ["in/run1"] "out" world0 = (r, w') ∧
    files w' !! "out/data.js" = Some "var data = [...];".
Proof.
  destruct (data_file_content loads dumps repr first_seen glob "/opt/gather"
              ["in/run1"] "out" world0 all_results)
    as (r & w' & Hrun & Hdata & _);
    [vm_compute; reflexivity| vm_compute; reflexivity
    |vm_compute; reflexivity| vm_compute; reflexivity| |].
  - intros dep w1 w2 Hdirs Hin.
    change (dep ∈ ["/opt/gather/dependencies/style.css"]) in Hin.
    apply list_elem_of_singleton in Hin as ->.
    unfold copy_destination, os_path_isdir. rewrite Hdirs.
    vm_compute. discriminate.
  - exists r, w'. split; [exact Hrun|exact Hdata].
Defined.

(** * Further properties *)

(** ** The lines of the assignment *)

Lemma prefix_append s t : String.prefix s (s +:+ t) = true.
Proof.
  induction s as [|c s IH]; [by destruct t|].
  change (String c s +:+ t) with (String c (s +:+ t)).
  cbn [String.prefix]. by destruct (ascii_dec c c).
Qed.

Lemma remove_all_from_skip old s t :
  remove_all_from old (String.length s) (s +:+ t) = remove_all_from old 0 t.
Proof. induction s as [|c s IH]; [done|exact IH]. Qed.

Lemma remove_all_occurrence old t :
  old ≠ EmptyString → remove_all old (old +:+ t) = remove_all old t.
Proof.
  destruct old as [|c old]; [done|]. intros _. unfold remove_all.
  pose proof (prefix_append (String c old) t) as Hprefix.
  change (String c old +:+ t) with (String c (old +:+ t)) in *.
  cbn [remove_all_from]. rewrite Hprefix.
  change (String.length (String c old) - 1)%nat with (String.length old - 0)%nat.
  rewrite Nat.sub_0_r. apply remove_all_from_skip.
Qed.

Lemma drop_while_all {A} (p : A → bool) l1 l2 :
  forallb p l1 = true → drop_while p (l1 ++ l2) = drop_while p l2.
Proof.
  induction l1 as [|x l1 IH]; [done|]. cbn [forallb app drop_while].
  intros H. apply andb_true_iff in H as [-> H]. by apply IH.
Qed.

Lemma take_while_all {A} (p : A → bool) l1 l2 :
  forallb p l1 = true →
  match l2 with [] => True | x :: _ => p x = false end →
  take_while p (l1 ++ l2) = l1.
Proof.
  induction l1 as [|x l1 IH]; cbn [forallb app take_while].
  - intros _ H. destruct l2 as [|y l2]; [done|]. cbn [take_while].
    by rewrite H.
  - intros H H2. apply andb_true_iff in H as [-> H]. by rewrite IH.
Qed.

(** X1. The section that [extract_bubble_data] parses starts at the first
    line with the prefix [var resultsData =], whatever follows the equals
    sign, with the text [var resultsData = ] removed wherever that line has
    it, and ends before the next line that starts with [var ], or with the
    last line. When what is left of the first line starts with [var ]
    itself, as it does when no space follows the equals sign, nothing is
    collected. *)
Theorem relevant_section_cut before line body after :
  forallb (λ l, negb (startswith l "var resultsData =")) before = true →
  startswith line "var resultsData =" = true →
  forallb (λ l, negb (startswith l "var ")) body = true →
  match after with
  | [] => True
  | stop :: _ => startswith stop "var " = true
  end →
  relevant_section (before ++ line :: body ++ after)
  = Ok (if startswith (remove_all "var resultsData = " line) "var "
        then []
        else remove_all "var resultsData = " line :: body) ∧
  ∀ text,
    line = "var resultsData = " +:+ text →
    remove_all "var resultsData = " line
    = remove_all "var resultsData = " text.
Proof.
  intros Hbefore Hline Hbody Hafter.
  split; [|intros text ->; by apply remove_all_occurrence].
  unfold relevant_section.
  rewrite drop_while_all by done.
  cbn [drop_while]. rewrite Hline. cbn [negb take_while].
  destruct (startswith (remove_all "var resultsData = " line) "var ");
    [done|].
  cbn [negb]. rewrite take_while_all; [done|done|].
  destruct after as [|stop after]; [done|]. by rewrite Hafter.
Qed.

(** ** The bubble data of the anchors *)

Lemma bubble_loop_spec items : ∀ bubble_data,
  NoDup (bubble_data.*1 ++ items.*1) →
  bubble_loop items bubble_data
  = if forallb (λ p, is_obj p.2) items
    then Ok (bubble_data ++ ((λ p, (p.1, bubble_view_of p.2)) <$> items))
    else Raise AttributeError.
Proof.
  induction items as [|[anchor data] items IH]; intros bubble_data Hnodup.
  { simpl. by rewrite app_nil_r. }
  rewrite fmap_cons in Hnodup. cbn [fst] in Hnodup.
  cbn [bubble_loop forallb snd].
  destruct data as [| | | | |kv]; try done.
  cbn [is_obj andb]. rewrite sset_fresh.
  - rewrite IH.
    + destruct (forallb _ items); [|done].
      rewrite fmap_cons. cbn [fst snd]. by rewrite <-app_assoc.
    + rewrite fmap_app, <-app_assoc. exact Hnodup.
  - apply NoDup_app in Hnodup as (_ & Hdisjoint & _).
    intros Hin. apply (Hdisjoint anchor Hin). apply list_elem_of_here.
Qed.

Lemma sget_fmap_snd {V W} (g : V → W) k (d : list (string * V)) :
  sget k ((λ p, (p.1, g p.2)) <$> d) = g <$> sget k d.
Proof.
  induction d as [|[k' v] d IH]; [done|]. rewrite fmap_cons.
  cbn [dict_get fst snd]. by destruct (String.eqb k' k).
Qed.

Lemma sget_NoDup_elem {V} k (v : V) d :
  NoDup (d.*1) → (k, v) ∈ d → sget k d = Some v.
Proof.
  induction d as [|[k' v'] d IH]; intros Hnodup Hin.
  { by apply elem_of_nil in Hin. }
  rewrite fmap_cons in Hnodup. apply NoDup_cons in Hnodup as [Hk' Hnodup].
  cbn [dict_get]. apply elem_of_cons in Hin as [[= <- <-]|Hin].
  - by rewrite String.eqb_refl.
  - destruct (String.eqb k' k) eqn:E; [|by apply IH].
    apply String.eqb_eq in E as ->. destruct Hk'.
    apply list_elem_of_fmap. by exists (k, v).
Qed.

(** [os.makedirs] at most adds directories. *)

Lemma adds_dirs_bind {A B} (m : io A) (f : A → io B) :
  adds_dirs m → (∀ a, adds_dirs (f a)) → adds_dirs (m ≫= f).
Proof.
  intros Hm Hf w. unfold mbind, io_bind. destruct (Hm w) as (Hfiles & He & Hd).
  destruct (m w) as [[a|e] w1]; cbn [snd] in *; [|done].
  destruct (Hf a w1) as (Hfiles' & He' & Hd').
  split; [congruence|]. split; [congruence|set_solver].
Qed.

Lemma adds_dirs_ret {A} (a : A) : adds_dirs (mret a : io A).
Proof. by intros w. Qed.

Lemma adds_dirs_mkdir name : adds_dirs (os_mkdir name).
Proof.
  intros w. unfold os_mkdir. destruct (os_path_exists name w); [done|].
  destruct (_ && _); [done|]. cbn [snd files dirs stderr]. set_solver.
Qed.

Lemma pass_file_exists_world m w : (pass_file_exists m w).2 = (m w).2.
Proof.
  unfold pass_file_exists.
  by destruct (m w) as [[[]|[| | | | | | |[] path|]] w'].
Qed.

Lemma adds_dirs_makedirs_fuel fuel : ∀ name,
  adds_dirs (os_makedirs_fuel fuel name).
Proof.
  induction fuel as [|fuel IH]; intros name; cbn [os_makedirs_fuel];
    destruct (split_leaf name) as [head tail];
    (apply adds_dirs_bind; [by intros w|intros w]);
    (destruct (_ && _); [|apply adds_dirs_mkdir]); [apply adds_dirs_mkdir|].
  apply adds_dirs_bind.
  - intros w'. rewrite pass_file_exists_world. apply IH.
  - intros _. destruct (String.eqb tail ".");
      [apply adds_dirs_ret|apply adds_dirs_mkdir].
Qed.

Lemma os_makedirs_adds name w :
  files (os_makedirs name w).2 = files w ∧
  stderr (os_makedirs name w).2 = stderr w ∧
  dirs w ⊆ dirs (os_makedirs name w).2.
Proof. apply adds_dirs_makedirs_fuel. Qed.

(** The recursive call of [os.makedirs] is on a shorter path, so the
    fuel never runs out. *)

Lemma head_of_path_length p :
  (String.length (head_of_path p) + String.length (os_path_basename p)
   = String.length p)%nat.
Proof.
  induction p as [|c p IH]; [done|]. cbn [head_of_path os_path_basename].
  destruct (_ || _); [|done]. cbn [String.length]. lia.
Qed.

Lemma rstrip_by_length f s :
  (String.length (rstrip_by f s) ≤ String.length s)%nat.
Proof.
  induction s as [|c s IH]; [done|]. cbn [rstrip_by].
  destruct (rstrip_by f s) as [|d t].
  - destruct (f c); cbn [String.length]; lia.
  - cbn [String.length] in *. lia.
Qed.

Lemma os_path_dirname_length p :
  (String.length (os_path_dirname p) ≤ String.length (head_of_path p))%nat.
Proof.
  unfold os_path_dirname. cbn zeta.
  pose proof (rstrip_by_length (λ c, Ascii.eqb c "/") (head_of_path p)) as H.
  by destruct (rstrip_by _ (head_of_path p)).
Qed.

Lemma os_path_split_shorter p :
  os_path_basename p ≠ EmptyString →
  (String.length (os_path_dirname p) < String.length p)%nat.
Proof.
  intros Htail. pose proof (head_of_path_length p) as Hsum.
  pose proof (os_path_dirname_length p) as Hhead.
  destruct (os_path_basename p); [done|]. cbn [String.length] in Hsum. lia.
Qed.

Lemma split_leaf_shorter name head tail :
  split_leaf name = (head, tail) → tail ≠ EmptyString →
  (String.length head < String.length name)%nat.
Proof.
  unfold split_leaf, os_path_split.
  destruct (String.eqb (os_path_basename name) EmptyString) eqn:Hempty.
  - intros [= <- <-] Htail.
    pose proof (os_path_split_shorter (os_path_dirname name) Htail).
    pose proof (os_path_dirname_length name).
    pose proof (head_of_path_length name). lia.
  - intros [= <- <-] Htail. by apply os_path_split_shorter.
Qed.

Lemma os_makedirs_fuel_any fuel : ∀ fuel' name w,
  (String.length name ≤ fuel)%nat → (String.length name ≤ fuel')%nat →
  os_makedirs_fuel fuel name w = os_makedirs_fuel fuel' name w.
Proof.
  induction fuel as [|fuel IH]; intros [|fuel'] name w Hfuel Hfuel';
    try done.
  - destruct name; [done|]. cbn [String.length] in Hfuel. lia.
  - destruct name; [done|]. cbn [String.length] in Hfuel'. lia.
  - cbn [os_makedirs_fuel].
    destruct (split_leaf name) as [head tail] eqn:Hsplit.
    rewrite !io_bind_get_world.
    destruct (_ && _) eqn:Hmissing; [|done].
    apply andb_true_iff in Hmissing as [Hparts _].
    apply andb_true_iff in Hparts as [_ Htail].
    apply negb_true_iff, String.eqb_neq in Htail.
    pose proof (split_leaf_shorter name head tail Hsplit Htail).
    unfold mbind, io_bind, pass_file_exists.
    by rewrite (IH fuel' head w) by lia.
Qed.

Lemma os_makedirs_fuel_enough fuel name w :
  (String.length name ≤ fuel)%nat →
  os_makedirs_fuel fuel name w = os_makedirs name w.
Proof. intros Hfuel. by apply os_makedirs_fuel_any. Qed.

Section further.
Variable json_loads : string → result json.
Variable json_dumps : json → string.
Variable py_repr : json → string.
Variable set_iter : list json → list json.

(** X2. When the text of the assignment parses to an object whose entries
    are objects, [extract_bubble_data] returns the anchors of that object in
    their order, each with the payload found under the bubble view key, or
    [None] when the entry has none. An anchor that the results data lacks has
    no bubble data. An entry that is no object makes it raise
    [AttributeError]. *)
Theorem extract_bubble_data_entries handle section items :
  relevant_section (readlines handle) = Ok section →
  json_loads (section_text section) = Ok (JObj items) →
  NoDup (items.*1) →
  (forallb (λ p, is_obj p.2) items = false →
   extract_bubble_data json_loads handle = Raise AttributeError) ∧
  (forallb (λ p, is_obj p.2) items = true →
   ∃ bubble_data,
     extract_bubble_data json_loads handle = Ok bubble_data ∧
     bubble_data = (λ p, (p.1, bubble_view_of p.2)) <$> items ∧
     (∀ anchor data,
        (anchor, data) ∈ items →
        bubbles_of bubble_data anchor = bubble_view_of data) ∧
     (∀ anchor,
        anchor ∉ items.*1 → bubbles_of bubble_data anchor = JNull)).
Proof.
  intros Hsection Hload Hnodup.
  assert (extract_bubble_data json_loads handle
          = if forallb (λ p, is_obj p.2) items
            then Ok ((λ p, (p.1, bubble_view_of p.2)) <$> items)
            else Raise AttributeError) as Hrun.
  { unfold extract_bubble_data. rewrite Hsection. rsimpl.
    rewrite Hload. rsimpl. by rewrite bubble_loop_spec. }
  split; intros Hobj; rewrite Hobj in Hrun; [done|].
  eexists. split; [done|]. split; [done|]. split.
  - intros anchor data Hin. unfold bubbles_of.
    rewrite sget_fmap_snd, (sget_NoDup_elem anchor data) by done. done.
  - intros anchor Hin. unfold bubbles_of.
    rewrite sget_fmap_snd, sget_not_key by done. done.
Qed.

(** ** What [get_areas] raises *)

Ltac field_in :=
  unfold get_areas_fields;
  repeat first [apply list_elem_of_here | apply list_elem_of_further].

Ltac field_raises H :=
  apply py_getitem_raises in H as [->| ->];
  [by left|right; eexists; split; [|reflexivity]; field_in].

Lemma get_areas_inner_fields record r_index cs e :
  ∀ c_index areas,
    get_areas_inner record r_index c_index cs areas = Raise e →
    e = TypeError ∨ ∃ key, key ∈ get_areas_fields ∧ e = KeyError (JStr key).
Proof.
  induction cs as [|area cs IH]; intros c_index areas; [done|].
  cbn [get_areas_inner]. intros H.
  repeat (apply bind_Raise_inv in H as [H|(? & _ & H)]; [field_raises H|]).
  by eapply IH.
Qed.

Lemma get_areas_outer_fields rs e :
  ∀ r_index areas,
    get_areas_outer r_index rs areas = Raise e →
    e = TypeError ∨ ∃ key, key ∈ get_areas_fields ∧ e = KeyError (JStr key).
Proof.
  induction rs as [|record rs IH]; intros r_index areas; [done|].
  cbn [get_areas_outer]. intros H.
  apply bind_Raise_inv in H as [H|(? & _ & H)]; [field_raises H|].
  apply bind_Raise_inv in H as [H|(? & _ & H)];
    [apply py_iter_raises in H as ->; by left|].
  apply bind_Raise_inv in H as [H|(? & _ & H)];
    [by eapply get_areas_inner_fields|].
  by eapply IH.
Qed.

(** X3. Whatever the parsed document is, [get_areas] raises nothing but
    [AttributeError] (the document is no object), [TypeError], the
    [InputError] of the schema check, and [KeyError] for one of [records],
    [areas], [id], [start], [end] and [products]. *)
Theorem get_areas_raises handle full_results e :
  json_loads handle = Ok full_results →
  get_areas json_loads py_repr handle = Raise e →
  e = AttributeError ∨ e = TypeError ∨
  (∃ version, e = incompatible_schema version) ∨
  ∃ key, key ∈ get_areas_fields ∧ e = KeyError (JStr key).
Proof.
  intros Hload. unfold get_areas. rewrite Hload. rsimpl.
  destruct full_results as [| | | | |top];
    try (intros [= <-]; by left).
  cbn [get_areas_of]. intros H.
  apply bind_Raise_inv in H as [H|(lower & _ & H)].
  { right; left. destruct (default (JInt 0) (sget "schema" top));
      try done; by injection H as <-. }
  apply bind_Raise_inv in H as [H|(in_range & _ & H)].
  { right; left. destruct lower; [|done].
    destruct (default (JInt 0) (sget "schema" top));
      try done; by injection H as <-. }
  destruct in_range; cbn [negb] in H.
  - apply bind_Raise_inv in H as [H|(records & _ & H)].
    { apply py_getitem_raises in H as [->| ->]; [by right; left|].
      right; right; right. eexists. split; [|reflexivity]. field_in. }
    apply bind_Raise_inv in H as [H|(rs & _ & H)].
    { apply py_iter_raises in H as ->. auto. }
    apply get_areas_outer_fields in H as [->|?]; auto.
  - injection H as <-. right; right; left. by eexists.
Qed.

(** ** What the functions leave of the world *)

Variable glob_glob : string → world → list string.
Variable script_dir : string.
Variable traceback : exn → string.

Lemma quiet_bind {A B} (m : io A) (f : A → io B) :
  quiet m → (∀ a, quiet (f a)) → quiet (m ≫= f).
Proof.
  intros Hm Hf w. unfold mbind, io_bind. destruct (Hm w) as [Hd He].
  destruct (m w) as [[a|e] w1]; cbn [snd] in *; [|done].
  destruct (Hf a w1) as [Hd' He']. split; congruence.
Qed.

Lemma quiet_reads {A} (m : io A) : reads_only m → quiet m.
Proof. intros Hm w. by rewrite (Hm w). Qed.

Lemma quiet_lift {A} (r : result A) : quiet (lift r).
Proof. by intros w. Qed.

Lemma quiet_ret {A} (a : A) : quiet (mret a : io A).
Proof. by intros w. Qed.

Lemma quiet_get_world {B} (f : world → io B) :
  (∀ w, quiet (f w)) → quiet (get_world ≫= f).
Proof. intros Hf. apply quiet_bind; [by intros w|done]. Qed.

Lemma quiet_open_write p : quiet (open_write p).
Proof.
  intros w. unfold open_write. destruct (os_path_isdir p w); [done|].
  by destruct (_ && _).
Qed.

Lemma quiet_handle_write p text : quiet (handle_write p text).
Proof. by intros w. Qed.

Lemma quiet_shutil_copy src dst : quiet (shutil_copy src dst).
Proof.
  unfold shutil_copy. apply quiet_get_world. intros w.
  destruct (_ && _); [apply quiet_lift|].
  apply quiet_bind; [apply quiet_reads, reads_only_open_read|intros text].
  apply quiet_bind; [apply quiet_open_write|intros _].
  apply quiet_handle_write.
Qed.

Lemma quiet_copy_dependencies output_dir deps :
  quiet (copy_dependencies output_dir deps).
Proof.
  induction deps as [|dep deps IH]; [apply quiet_ret|].
  cbn [copy_dependencies].
  apply quiet_bind; [apply quiet_shutil_copy|by intros _].
Qed.

Lemma quiet_render_area index record area :
  quiet (render_area py_repr index record area).
Proof.
  unfold render_area. apply quiet_bind; [apply quiet_lift|intros name].
  destruct name; try apply quiet_lift.
  apply quiet_bind; [apply quiet_lift|intros start].
  destruct area; try apply quiet_lift. cbn zeta.
  repeat (apply quiet_bind;
          [first [apply quiet_lift | apply quiet_handle_write]|intros ?]).
  apply quiet_ret.
Qed.

Lemma quiet_render_areas index record areas :
  quiet (render_areas py_repr index record areas).
Proof.
  induction areas as [|area areas IH]; [apply quiet_ret|].
  cbn [render_areas].
  apply quiet_bind; [apply quiet_render_area|intros area'].
  apply quiet_bind; [done|intros rest']. apply quiet_ret.
Qed.

Lemma quiet_render_record index record :
  quiet (render_record py_repr index record).
Proof.
  unfold render_record.
  apply quiet_bind; [apply quiet_lift|intros record_areas].
  apply quiet_bind; [apply quiet_lift|intros areas].
  apply quiet_bind; [apply quiet_render_areas|intros areas'].
  destruct record, record_areas; apply quiet_ret.
Qed.

Lemma quiet_render_records index records :
  quiet (render_records py_repr index records).
Proof.
  induction records as [|record records IH]; [apply quiet_ret|].
  cbn [render_records].
  apply quiet_bind; [apply quiet_render_record|intros record'].
  apply quiet_bind; [done|intros rest']. apply quiet_ret.
Qed.

Lemma quiet_generate_page inputs output_dir :
  quiet (generate_page json_loads json_dumps py_repr set_iter glob_glob
           script_dir inputs output_dir).
Proof.
  unfold generate_page.
  apply quiet_bind.
  { apply quiet_reads. intros w. apply process_all_results_world. }
  intros all_results. cbn zeta.
  apply quiet_bind; [apply quiet_open_write|intros _].
  apply quiet_bind; [apply quiet_handle_write|intros _].
  apply quiet_bind; [apply quiet_render_records|intros all_results'].
  apply quiet_bind; [apply quiet_handle_write|intros _].
  apply quiet_bind; [apply quiet_open_write|intros _].
  do 3 (apply quiet_bind; [apply quiet_handle_write|intros _]).
  apply quiet_get_world. intros w. apply quiet_copy_dependencies.
Qed.

(** The exit code and the world after the [try] statement of [_main]. *)
Lemma report_errors_cases body w :
  quiet body →
  ∃ r w1, body w = (r, w1) ∧ dirs w1 = dirs w ∧ stderr w1 = stderr w ∧
    report_errors py_repr body w
    = match r with
      | Ok _ => (Ok 0, w1)
      | Raise e =>
          match reported py_repr e with
          | Some msg => (Ok 1, printed msg w1)
          | None => (Raise e, w1)
          end
      end.
Proof.
  intros Hbody. destruct (Hbody w) as [Hd He]. unfold report_errors.
  destruct (body w) as [r w1]. cbn [snd] in *.
  exists r, w1. split; [done|]. split; [done|]. split; [done|].
  destruct r as [[]|e]; [done|]. by destruct e.
Qed.

Lemma main_runs_generate_page input_dir output_dir w :
  os_path_isdir input_dir w = true →
  os_path_isdir output_dir w = true →
  _main json_loads json_dumps py_repr set_iter glob_glob script_dir
    input_dir output_dir w
  = report_errors py_repr
      (generate_page json_loads json_dumps py_repr set_iter glob_glob
         script_dir (glob_glob (os_path_join input_dir "*") w) output_dir) w.
Proof.
  intros Hin Hout. unfold _main. rewrite io_bind_get_world, Hin. cbn [negb].
  unfold os_path_exists. rewrite Hout. cbn [orb negb].
  rewrite (io_bind_Ok _ _ w () w) by done.
  by rewrite io_bind_get_world, Hout.
Qed.

Lemma generate_page_gather_failure inputs output_dir w e :
  (process_all_results json_loads py_repr set_iter glob_glob inputs w).1
  = Raise e →
  generate_page json_loads json_dumps py_repr set_iter glob_glob script_dir
    inputs output_dir w
  = (Raise e, w).
Proof.
  intros Hrun. unfold generate_page. apply io_bind_Raise.
  pose proof (process_all_results_world json_loads py_repr set_iter glob_glob
                inputs w) as Hw.
  destruct (process_all_results _ _ _ _ inputs w) as [r w1].
  cbn [fst snd] in *. by subst.
Qed.

Lemma main_gather_failure input_dir output_dir w e :
  os_path_isdir input_dir w = true →
  os_path_isdir output_dir w = true →
  (process_all_results json_loads py_repr set_iter glob_glob
     (glob_glob (os_path_join input_dir "*") w) w).1 = Raise e →
  _main json_loads json_dumps py_repr set_iter glob_glob script_dir
    input_dir output_dir w
  = match reported py_repr e with
    | Some msg => (Ok 1, printed msg w)
    | None => (Raise e, w)
    end.
Proof.
  intros Hin Hout Hrun. rewrite main_runs_generate_page by done.
  unfold report_errors.
  rewrite (generate_page_gather_failure _ output_dir w e Hrun).
  by destruct e.
Qed.

(** X4. [_main] returns 0 or 1 and nothing else. With 0 nothing has been
    printed on the error stream; with 1 exactly one line has been added to
    it. No directory is removed. *)
Theorem main_exit_codes input_dir output_dir w code w' :
  _main json_loads json_dumps py_repr set_iter glob_glob script_dir
    input_dir output_dir w = (Ok code, w') →
  dirs w ⊆ dirs w' ∧
  ((code = 0 ∧ stderr w' = stderr w) ∨
   (code = 1 ∧ ∃ msg, stderr w' = stderr w +:+ msg +:+ newline)).
Proof.
  unfold _main. rewrite io_bind_get_world.
  destruct (os_path_isdir input_dir w); cbn [negb].
  2:{ intros [= Hcode Hw]. subst code w'. split; [done|].
      right. split; [done|]. by eexists. }
  set (prepare := if negb (os_path_exists output_dir w)
                  then os_makedirs output_dir else mret ()).
  assert (dirs w ⊆ dirs (prepare w).2 ∧ stderr (prepare w).2 = stderr w)
    as [Hd1 He1].
  { unfold prepare. destruct (negb _); [|done].
    by destruct (os_makedirs_adds output_dir w) as (_ & He & Hd). }
  unfold mbind at 1, io_bind at 1.
  destruct (prepare w) as [[[]|e] w1]; [|done]. cbn [snd] in Hd1, He1.
  rewrite io_bind_get_world.
  destruct (os_path_isdir output_dir w1); cbn [negb].
  2:{ intros [= Hcode Hw]. subst code w'. split; [done|].
      right. split; [done|]. cbn [stderr]. rewrite He1. by eexists. }
  destruct (report_errors_cases
              (generate_page json_loads json_dumps py_repr set_iter glob_glob
                 script_dir (glob_glob (os_path_join input_dir "*") w1)
                 output_dir) w1 (quiet_generate_page _ _))
    as (r & w2 & _ & Hd2 & He2 & ->).
  destruct r as [[]|e].
  - intros [= Hcode Hw]. subst code w'. split; [by rewrite Hd2|].
    left. split; [done|congruence].
  - destruct (reported py_repr e) as [msg|]; [|done].
    intros [= Hcode Hw]. subst code w'. unfold printed. cbn [dirs stderr].
    split; [by rewrite Hd2|].
    right. split; [done|]. exists msg. congruence.
Qed.

(** X6. When gathering fails for any reason, [generate_page] has written
    nothing: the world is as before. [_main] then returns 1 with the message
    of the error as one line on the error stream if the error is an
    [InputError] or an [OSError], and lets every other error through. *)
Theorem gather_failure_writes_nothing input_dir output_dir w e :
  os_path_isdir input_dir w = true →
  os_path_isdir output_dir w = true →
  (process_all_results json_loads py_repr set_iter glob_glob
     (glob_glob (os_path_join input_dir "*") w) w).1 = Raise e →
  generate_page json_loads json_dumps py_repr set_iter glob_glob script_dir
    (glob_glob (os_path_join input_dir "*") w) output_dir w
  = (Raise e, w) ∧
  _main json_loads json_dumps py_repr set_iter glob_glob script_dir
    input_dir output_dir w
  = match reported py_repr e with
    | Some msg => (Ok 1, printed msg w)
    | None => (Raise e, w)
    end.
Proof.
  intros Hin Hout Hrun. split.
  - by apply generate_page_gather_failure.
  - by apply main_gather_failure.
Qed.

(** X7. An input directory in which [glob] finds nothing gives
    [process_all_results] no directory: its [ValueError] is not caught, so
    [_main] returns no exit code and prints nothing. *)
Theorem empty_input_not_reported input_dir output_dir w :
  os_path_isdir input_dir w = true →
  os_path_isdir output_dir w = true →
  glob_glob (os_path_join input_dir "*") w = [] →
  _main json_loads json_dumps py_repr set_iter glob_glob script_dir
    input_dir output_dir w
  = (Raise (ValueError "No result directories provided"), w).
Proof.
  intros Hin Hout Hglob.
  rewrite (main_gather_failure input_dir output_dir w
             (ValueError "No result directories provided")); try done.
  by rewrite Hglob.
Qed.

(** ** Several result directories *)

Lemma bind_ret {A} (m : result A) : m ≫= (λ a, Ok a) = m.
Proof. by destruct m. Qed.

Lemma gather_all_cons input_dir rest w :
  (gather_all json_loads py_repr set_iter glob_glob (input_dir :: rest) w).1
  = (gather_from_files json_loads py_repr set_iter glob_glob input_dir w).1
    ≫= λ records,
       (gather_all json_loads py_repr set_iter glob_glob rest w).1
       ≫= λ others, Ok (records ++ others).
Proof.
  cbn [gather_all]. unfold mbind at 1, io_bind at 1.
  pose proof (gather_from_files_reads json_loads py_repr set_iter glob_glob
                input_dir w) as Hw.
  destruct (gather_from_files _ _ _ _ input_dir w) as [[records|e] w1];
    cbn [fst snd] in *; [subst w1|done].
  rsimpl. unfold mbind at 1, io_bind at 1.
  by destruct (gather_all _ _ _ _ rest w) as [[others|e] w1].
Qed.

Lemma gather_all_app dirs1 dirs2 w :
  (gather_all json_loads py_repr set_iter glob_glob (dirs1 ++ dirs2) w).1
  = (gather_all json_loads py_repr set_iter glob_glob dirs1 w).1
    ≫= λ records,
       (gather_all json_loads py_repr set_iter glob_glob dirs2 w).1
       ≫= λ others, Ok (records ++ others).
Proof.
  induction dirs1 as [|input_dir dirs1 IH].
  { cbn [app gather_all]. change ((mret [] : io (list json)) w).1 with
      (Ok (@nil json)). rsimpl. by rewrite bind_ret. }
  rewrite <-app_comm_cons, !gather_all_cons, IH.
  destruct (gather_from_files _ _ _ _ input_dir w).1 as [first|e]; [|done].
  rsimpl.
  destruct (gather_all _ _ _ _ dirs1 w).1 as [records|e]; [|done]. rsimpl.
  destruct (gather_all _ _ _ _ dirs2 w).1 as [others|e]; [|done]. rsimpl.
  by rewrite app_assoc.
Qed.

Lemma process_all_results_gather_all input_dirs w :
  input_dirs ≠ [] →
  process_all_results json_loads py_repr set_iter glob_glob input_dirs w
  = gather_all json_loads py_repr set_iter glob_glob input_dirs w.
Proof. by destruct input_dirs. Qed.

(** X8. [process_all_results] handles the directories in the order given:
    for two lists of directories, neither empty, the records of the first
    list come before those of the second, and the first error in that order
    is the one raised. *)
Theorem process_all_results_app dirs1 dirs2 w :
  dirs1 ≠ [] → dirs2 ≠ [] →
  (process_all_results json_loads py_repr set_iter glob_glob
     (dirs1 ++ dirs2) w).1
  = (process_all_results json_loads py_repr set_iter glob_glob dirs1 w).1
    ≫= λ records,
       (process_all_results json_loads py_repr set_iter glob_glob dirs2 w).1
       ≫= λ others, Ok (records ++ others).
Proof.
  intros H1 H2. rewrite !process_all_results_gather_all; [|done|done|].
  - apply gather_all_app.
  - by destruct dirs1.
Qed.

Lemma process_all_results_failure before input_dir after w records e :
  (gather_all json_loads py_repr set_iter glob_glob before w).1 = Ok records →
  (gather_from_files json_loads py_repr set_iter glob_glob input_dir w).1
  = Raise e →
  (process_all_results json_loads py_repr set_iter glob_glob
     (before ++ input_dir :: after) w).1 = Raise e.
Proof.
  intros Hbefore Hdir.
  rewrite process_all_results_gather_all by by destruct before.
  by rewrite gather_all_app, Hbefore, bind_Ok, gather_all_cons, Hdir.
Qed.

(** ** Runs that end with exit code 1 *)

(** X9. A result directory without any [*.json] file, met after
    directories that were gathered without error, ends the run: [_main]
    returns 1, the error stream gets the line that names the directory, and
    no file is written. *)
Theorem no_results_file_reported
    input_dir output_dir w before result_dir after records :
  os_path_isdir input_dir w = true →
  os_path_isdir output_dir w = true →
  glob_glob (os_path_join input_dir "*") w = before ++ result_dir :: after →
  (gather_all json_loads py_repr set_iter glob_glob before w).1 = Ok records →
  glob_glob (os_path_join result_dir "*.json") w = [] →
  _main json_loads json_dumps py_repr set_iter glob_glob script_dir
    input_dir output_dir w
  = (Ok 1,
     printed ("No results file ('*.json') in result directory: "
              +:+ result_dir) w).
Proof.
  intros Hin Hout Hglob Hbefore Hjson.
  rewrite (main_gather_failure input_dir output_dir w
             (InputError ("No results file ('*.json') in result directory: "
                          +:+ result_dir))); [done|done|done|].
  rewrite Hglob. eapply process_all_results_failure; [done|].
  unfold gather_from_files. by rewrite io_bind_get_world, Hjson.
Qed.

(** X10. A result directory whose results file is read without error but
    which has no [regions.js] ends the run in the same way: [_main] returns
    1 and prints the message of the [OSError] for that path; no file is
    written. *)
Theorem missing_regions_file_reported
    input_dir output_dir w before result_dir after records
    results_file more handle :
  os_path_isdir input_dir w = true →
  os_path_isdir output_dir w = true →
  glob_glob (os_path_join input_dir "*") w = before ++ result_dir :: after →
  (gather_all json_loads py_repr set_iter glob_glob before w).1 = Ok records →
  glob_glob (os_path_join result_dir "*.json") w = results_file :: more →
  files w !! results_file = Some handle →
  is_ok (get_areas json_loads py_repr handle) = true →
  files w !! os_path_join result_dir "regions.js" = None →
  _main json_loads json_dumps py_repr set_iter glob_glob script_dir
    input_dir output_dir w
  = (Ok 1,
     printed
       (os_error_number
          (if os_path_isdir (os_path_join result_dir "regions.js") w
           then EISDIR else ENOENT)
        +:+ py_repr (JStr (os_path_join result_dir "regions.js"))) w).
Proof.
  intros Hin Hout Hglob Hbefore Hjson Hresults Hareas Hjs.
  rewrite (main_gather_failure input_dir output_dir w
             (OSError
                (if os_path_isdir (os_path_join result_dir "regions.js") w
                 then EISDIR else ENOENT)
                (os_path_join result_dir "regions.js"))); [done|done|done|].
  rewrite Hglob. eapply process_all_results_failure; [done|].
  unfold gather_from_files. rewrite io_bind_get_world, Hjson.
  rewrite (io_bind_Ok _ _ w handle w) by by apply open_read_file.
  rewrite io_bind_lift.
  destruct (get_areas json_loads py_repr handle) as [areas|]; [|done].
  erewrite io_bind_Raise; [done|].
  unfold open_read. by rewrite Hjs.
Qed.

(** X11. A results file whose schema is an integer other than 2 and 3 ends
    the run before anything is written: [_main] returns 1 and prints the
    message with that version, whether or not the directory has a
    [regions.js]. *)
Theorem incompatible_schema_reported
    input_dir output_dir w before result_dir after records
    results_file more handle top n :
  os_path_isdir input_dir w = true →
  os_path_isdir output_dir w = true →
  glob_glob (os_path_join input_dir "*") w = before ++ result_dir :: after →
  (gather_all json_loads py_repr set_iter glob_glob before w).1 = Ok records →
  glob_glob (os_path_join result_dir "*.json") w = results_file :: more →
  files w !! results_file = Some handle →
  json_loads handle = Ok (JObj top) →
  sget "schema" top = Some (JInt n) → ¬ (2 ≤ n ≤ 3) →
  _main json_loads json_dumps py_repr set_iter glob_glob script_dir
    input_dir output_dir w
  = (Ok 1,
     printed ("incompatible antiSMASH results file schema version: "
              +:+ pretty n) w).
Proof.
  intros Hin Hout Hglob Hbefore Hjson Hresults Hload Hschema Hn.
  rewrite (main_gather_failure input_dir output_dir w
             (incompatible_schema (pretty n))); [done|done|done|].
  rewrite Hglob. eapply process_all_results_failure; [done|].
  unfold gather_from_files. rewrite io_bind_get_world, Hjson.
  rewrite (io_bind_Ok _ _ w handle w) by by apply open_read_file.
  rewrite io_bind_lift. unfold get_areas. rewrite Hload. rsimpl.
  by rewrite (schema_rejected py_repr top n).
Qed.

(** X12. When the input path is no directory, or the output path exists
    and is no directory, [_main] returns 1 at once; in both cases the line
    it prints names the input path. Nothing else changes. *)
Theorem not_a_directory_reported input_dir output_dir w :
  os_path_isdir input_dir w = false ∨
  (os_path_exists output_dir w = true ∧ os_path_isdir output_dir w = false) →
  _main json_loads json_dumps py_repr set_iter glob_glob script_dir
    input_dir output_dir w
  = (Ok 1, printed ("Input is not a directory: " +:+ input_dir) w).
Proof.
  intros Hcase. unfold _main. rewrite io_bind_get_world.
  destruct (os_path_isdir input_dir w) eqn:Hin; cbn [negb]; [|done].
  destruct Hcase as [?|[Hexists Hout]]; [done|].
  rewrite Hexists. cbn [negb]. rewrite (io_bind_Ok _ _ w () w) by done.
  by rewrite io_bind_get_world, Hout.
Qed.
End further.

(** ** What gathering returns *)

Lemma entries_from_elem record r_index cs : ∀ c_index item,
  item ∈ entries_from record r_index c_index cs →
  ∃ j area, cs !! j = Some area ∧
            item = (anchor_of r_index (c_index + j), area_entry record area).
Proof.
  induction cs as [|area cs IH]; intros c_index item Hin;
    cbn [entries_from] in Hin.
  { by apply elem_of_nil in Hin. }
  apply elem_of_cons in Hin as [->|Hin].
  - exists 0%nat, area. split; [done|]. by rewrite Nat.add_0_r.
  - destruct (IH _ _ Hin) as (j & area' & Hj & ->).
    exists (S j), area'. split; [done|]. do 2 f_equal. lia.
Qed.

Lemma all_entries_from_elem rs : ∀ r_index item,
  item ∈ all_entries_from r_index rs →
  ∃ i j record area,
    rs !! i = Some record ∧ record_areas record !! j = Some area ∧
    item = (anchor_of (r_index + i) j, area_entry record area).
Proof.
  induction rs as [|record rs IH]; intros r_index item Hin;
    cbn [all_entries_from] in Hin.
  { by apply elem_of_nil in Hin. }
  apply elem_of_app in Hin as [Hin|Hin].
  - apply entries_from_elem in Hin as (j & area & Hj & ->).
    exists 0%nat, j, record, area. by rewrite Nat.add_0_r.
  - destruct (IH _ _ Hin) as (i & j & record' & area & Hi & Hj & ->).
    exists (S i), j, record', area. split; [done|]. split; [done|].
    do 2 f_equal. lia.
Qed.

Lemma kept_area_entry bubble_data anchor record area name x :
  kept_area bubble_data (anchor, area_entry record area) = Some (name, x) →
  name = field "id" record ∧
  ∃ k selected rest,
    bubbles_of bubble_data anchor = JObj ((k, selected) :: rest) ∧
    x = kept_fields area selected.
Proof.
  unfold kept_area, area_entry. cbn [fst snd].
  change (sget "name" _) with (Some (field "id" record)). cbv iota beta.
  destruct (bubbles_of bubble_data anchor) as [| | | | |[|[k selected] rest]];
    try done.
  intros [= <- <-]. split; [done|]. by exists k, selected, rest.
Qed.

Lemma collected_elem_inv bubble_data n items x :
  x ∈ collected bubble_data n items →
  ∃ item name, item ∈ items ∧ kept_area bubble_data item = Some (name, x) ∧
               key_eqb n name = true.
Proof.
  unfold collected. intros Hin.
  apply list_elem_of_omap in Hin as (item & Hitem & Hkept).
  destruct (kept_area bubble_data item) as [[name area]|] eqn:Hk; [|done].
  destruct (key_eqb n name) eqn:Hkey; [|done]. injection Hkept as ->.
  by exists item, name.
Qed.

Lemma expected_records_elem_inv bubble_data order items record :
  record ∈ expected_records bubble_data order items →
  ∃ n, n ∈ order ∧ collected bubble_data n items ≠ [] ∧
       record = aggregated n (collected bubble_data n items).
Proof.
  unfold expected_records. intros Hin.
  apply list_elem_of_omap in Hin as (n & Hn & Hrecord).
  exists n. split; [done|].
  destruct (collected bubble_data n items) as [|x xs]; [done|].
  by injection Hrecord as <-.
Qed.

Lemma expected_records_names bubble_data order items :
  field "name" <$> expected_records bubble_data order items
  = List.filter
      (λ n, match collected bubble_data n items with [] => false | _ => true end)
      order.
Proof.
  unfold expected_records.
  induction order as [|n order IH]; [done|].
  cbn [omap list_omap List.filter].
  destruct (collected bubble_data n items) as [|x xs]; [done|].
  rewrite fmap_cons. by f_equal.
Qed.

(** The records that the loop of [gather_from_files] leaves, for the areas
    of the records [rs] of a results file. *)
Lemma expected_records_origin bubble_data order rs out_record :
  out_record ∈ expected_records bubble_data order (all_entries_from 0 rs) →
  ∃ name xs,
    out_record = aggregated name xs ∧ xs ≠ [] ∧
    ∀ x, x ∈ xs →
      ∃ i j record area k selected rest,
        rs !! i = Some record ∧ record_areas record !! j = Some area ∧
        key_eqb name (field "id" record) = true ∧
        bubbles_of bubble_data (anchor_of i j) = JObj ((k, selected) :: rest) ∧
        x = kept_fields area selected.
Proof.
  intros Hin.
  apply expected_records_elem_inv in Hin as (n & _ & Hne & ->).
  exists n, (collected bubble_data n (all_entries_from 0 rs)).
  split; [done|]. split; [done|]. intros x Hx.
  apply collected_elem_inv in Hx as (item & name & Hitem & Hkept & Hkey).
  apply all_entries_from_elem in Hitem as (i & j & record & area & Hi & Hj & ->).
  apply kept_area_entry in Hkept as (-> & k & selected & rest & Hb & ->).
  by exists i, j, record, area, k, selected, rest.
Qed.

Lemma kept_fields_renderable area selected :
  area_renderable area = true →
  area_renderable (kept_fields area selected) = true.
Proof.
  destruct area as [| | | | |kv]; try done.
  unfold area_renderable, kept_fields, has_key. cbn [field].
  destruct (sget "start" kv) as [start|]; [|done].
  destruct (sget "end" kv) as [end_|]; [|done].
  destruct (sget "products" kv) as [products|]; [|done].
  cbn [andb default from_option id]. intros Hproducts.
  change (sget "start" _) with (Some start).
  change (sget "end" _) with (Some end_).
  by change (sget "products" _) with (Some products).
Qed.

Section gathered.
Variable json_loads : string → result json.
Variable py_repr : json → string.
Variable set_iter : list json → list json.
Hypothesis set_iter_valid : ∀ names,
  forallb hashable names = true →
  set_order_ok (set_iter names) names = true.

Lemma gathered_expected handle top n rs bubble_data :
  json_loads handle = Ok (JObj top) →
  sget "schema" top = Some (JInt n) → 2 ≤ n ≤ 3 →
  sget "records" top = Some (JArr rs) →
  forallb record_shape rs = true →
  forallb (λ record, hashable (field "id" record)) rs = true →
  bubble_data_ok bubble_data = true →
  let areas := all_entries_from 0 rs in
  let order := set_iter (item_names areas) in
  get_areas json_loads py_repr handle = Ok areas ∧
  gather_records set_iter areas bubble_data
  = Ok (expected_records bubble_data order areas) ∧
  distinct_keys order = true.
Proof.
  intros Hload Hs Hn Hrecords Hrs Hids Hbd areas order.
  pose proof (all_entries_item_ok rs 0%nat Hids) as Hitems.
  fold areas in Hitems.
  destruct (record_names_of_spec areas Hitems) as [_ Hhash].
  pose proof (set_iter_valid _ Hhash) as Hset.
  unfold set_order_ok in Hset. apply andb_true_iff in Hset as [Hd _].
  split; [|split; [|done]].
  - unfold get_areas. rewrite Hload. rsimpl. by eapply get_areas_of_spec.
  - apply gather_records_spec; [done|done|].
    apply forallb_forall. intros item _. by apply bubble_data_payload_ok.
Qed.

(** X13. What [gather_from_files] returns for a results file with the
    fields [get_areas] reads: no two records have the same name, no record
    is without areas, and every area of a record comes from an area of the
    results file whose record has that name and whose anchor has bubble
    data; it holds that area's [start], [end] and [products] and, as
    [bubbles], the first variant, and no other field. *)
Theorem gathered_records_origin handle top n rs bubble_data :
  json_loads handle = Ok (JObj top) →
  sget "schema" top = Some (JInt n) → 2 ≤ n ≤ 3 →
  sget "records" top = Some (JArr rs) →
  forallb record_shape rs = true →
  forallb (λ record, hashable (field "id" record)) rs = true →
  bubble_data_ok bubble_data = true →
  ∃ areas out,
    get_areas json_loads py_repr handle = Ok areas ∧
    gather_records set_iter areas bubble_data = Ok out ∧
    distinct_keys (field "name" <$> out) = true ∧
    ∀ out_record, out_record ∈ out →
      ∃ name xs,
        out_record = aggregated name xs ∧ xs ≠ [] ∧
        ∀ x, x ∈ xs →
          ∃ i j record area k selected rest,
            rs !! i = Some record ∧ record_areas record !! j = Some area ∧
            key_eqb name (field "id" record) = true ∧
            bubbles_of bubble_data (anchor_of i j)
            = JObj ((k, selected) :: rest) ∧
            x = kept_fields area selected.
Proof.
  intros Hload Hs Hn Hrecords Hrs Hids Hbd.
  destruct (gathered_expected handle top n rs bubble_data)
    as (Hareas & Hout & Hd); try done.
  eexists _, _. split; [done|]. split; [done|]. split.
  - rewrite expected_records_names. by apply distinct_keys_filter.
  - intros out_record. apply expected_records_origin.
Qed.

Lemma record_typed_shape record :
  record_typed record = true →
  record_shape record = true ∧ hashable (field "id" record) = true ∧
  (∃ s, field "id" record = JStr s) ∧
  forallb area_renderable (record_areas record) = true.
Proof.
  destruct record as [| | | | |kv]; try done.
  unfold record_typed, record_shape, record_areas, has_key. cbn [field].
  destruct (sget "id" kv) as [[| | |s| |]|]; try done.
  destruct (sget "areas" kv) as [[| | | |cs|]|]; try done.
  intros Hcs. split; [|by eauto]. cbn [andb].
  apply forallb_forall. intros area Harea.
  rewrite forallb_forall in Hcs. specialize (Hcs area Harea).
  destruct area as [| | | | |akv]; try done.
  unfold area_renderable in Hcs. unfold area_shape.
  apply andb_true_iff in Hcs as [-> Hproducts].
  unfold has_key. by destruct (sget "products" akv).
Qed.

(** X14. For a results file whose records have a string as [id] and areas
    with a [start], an [end] and [products] that can be joined, every
    record that [gather_from_files] returns can be rendered: its name is a
    string and each of its areas still has those fields. So the loop of
    [generate_page] does not fail on what gathering returned. *)
Theorem gathered_records_renderable handle top n rs bubble_data :
  json_loads handle = Ok (JObj top) →
  sget "schema" top = Some (JInt n) → 2 ≤ n ≤ 3 →
  sget "records" top = Some (JArr rs) →
  forallb record_typed rs = true →
  bubble_data_ok bubble_data = true →
  ∃ areas out,
    get_areas json_loads py_repr handle = Ok areas ∧
    gather_records set_iter areas bubble_data = Ok out ∧
    forallb record_renderable out = true.
Proof.
  intros Hload Hs Hn Hrecords Htyped Hbd.
  assert (∀ record, record ∈ rs → record_typed record = true) as Hrs.
  { intros record Hin. rewrite forallb_forall in Htyped.
    by apply Htyped, list_elem_of_In. }
  destruct (gathered_expected handle top n rs bubble_data)
    as (Hareas & Hout & _); try done.
  { apply forallb_forall. intros record Hin.
    by apply record_typed_shape, Hrs, list_elem_of_In. }
  { apply forallb_forall. intros record Hin.
    by apply record_typed_shape, Hrs, list_elem_of_In. }
  eexists _, _. split; [done|]. split; [done|].
  apply forallb_forall. intros out_record Hin.
  apply list_elem_of_In, expected_records_origin in Hin
    as (name & xs & -> & Hne & Hxs).
  destruct xs as [|x0 xs0] eqn:Exs; [done|]. rewrite <-Exs in *.
  assert (∃ s, name = JStr s) as [s ->].
  { destruct (Hxs x0) as (i & j & record & _ & _ & _ & _ & Hi & _ & Hkey & _).
    { rewrite Exs. apply list_elem_of_here. }
    apply list_elem_of_lookup_2, Hrs, record_typed_shape in Hi
      as (_ & _ & [s Hs'] & _).
    rewrite Hs' in Hkey. destruct name; try done.
    apply String.eqb_eq in Hkey as ->. by exists s. }
  unfold record_renderable, aggregated.
  change (sget "name" _) with (Some (JStr s)).
  change (sget "areas" [("name", JStr s); ("areas", JArr xs)])
    with (Some (JArr xs)).
  cbv iota beta. apply forallb_forall. intros x Hx.
  apply list_elem_of_In in Hx.
  destruct (Hxs x Hx) as (i & j & record & area & k & selected & rest
                          & Hi & Hj & _ & _ & ->).
  apply kept_fields_renderable.
  apply list_elem_of_lookup_2, Hrs, record_typed_shape in Hi as (_ & _ & _ & Hcs).
  rewrite forallb_forall in Hcs. apply Hcs, list_elem_of_In.
  by eapply list_elem_of_lookup_2.
Qed.
End gathered.

(** ** The page *)

Lemma index_is_not_data output_dir :
  os_path_join output_dir "index.html" ≠ os_path_join output_dir "data.js".
Proof.
  unfold os_path_join.
  change (startswith "index.html" "/") with false.
  change (startswith "data.js" "/") with false. cbv iota.
  destruct (_ || _); intros H; apply append_inv_head in H; try done.
Qed.

Section page.
Variable json_loads : string → result json.
Variable json_dumps : json → string.
Variable py_repr : json → string.
Variable set_iter : list json → list json.
Variable glob_glob : string → world → list string.
Variable script_dir : string.

Lemma render_area_content index rkv name area w old :
  sget "name" rkv = Some (JStr name) → area_renderable area = true →
  files w !! index = Some old →
  ∃ w', render_area py_repr index (JObj rkv) area w
        = (Ok (annotate_area py_repr name area), w')
        ∧ only_file index w w'
        ∧ files w' !! index = Some (old +:+ area_html py_repr name area).
Proof.
  intros Hname Harea Hold. destruct area as [| | | | |kv]; try done.
  unfold area_renderable, has_key in Harea.
  destruct (sget "start" kv) as [start|] eqn:Hstart; [|done].
  destruct (sget "end" kv) as [end_|] eqn:Hend; [|done].
  destruct (sget "products" kv) as [products|] eqn:Hproducts; [|done].
  destruct (py_iter products) as [items|] eqn:Hitems; [|done].
  destruct (strs_of items) as [strs|] eqn:Hstrs; [|done].
  unfold render_area, area_html. rewrite io_bind_lift. cbn [py_getitem].
  rewrite Hname. rewrite io_bind_lift. rewrite Hstart.
  cbn [annotate_area field]. rewrite Hstart, Hend, Hproducts.
  cbn [default from_option id]. rewrite Hitems. rsimpl. rewrite Hstrs.
  set (area_anchor := replace_char "." "-" name +:+ "-" +:+ py_str py_repr start).
  rewrite io_bind_lift. cbn [py_getitem].
  rewrite (sget_sset_ne "anchor" "start") by done. rewrite Hstart.
  rewrite io_bind_lift. cbn [py_getitem].
  rewrite (sget_sset_ne "anchor" "end") by done. rewrite Hend.
  rewrite io_bind_lift. cbn [py_getitem].
  rewrite (sget_sset_ne "anchor" "products") by done. rewrite Hproducts.
  rewrite io_bind_lift, Hitems. rewrite io_bind_lift, Hstrs.
  match goal with |- context [handle_write index ?text ≫= _] =>
    destruct (handle_write_only index text w) as (w1 & H1 & Ho1 & Hf1)
  end.
  rewrite (io_bind_Ok _ _ _ _ _ H1).
  match goal with |- context [handle_write index ?text ≫= _] =>
    destruct (handle_write_only index text w1) as (w2 & H2 & Ho2 & Hf2)
  end.
  rewrite (io_bind_Ok _ _ _ _ _ H2).
  exists w2. split; [done|]. split; [by eapply only_file_trans|].
  rewrite Hf2, Hf1, Hold. cbn [default from_option id py_str].
  by rewrite append_assoc.
Qed.

Lemma render_areas_content index rkv name areas : ∀ w old,
  sget "name" rkv = Some (JStr name) →
  forallb area_renderable areas = true →
  files w !! index = Some old →
  ∃ w', render_areas py_repr index (JObj rkv) areas w
        = (Ok (annotate_area py_repr name <$> areas), w')
        ∧ only_file index w w'
        ∧ files w' !! index
          = Some (old +:+ concat_text (area_html py_repr name <$> areas)).
Proof.
  induction areas as [|area areas IH]; intros w old Hname Hareas Hold.
  { exists w. split; [done|]. split; [apply only_file_refl|].
    cbn [fmap list_fmap concat_text foldr]. by rewrite append_nil_r. }
  cbn [forallb] in Hareas. apply andb_true_iff in Hareas as [Harea Hareas].
  destruct (render_area_content index rkv name area w old Hname Harea Hold)
    as (w1 & H1 & Ho1 & Hf1).
  destruct (IH w1 _ Hname Hareas Hf1) as (w2 & H2 & Ho2 & Hf2).
  cbn [render_areas]. rewrite (io_bind_Ok _ _ _ _ _ H1).
  rewrite (io_bind_Ok _ _ _ _ _ H2).
  exists w2. split; [done|]. split; [by eapply only_file_trans|].
  rewrite Hf2, fmap_cons. cbn [concat_text foldr]. by rewrite append_assoc.
Qed.

Lemma render_record_content index record w old :
  record_renderable record = true →
  files w !! index = Some old →
  ∃ w', render_record py_repr index record w
        = (Ok (annotate_record py_repr record), w')
        ∧ only_file index w w'
        ∧ files w' !! index = Some (old +:+ record_html py_repr record).
Proof.
  intros Hrecord Hold. destruct record as [| | | | |rkv]; try done.
  unfold record_renderable in Hrecord.
  unfold record_html, record_areas. cbn [annotate_record field].
  destruct (sget "name" rkv) as [[| | |name| |]|] eqn:Hname; try done.
  destruct (sget "areas" rkv) as [[| | | |areas|]|] eqn:Hareas; try done.
  destruct (render_areas_content index rkv name areas w old Hname Hrecord Hold)
    as (w1 & H1 & Ho1 & Hf1).
  unfold render_record. rewrite io_bind_lift. cbn [py_getitem].
  rewrite Hareas. rewrite io_bind_lift. cbn [py_iter].
  rewrite (io_bind_Ok _ _ _ _ _ H1). by exists w1.
Qed.

Lemma render_records_content index records : ∀ w old,
  forallb record_renderable records = true →
  files w !! index = Some old →
  ∃ w', render_records py_repr index records w
        = (Ok (annotate_record py_repr <$> records), w')
        ∧ only_file index w w'
        ∧ files w' !! index = Some (old +:+ page_body py_repr records).
Proof.
  unfold page_body.
  induction records as [|record records IH]; intros w old Hrecords Hold.
  { exists w. split; [done|]. split; [apply only_file_refl|].
    cbn [fmap list_fmap concat_text foldr]. by rewrite append_nil_r. }
  cbn [forallb] in Hrecords.
  apply andb_true_iff in Hrecords as [Hrecord Hrecords].
  destruct (render_record_content index record w old Hrecord Hold)
    as (w1 & H1 & Ho1 & Hf1).
  destruct (IH w1 _ Hrecords Hf1) as (w2 & H2 & Ho2 & Hf2).
  cbn [render_records]. rewrite (io_bind_Ok _ _ _ _ _ H1).
  rewrite (io_bind_Ok _ _ _ _ _ H2).
  exists w2. split; [done|]. split; [by eapply only_file_trans|].
  rewrite Hf2, fmap_cons. cbn [concat_text foldr]. by rewrite append_assoc.
Qed.

(** X15. When the aggregated records can be rendered and the two files
    can be opened, [generate_page] leaves in [index.html] the text of
    [HTML_TOP], then for every record in order and every area of it in
    order the two [div] elements of that area, then [HTML_BOTTOM]; what
    was in the file before is gone. Writing [data.js] and copying the
    dependencies do not change it, unless a dependency is copied onto it. *)
Theorem index_file_content inputs output_dir w all_results :
  (process_all_results json_loads py_repr set_iter glob_glob inputs w).1
  = Ok all_results →
  forallb record_renderable all_results = true →
  can_write (os_path_join output_dir "index.html") w = true →
  can_write (os_path_join output_dir "data.js") w = true →
  (∀ dep w' w'',
     dirs w' = dirs w →
     dep ∈ glob_glob
             (os_path_join (os_path_join script_dir "dependencies") "*") w'' →
     copy_destination dep
       (os_path_join output_dir (os_path_basename dep)) w'
     ≠ os_path_join output_dir "index.html") →
  ∃ r w',
    generate_page json_loads json_dumps py_repr set_iter glob_glob script_dir
      inputs output_dir w = (r, w') ∧
    files w' !! os_path_join output_dir "index.html"
    = Some (HTML_TOP +:+ page_body py_repr all_results +:+ HTML_BOTTOM).
Proof.
  intros Hresults Hrender Hindex Hdata Hdeps.
  pose proof (index_is_not_data output_dir) as Hne.
  set (index := os_path_join output_dir "index.html") in *.
  set (data := os_path_join output_dir "data.js") in *.
  pose proof (process_all_results_world json_loads py_repr set_iter glob_glob
                inputs w) as Hworld.
  destruct (process_all_results _ _ _ _ inputs w) as [r0 w0] eqn:Hrun.
  cbn [fst snd] in Hresults, Hworld. subst r0 w0.
  unfold generate_page. rewrite (io_bind_Ok _ _ _ _ _ Hrun). cbn zeta.
  fold index data.
  destruct (open_write_ok index w Hindex) as (w1 & H1 & Ho1 & Hf1).
  rewrite (io_bind_Ok _ _ _ _ _ H1).
  destruct (handle_write_only index HTML_TOP w1) as (w2 & H2 & Ho2 & Hf2).
  rewrite (io_bind_Ok _ _ _ _ _ H2). rewrite Hf1 in Hf2.
  cbn [default from_option id] in Hf2.
  change (EmptyString +:+ HTML_TOP) with HTML_TOP in Hf2.
  destruct (render_records_content index all_results w2 _ Hrender Hf2)
    as (w3 & H3 & Ho3 & Hf3).
  rewrite (io_bind_Ok _ _ _ _ _ H3).
  destruct (handle_write_only index HTML_BOTTOM w3) as (w4 & H4 & Ho4 & Hf4).
  rewrite (io_bind_Ok _ _ _ _ _ H4). rewrite Hf3 in Hf4.
  cbn [default from_option id] in Hf4. rewrite append_assoc in Hf4.
  assert (only_file index w w4) as Ho.
  { repeat (eapply only_file_trans; [|done]). done. }
  destruct Ho as (Hdirs & _ & _).
  rewrite <-(can_write_dirs data w w4 Hdirs) in Hdata.
  destruct (open_write_ok data w4 Hdata) as (w5 & H5 & Ho5 & _).
  rewrite (io_bind_Ok _ _ _ _ _ H5).
  destruct (handle_write_only data "var data = " w5) as (w6 & H6 & Ho6 & _).
  rewrite (io_bind_Ok _ _ _ _ _ H6).
  destruct (handle_write_only data
              (json_dumps (JArr (annotate_record py_repr <$> all_results)))
              w6) as (w7 & H7 & Ho7 & _).
  rewrite (io_bind_Ok _ _ _ _ _ H7).
  destruct (handle_write_only data ";" w7) as (w8 & H8 & Ho8 & _).
  rewrite (io_bind_Ok _ _ _ _ _ H8).
  rewrite io_bind_get_world.
  assert (only_file data w4 w8) as (Hdirs8 & _ & Hfiles8).
  { repeat (eapply only_file_trans; [|done]). done. }
  destruct (copy_dependencies_preserves output_dir index w
              (glob_glob
                 (os_path_join (os_path_join script_dir "dependencies") "*")
                 w8) w8) as (r & w9 & Hcopy & Hfile & _).
  { intros dep w' Hw' Hin. by eapply Hdeps. }
  { congruence. }
  exists r, w9. split; [done|].
  by rewrite Hfile, Hfiles8, Hf4.
Qed.

(** ** A run that succeeds *)

Lemma files_kept_refl w : files_kept w w.
Proof. by split; [|split]. Qed.

Lemma files_kept_trans w1 w2 w3 :
  files_kept w1 w2 → files_kept w2 w3 → files_kept w1 w3.
Proof.
  intros (Hd1 & Hs1 & Hf1) (Hd2 & Hs2 & Hf2).
  split; [congruence|]. split; [congruence|]. intros p Hp. by apply Hf2, Hf1.
Qed.

Lemma only_file_kept p w w' :
  only_file p w w' → is_Some (files w' !! p) → files_kept w w'.
Proof.
  intros (Hd & Hs & Hf) Hp. split; [done|]. split; [done|]. intros q Hq.
  destruct (decide (q = p)) as [->|Hne]; [done|]. by rewrite Hf.
Qed.

Lemma open_write_kept p w :
  can_write p w = true →
  ∃ w', open_write p w = (Ok (), w') ∧ files_kept w w' ∧
        files w' !! p = Some EmptyString.
Proof.
  intros Hp. destruct (open_write_ok p w Hp) as (w' & Hrun & Ho & Hf).
  exists w'. split; [done|]. split; [|done].
  eapply only_file_kept; [done|]. by rewrite Hf.
Qed.

Lemma handle_write_kept p text w :
  ∃ w', handle_write p text w = (Ok (), w') ∧ files_kept w w' ∧
        is_Some (files w' !! p).
Proof.
  destruct (handle_write_only p text w) as (w' & Hrun & Ho & Hf).
  exists w'. split; [done|].
  assert (is_Some (files w' !! p)) by by rewrite Hf.
  split; [by eapply only_file_kept|done].
Qed.

Lemma copy_destination_dirs src dst w w' :
  dirs w' = dirs w → copy_destination src dst w' = copy_destination src dst w.
Proof. intros Hd. unfold copy_destination, os_path_isdir. by rewrite Hd. Qed.



Lemma page_written inputs output_dir w all_results :
  (process_all_results json_loads py_repr set_iter glob_glob inputs w).1
  = Ok all_results →
  forallb record_renderable all_results = true →
  can_write (os_path_join output_dir "index.html") w = true →
  can_write (os_path_join output_dir "data.js") w = true →
  ∃ w',
    generate_page json_loads json_dumps py_repr set_iter glob_glob script_dir
      inputs output_dir w
    = copy_dependencies output_dir
        (glob_glob
           (os_path_join (os_path_join script_dir "dependencies") "*") w') w'
    ∧ files_kept w w'
    ∧ is_Some (files w' !! os_path_join output_dir "index.html")
    ∧ is_Some (files w' !! os_path_join output_dir "data.js").
Proof.
  intros Hresults Hrender Hindex Hdata.
  set (index := os_path_join output_dir "index.html") in *.
  set (data := os_path_join output_dir "data.js") in *.
  pose proof (process_all_results_world json_loads py_repr set_iter glob_glob
                inputs w) as Hworld.
  destruct (process_all_results _ _ _ _ inputs w) as [r0 w0] eqn:Hrun.
  cbn [fst snd] in Hresults, Hworld. subst r0 w0.
  unfold generate_page. rewrite (io_bind_Ok _ _ _ _ _ Hrun). cbn zeta.
  fold index data.
  destruct (open_write_kept index w Hindex) as (w1 & H1 & Hk1 & Hf1).
  rewrite (io_bind_Ok _ _ _ _ _ H1).
  destruct (handle_write_only index HTML_TOP w1) as (w2 & H2 & Ho2 & Hf2).
  rewrite (io_bind_Ok _ _ _ _ _ H2).
  destruct (render_records_content index all_results w2 _ Hrender Hf2)
    as (w3 & H3 & Ho3 & Hf3).
  rewrite (io_bind_Ok _ _ _ _ _ H3).
  destruct (handle_write_kept index HTML_BOTTOM w3) as (w4 & H4 & Hk4 & Hf4).
  rewrite (io_bind_Ok _ _ _ _ _ H4).
  assert (files_kept w w4) as Hk.
  { eapply files_kept_trans; [done|]. eapply files_kept_trans; [|done].
    eapply only_file_kept; [by eapply only_file_trans|by rewrite Hf3]. }
  pose proof Hk as (Hdirs & _ & _).
  rewrite <-(can_write_dirs data w w4 Hdirs) in Hdata.
  destruct (open_write_kept data w4 Hdata) as (w5 & H5 & Hk5 & _).
  rewrite (io_bind_Ok _ _ _ _ _ H5).
  destruct (handle_write_kept data "var data = " w5) as (w6 & H6 & Hk6 & _).
  rewrite (io_bind_Ok _ _ _ _ _ H6).
  destruct (handle_write_kept data
              (json_dumps (JArr (annotate_record py_repr <$> all_results)))
              w6) as (w7 & H7 & Hk7 & _).
  rewrite (io_bind_Ok _ _ _ _ _ H7).
  destruct (handle_write_kept data ";" w7) as (w8 & H8 & Hk8 & Hf8).
  rewrite (io_bind_Ok _ _ _ _ _ H8).
  rewrite io_bind_get_world.
  assert (files_kept w4 w8) as Hk48.
  { eapply files_kept_trans; [exact Hk5|].
    eapply files_kept_trans; [exact Hk6|].
    eapply files_kept_trans; [exact Hk7|exact Hk8]. }
  exists w8. split; [done|]. split; [by eapply files_kept_trans|].
  split; [|done]. by apply Hk48.
Qed.


(** ** What a run that returned 0 has done *)

Lemma io_bind_Ok_inv {A B} (m : io A) (f : A → io B) w b w' :
  (m ≫= f) w = (Ok b, w') →
  ∃ a w1, m w = (Ok a, w1) ∧ f a w1 = (Ok b, w').
Proof.
  unfold mbind, io_bind. destruct (m w) as [[a|e] w1]; [|done].
  intros Hf. by exists a, w1.
Qed.

Lemma keeps_files_bind {A B} (m : io A) (f : A → io B) :
  keeps_files m → (∀ a, keeps_files (f a)) → keeps_files (m ≫= f).
Proof.
  intros Hm Hf w. unfold mbind, io_bind. specialize (Hm w).
  destruct (m w) as [[a|e] w1]; cbn [snd] in *; [|done].
  eapply files_kept_trans; [done|apply Hf].
Qed.

Lemma keeps_files_reads {A} (m : io A) : reads_only m → keeps_files m.
Proof. intros Hm w. rewrite (Hm w). apply files_kept_refl. Qed.

Lemma keeps_files_lift {A} (r : result A) : keeps_files (lift r).
Proof. intros w. apply files_kept_refl. Qed.

Lemma keeps_files_ret {A} (a : A) : keeps_files (mret a : io A).
Proof. intros w. apply files_kept_refl. Qed.

Lemma files_kept_insert p text w :
  files_kept w (World (<[p := text]> (files w)) (dirs w) (stderr w)).
Proof.
  split; [done|]. split; [done|]. intros q Hq. cbn [files].
  destruct (decide (q = p)) as [->|Hne].
  - by rewrite lookup_insert_eq.
  - by rewrite lookup_insert_ne.
Qed.

Lemma keeps_files_open_write p : keeps_files (open_write p).
Proof.
  intros w. unfold open_write.
  destruct (os_path_isdir p w); [apply files_kept_refl|].
  destruct (_ && _); [apply files_kept_refl|]. apply files_kept_insert.
Qed.

Lemma keeps_files_handle_write p text : keeps_files (handle_write p text).
Proof. intros w. apply files_kept_insert. Qed.

Lemma keeps_files_shutil_copy src dst : keeps_files (shutil_copy src dst).
Proof.
  unfold shutil_copy.
  apply keeps_files_bind; [by apply keeps_files_reads|intros w].
  destruct (_ && _); [apply keeps_files_lift|].
  apply keeps_files_bind;
    [apply keeps_files_reads, reads_only_open_read|intros text].
  apply keeps_files_bind; [apply keeps_files_open_write|intros _].
  apply keeps_files_handle_write.
Qed.

Lemma keeps_files_copy_dependencies output_dir deps :
  keeps_files (copy_dependencies output_dir deps).
Proof.
  induction deps as [|dep deps IH]; [apply keeps_files_ret|].
  cbn [copy_dependencies].
  apply keeps_files_bind; [apply keeps_files_shutil_copy|by intros _].
Qed.

Lemma keeps_files_render_area index record area :
  keeps_files (render_area py_repr index record area).
Proof.
  unfold render_area.
  apply keeps_files_bind; [apply keeps_files_lift|intros name].
  destruct name; try apply keeps_files_lift.
  apply keeps_files_bind; [apply keeps_files_lift|intros start].
  destruct area; try apply keeps_files_lift. cbn zeta.
  repeat (apply keeps_files_bind;
          [first [apply keeps_files_lift
                 |apply keeps_files_handle_write]|intros ?]).
  apply keeps_files_ret.
Qed.

Lemma keeps_files_render_areas index record areas :
  keeps_files (render_areas py_repr index record areas).
Proof.
  induction areas as [|area areas IH]; [apply keeps_files_ret|].
  cbn [render_areas].
  apply keeps_files_bind; [apply keeps_files_render_area|intros area'].
  apply keeps_files_bind; [done|intros rest']. apply keeps_files_ret.
Qed.

Lemma keeps_files_render_record index record :
  keeps_files (render_record py_repr index record).
Proof.
  unfold render_record.
  apply keeps_files_bind; [apply keeps_files_lift|intros record_areas].
  apply keeps_files_bind; [apply keeps_files_lift|intros areas].
  apply keeps_files_bind; [apply keeps_files_render_areas|intros areas'].
  destruct record, record_areas; apply keeps_files_ret.
Qed.

Lemma keeps_files_render_records index records :
  keeps_files (render_records py_repr index records).
Proof.
  induction records as [|record records IH]; [apply keeps_files_ret|].
  cbn [render_records].
  apply keeps_files_bind; [apply keeps_files_render_record|intros record'].
  apply keeps_files_bind; [done|intros rest']. apply keeps_files_ret.
Qed.

Lemma open_write_Ok p w w' :
  open_write p w = (Ok (), w') → files w' !! p = Some EmptyString.
Proof.
  unfold open_write. destruct (os_path_isdir p w); [done|].
  destruct (_ && _); [done|]. intros [= <-]. cbn [files].
  by rewrite lookup_insert_eq.
Qed.

(** What [generate_page] has done when it returns: gathering raised
    nothing, both files were opened, and nothing that was a file has
    stopped being one. *)
Lemma generate_page_returned inputs output_dir w w' :
  generate_page json_loads json_dumps py_repr set_iter glob_glob script_dir
    inputs output_dir w = (Ok (), w') →
  is_ok (process_all_results json_loads py_repr set_iter glob_glob inputs w).1
  = true ∧
  files_kept w w' ∧
  is_Some (files w' !! os_path_join output_dir "index.html") ∧
  is_Some (files w' !! os_path_join output_dir "data.js").
Proof.
  unfold generate_page. intros Hrun.
  set (index := os_path_join output_dir "index.html") in *.
  set (data := os_path_join output_dir "data.js") in *.
  apply io_bind_Ok_inv in Hrun as (all_results & w0 & Hgather & Hrun).
  pose proof (process_all_results_world json_loads py_repr set_iter glob_glob
                inputs w) as Hw0.
  rewrite Hgather in Hw0. cbn [snd] in Hw0. subst w0.
  apply io_bind_Ok_inv in Hrun as ([] & w1 & Hindex & Hrun).
  pose proof (keeps_files_open_write index w) as Hk1.
  rewrite Hindex in Hk1. cbn [snd] in Hk1.
  apply open_write_Ok in Hindex.
  apply io_bind_Ok_inv in Hrun as ([] & w2 & Htop & Hrun).
  pose proof (keeps_files_handle_write index HTML_TOP w1) as Hk2.
  rewrite Htop in Hk2. cbn [snd] in Hk2.
  apply io_bind_Ok_inv in Hrun as (rendered & w3 & Hrender & Hrun).
  pose proof (keeps_files_render_records index all_results w2) as Hk3.
  rewrite Hrender in Hk3. cbn [snd] in Hk3.
  apply io_bind_Ok_inv in Hrun as ([] & w4 & Hbottom & Hrun).
  pose proof (keeps_files_handle_write index HTML_BOTTOM w3) as Hk4.
  rewrite Hbottom in Hk4. cbn [snd] in Hk4.
  apply io_bind_Ok_inv in Hrun as ([] & w5 & Hdata & Hrun).
  pose proof (keeps_files_open_write data w4) as Hk5.
  rewrite Hdata in Hk5. cbn [snd] in Hk5.
  apply open_write_Ok in Hdata.
  assert (keeps_files
            (handle_write data "var data = " ≫= λ _,
             handle_write data (json_dumps (JArr rendered)) ≫= λ _,
             handle_write data ";" ≫= λ _,
             get_world ≫= λ w,
             copy_dependencies output_dir
               (glob_glob
                  (os_path_join (os_path_join script_dir "dependencies") "*")
                  w))) as Hrest.
  { repeat (apply keeps_files_bind;
            [apply keeps_files_handle_write|intros _]).
    apply keeps_files_bind; [by apply keeps_files_reads|intros w6].
    apply keeps_files_copy_dependencies. }
  specialize (Hrest w5). rewrite Hrun in Hrest. cbn [snd] in Hrest.
  assert (files_kept w1 w5) as Hk15.
  { eapply files_kept_trans; [exact Hk2|].
    eapply files_kept_trans; [exact Hk3|].
    eapply files_kept_trans; [exact Hk4|exact Hk5]. }
  split; [by rewrite Hgather|]. split.
  { eapply files_kept_trans; [exact Hk1|].
    eapply files_kept_trans; [exact Hk15|exact Hrest]. }
  split.
  - apply Hrest, Hk15. by rewrite Hindex.
  - apply Hrest. by rewrite Hdata.
Qed.

(** X5. What a run that returned 0 has done. When [_main] returns 0, the
    input path is a directory, gathering raised nothing, the output path
    is a directory, [index.html] and [data.js] exist in it as files, and
    every file that existed before still exists. *)
Theorem main_returned_zero input_dir output_dir w w' :
  _main json_loads json_dumps py_repr set_iter glob_glob script_dir
    input_dir output_dir w = (Ok 0, w') →
  os_path_isdir input_dir w = true ∧
  os_path_isdir output_dir w' = true ∧
  is_Some (files w' !! os_path_join output_dir "index.html") ∧
  is_Some (files w' !! os_path_join output_dir "data.js") ∧
  ∀ p, is_Some (files w !! p) → is_Some (files w' !! p).
Proof.
  unfold _main. rewrite io_bind_get_world.
  destruct (os_path_isdir input_dir w); cbn [negb]; [|done].
  intros Hrun.
  apply io_bind_Ok_inv in Hrun as ([] & w1 & Hprepare & Hrun).
  assert (files w1 = files w) as Hfiles1.
  { destruct (negb (os_path_exists output_dir w)).
    - destruct (os_makedirs_adds output_dir w) as (Hf & _ & _).
      by rewrite Hprepare in Hf.
    - by injection Hprepare as <-. }
  rewrite io_bind_get_world in Hrun.
  destruct (os_path_isdir output_dir w1) eqn:Hout; cbn [negb] in Hrun;
    [|done].
  unfold report_errors in Hrun.
  destruct (generate_page _ _ _ _ _ _ _ output_dir w1) as [[[]|e] w2]
    eqn:Hpage.
  2:{ by destruct e. }
  injection Hrun as <-.
  apply generate_page_returned in Hpage
    as (_ & (Hdirs & _ & Hkept) & Hindex & Hdata).
  split; [done|]. split.
  { unfold os_path_isdir in *. by rewrite Hdirs. }
  split; [done|]. split; [done|].
  intros p Hp. apply Hkept. by rewrite Hfiles1.
Qed.

(** ** Errors of making the output directory and of copying *)

(** X18. [os.makedirs] is called outside the [try] of [_main]. When the
    output path does not exist and what is to hold its last component is
    there and is no directory, the [NotADirectoryError] of that call leaves
    [_main]: no exit code is returned, nothing is printed, no directory is
    made and nothing is gathered. *)
Theorem output_below_file_raises input_dir output_dir w head tail :
  os_path_isdir input_dir w = true →
  os_path_exists output_dir w = false →
  split_leaf output_dir = (head, tail) →
  head ≠ EmptyString →
  os_path_exists head w = true →
  os_path_isdir head w = false →
  _main json_loads json_dumps py_repr set_iter glob_glob script_dir
    input_dir output_dir w
  = (Raise (OSError ENOTDIR output_dir), w).
Proof.
  intros Hin Hout Hsplit Hhead Hexists Hfile.
  assert (os_mkdir output_dir w = (Raise (OSError ENOTDIR output_dir), w))
    as Hmkdir.
  { unfold os_mkdir. rewrite Hout, Hsplit. cbn [fst].
    apply String.eqb_neq in Hhead. by rewrite Hhead, Hfile, Hexists. }
  assert (os_makedirs output_dir w = (Raise (OSError ENOTDIR output_dir), w))
    as Hmakedirs.
  { unfold os_makedirs.
    destruct (String.length output_dir); cbn [os_makedirs_fuel];
      rewrite Hsplit, io_bind_get_world, Hexists;
      cbn [negb]; by rewrite andb_false_r. }
  unfold _main. rewrite io_bind_get_world, Hin, Hout. cbn [negb].
  by apply io_bind_Raise.
Qed.

(** X19. [shutil.copy] refuses to copy a file onto itself. When the first
    dependency is copied to its own path, as happens when the output
    directory is the directory of the dependencies, [_main] returns 1 and
    prints the text of the [SameFileError]; [index.html] and [data.js] have
    been written by then and stay. *)
Theorem same_file_reported input_dir output_dir w all_results dep others :
  os_path_isdir input_dir w = true →
  os_path_isdir output_dir w = true →
  (process_all_results json_loads py_repr set_iter glob_glob
     (glob_glob (os_path_join input_dir "*") w) w).1 = Ok all_results →
  forallb record_renderable all_results = true →
  can_write (os_path_join output_dir "index.html") w = true →
  can_write (os_path_join output_dir "data.js") w = true →
  (∀ w'',
     files_kept w w'' →
     glob_glob (os_path_join (os_path_join script_dir "dependencies") "*") w''
     = dep :: others) →
  is_Some (files w !! dep) →
  copy_destination dep (os_path_join output_dir (os_path_basename dep)) w
  = dep →
  ∃ w',
    _main json_loads json_dumps py_repr set_iter glob_glob script_dir
      input_dir output_dir w
    = (Ok 1, printed (same_file_message py_repr dep dep) w') ∧
    files_kept w w' ∧
    is_Some (files w' !! os_path_join output_dir "index.html") ∧
    is_Some (files w' !! os_path_join output_dir "data.js").
Proof.
  intros Hin Hout Hresults Hrender Hindex Hdata Hglob Hdep Hsame.
  destruct (page_written _ output_dir w all_results Hresults Hrender
              Hindex Hdata) as (w1 & Hpage & Hk1 & Hi1 & Hd1).
  pose proof Hk1 as (Hdirs1 & _ & Hfiles1).
  rewrite (Hglob w1 Hk1) in Hpage.
  assert (shutil_copy dep (os_path_join output_dir (os_path_basename dep)) w1
          = (Raise (SameFileError dep dep), w1)) as Hcopy.
  { unfold shutil_copy. rewrite io_bind_get_world.
    rewrite (copy_destination_dirs _ _ w w1) by done. rewrite Hsame.
    rewrite String.eqb_refl. unfold os_path_exists.
    rewrite (bool_decide_eq_true_2 (is_Some (files w1 !! dep)))
      by by apply Hfiles1.
    by rewrite orb_true_r. }
  exists w1. split; [|done].
  rewrite (main_runs_generate_page json_loads json_dumps py_repr set_iter
             glob_glob script_dir) by done.
  unfold report_errors. rewrite Hpage. cbn [copy_dependencies].
  by rewrite (io_bind_Raise _ _ _ _ _ Hcopy).
Qed.
End page.

(** * The further properties on the example inputs *)

Lemma relevant_section_cut_witness :
  relevant_section
    ["// regions"; "var resultsData = {"; "};"; "var other = 1;"; "};"]
  = Ok ["{"; "};"] ∧
  relevant_section ["// regions"; "var resultsData ={"; "};"] = Ok [].
Proof.
  split.
  - exact (proj1 (relevant_section_cut ["// regions"] "var resultsData = {"
                    ["};"] ["var other = 1;"; "};"]
                    eq_refl eq_refl eq_refl eq_refl)).
  - exact (proj1 (relevant_section_cut ["// regions"] "var resultsData ={"
                    ["};"] [] eq_refl eq_refl eq_refl I)).
Defined.

Lemma extract_bubble_data_entries_witness :
  extract_bubble_data loads regions_js = Ok bubble_data ∧
  bubbles_of bubble_data "r1c2" = JNull ∧
  bubbles_of bubble_data "r3c1" = JNull.
Proof.
  destruct (extract_bubble_data_entries loads regions_js Runs.section
              Runs.items eq_refl eq_refl) as [_ Hobjects].
  { apply (bool_decide_unpack (NoDup (Runs.items.*1))).
    vm_compute. reflexivity. }
  destruct (Hobjects eq_refl) as (data & Hrun & Hdata & Hpresent & Habsent).
  subst data. split; [exact Hrun|]. split.
  - exact (Hpresent "r1c2" (JObj [("other", JInt 1)])
             ltac:(apply list_elem_of_further, list_elem_of_here)).
  - apply Habsent. apply (bool_decide_unpack ("r3c1" ∉ Runs.items.*1)).
    vm_compute. reflexivity.
Defined.

Lemma get_areas_raises_witness :
  get_areas Runs.loads repr "NORECORDS" = Raise (KeyError (JStr "records")) ∧
  (KeyError (JStr "records") = AttributeError ∨
   KeyError (JStr "records") = TypeError ∨
   (∃ version, KeyError (JStr "records") = incompatible_schema version) ∨
   ∃ key, key ∈ get_areas_fields ∧
          KeyError (JStr "records") = KeyError (JStr key)).
Proof.
  split; [reflexivity|].
  exact (get_areas_raises Runs.loads repr "NORECORDS"
           (JObj [("schema", JInt 3)]) (KeyError (JStr "records"))
           eq_refl eq_refl).
Defined.

Lemma main_exit_codes_witness :
  (_main loads dumps repr first_seen glob "/opt/gather" "in" "out" world0).1
  = Ok 0 ∧
  stderr
    (_main loads dumps repr first_seen glob "/opt/gather" "in" "out" world0).2
  = EmptyString.
Proof.
  split; [vm_compute; reflexivity|].
  destruct (main_exit_codes loads dumps repr first_seen glob "/opt/gather"
              "in" "out" world0 0
              (_main loads dumps repr first_seen glob "/opt/gather"
                 "in" "out" world0).2)
    as [_ [[_ Hquiet]|[Hcode _]]].
  - vm_compute. reflexivity.
  - exact Hquiet.
  - discriminate Hcode.
Defined.

Lemma gather_failure_writes_nothing_witness :
  generate_page loads dumps repr first_seen glob "/opt/gather"
    ["bad/run1"] "out" world0
  = (Raise missing, world0).
Proof.
  destruct (gather_failure_writes_nothing loads dumps repr first_seen glob
              "/opt/gather" "bad" "out" world0 missing) as [Hpage _];
    [vm_compute; reflexivity..|].
  exact Hpage.
Defined.

Lemma empty_input_not_reported_witness :
  _main loads dumps repr first_seen glob "/opt/gather" "in/run1" "out" world0
  = (Raise (ValueError "No result directories provided"), world0).
Proof.
  apply empty_input_not_reported; vm_compute; reflexivity.
Defined.

Lemma process_all_results_app_witness :
  (process_all_results loads repr first_seen glob
     ["in/run1"; "bad/run1"; "in/run1"] world0).1
  = Raise missing ∧
  (process_all_results loads repr first_seen glob
     ["in/run1"; "in/run1"] world0).1
  = Ok (all_results ++ all_results).
Proof.
  split.
  - refine (eq_trans
              (process_all_results_app loads repr first_seen glob
                 ["in/run1"] ["bad/run1"; "in/run1"] world0
                 ltac:(discriminate) ltac:(discriminate)) _).
    vm_compute. reflexivity.
  - refine (eq_trans
              (process_all_results_app loads repr first_seen glob
                 ["in/run1"] ["in/run1"] world0
                 ltac:(discriminate) ltac:(discriminate)) _).
    vm_compute. reflexivity.
Defined.

Lemma no_results_file_reported_witness :
  _main loads dumps repr first_seen Runs.glob "/opt/gather" "nojson" "out"
    Runs.world1
  = (Ok 1,
     printed "No results file ('*.json') in result directory: nojson/run2"
       Runs.world1).
Proof.
  apply (no_results_file_reported loads dumps repr first_seen Runs.glob
           "/opt/gather" "nojson" "out" Runs.world1
           ["nojson/run1"] "nojson/run2" [] all_results);
    vm_compute; reflexivity.
Defined.

Lemma missing_regions_file_reported_witness :
  _main loads dumps repr first_seen Runs.glob "/opt/gather" "nojs" "out"
    Runs.world1
  = (Ok 1,
     printed
       "[Errno 2] No such file or directory: 'nojs/run2/regions.js'"
       Runs.world1).
Proof.
  apply (missing_regions_file_reported loads dumps repr first_seen Runs.glob
           "/opt/gather" "nojs" "out" Runs.world1
           ["nojs/run1"] "nojs/run2" [] all_results
           "nojs/run2/results.json" [] "RESULTS");
    vm_compute; reflexivity.
Defined.

Lemma incompatible_schema_reported_witness :
  _main loads dumps repr first_seen Runs.glob "/opt/gather" "old" "out"
    Runs.world1
  = (Ok 1,
     printed "incompatible antiSMASH results file schema version: 5"
       Runs.world1).
Proof.
  apply (incompatible_schema_reported loads dumps repr first_seen Runs.glob
           "/opt/gather" "old" "out" Runs.world1
           ["old/run1"] "old/run2" [] all_results
           "old/run2/results.json" [] "OLD" top_old 5);
    try (vm_compute; reflexivity).
  lia.
Defined.

Lemma not_a_directory_reported_witness :
  _main loads dumps repr first_seen Runs.glob "/opt/gather" "old" "notes.txt"
    Runs.world1
  = (Ok 1, printed "Input is not a directory: old" Runs.world1) ∧
  _main loads dumps repr first_seen Runs.glob "/opt/gather" "notes.txt" "out"
    Runs.world1
  = (Ok 1, printed "Input is not a directory: notes.txt" Runs.world1).
Proof.
  split.
  - apply (not_a_directory_reported loads dumps repr first_seen Runs.glob
             "/opt/gather" "old" "notes.txt" Runs.world1).
    right. split; vm_compute; reflexivity.
  - apply (not_a_directory_reported loads dumps repr first_seen Runs.glob
             "/opt/gather" "notes.txt" "out" Runs.world1).
    left. vm_compute. reflexivity.
Defined.

Lemma gathered_records_origin_witness :
  ∃ out,
    gather_records first_seen areas bubble_data = Ok out ∧
    distinct_keys (field "name" <$> out) = true ∧
    ∀ out_record, out_record ∈ out →
      ∃ name xs, out_record = aggregated name xs ∧ xs ≠ [].
Proof.
  destruct (gathered_records_origin loads repr first_seen first_seen_valid
              "RESULTS" top 3 records bubble_data
              eq_refl eq_refl ltac:(lia) eq_refl eq_refl eq_refl eq_refl)
    as (areas' & out & Hareas & Hrun & Hnames & Hout).
  injection Hareas as <-.
  exists out. split; [exact Hrun|]. split; [exact Hnames|].
  intros out_record Hin.
  destruct (Hout out_record Hin) as (name & xs & Hrecord & Hne & _).
  exists name, xs. split; [exact Hrecord|exact Hne].
Defined.

Lemma gathered_records_renderable_witness :
  ∃ out,
    gather_records first_seen areas bubble_data = Ok out ∧
    forallb record_renderable out = true.
Proof.
  destruct (gathered_records_renderable loads repr first_seen first_seen_valid
              "RESULTS" top 3 records bubble_data
              eq_refl eq_refl ltac:(lia) eq_refl eq_refl eq_refl)
    as (areas' & out & Hareas & Hrun & Hrender).
  injection Hareas as <-.
  exists out. split; [exact Hrun|exact Hrender].
Defined.

Lemma index_file_content_witness :
  page_body repr all_results = Runs.body ∧
  ∃ r w',
    generate_page loads dumps repr first_seen glob "/opt/gather"
      ["in/run1"] "out" world0 = (r, w') ∧
    files w' !! "out/index.html"
    = Some (HTML_TOP +:+ Runs.body +:+ HTML_BOTTOM).
Proof.
  split; [vm_compute; reflexivity|].
  destruct (index_file_content loads dumps repr first_seen glob "/opt/gather"
              ["in/run1"] "out" world0 all_results)
    as (r & w' & Hrun & Hindex);
    [vm_compute; reflexivity| vm_compute; reflexivity
    |vm_compute; reflexivity| vm_compute; reflexivity| |].
  - intros dep w1 w2 Hdirs Hin.
    change (dep ∈ ["/opt/gather/dependencies/style.css"]) in Hin.
    apply list_elem_of_singleton in Hin as ->.
    unfold copy_destination, os_path_isdir. rewrite Hdirs.
    vm_compute. discriminate.
  - exists r, w'. split; [exact Hrun|exact Hindex].
Defined.


Lemma main_returned_zero_witness :
  os_path_isdir "out"
    (_main loads dumps repr first_seen glob "/opt/gather" "in" "out" world0).2
  = true ∧
  is_Some
    (files
       (_main loads dumps repr first_seen glob "/opt/gather" "in" "out"
          world0).2 !! "out/index.html").
Proof.
  destruct (main_returned_zero loads dumps repr first_seen glob "/opt/gather"
              "in" "out" world0
              (_main loads dumps repr first_seen glob "/opt/gather"
                 "in" "out" world0).2)
    as (_ & Hout & Hindex & _); [vm_compute; reflexivity|].
  split; [exact Hout|exact Hindex].
Defined.

Lemma output_below_file_raises_witness :
  _main loads dumps repr first_seen Runs.glob "/opt/gather"
    "old" "notes.txt/sub" Runs.world1
  = (Raise (OSError ENOTDIR "notes.txt/sub"), Runs.world1).
Proof.
  apply (output_below_file_raises loads dumps repr first_seen Runs.glob
           "/opt/gather" "old" "notes.txt/sub" Runs.world1 "notes.txt" "sub");
    try (vm_compute; reflexivity).
  discriminate.
Defined.

Lemma same_file_reported_witness :
  ∃ w',
    _main loads dumps repr first_seen glob "/opt/gather"
      "in" "/opt/gather/dependencies" Runs.world2
    = (Ok 1, w') ∧
    stderr w'
    = "'/opt/gather/dependencies/style.css' and "
      +:+ "'/opt/gather/dependencies/style.css' are the same file"
      +:+ newline ∧
    is_Some (files w' !! "/opt/gather/dependencies/index.html").
Proof.
  destruct (same_file_reported loads dumps repr first_seen glob "/opt/gather"
              "in" "/opt/gather/dependencies" Runs.world2 all_results
              "/opt/gather/dependencies/style.css" [])
    as (w' & Hrun & (_ & Herr & _) & Hindex & _);
    [vm_compute; reflexivity| vm_compute; reflexivity
    |vm_compute; reflexivity| vm_compute; reflexivity
    |vm_compute; reflexivity| vm_compute; reflexivity| | | |].
  - intros w'' _. reflexivity.
  - exists "body {}". vm_compute. reflexivity.
  - vm_compute. reflexivity.
  - eexists. split; [exact Hrun|]. split; [|exact Hindex].
    unfold printed. cbn [stderr]. rewrite Herr. reflexivity.
Defined.
